(** * Gas benchmark drivers: [gas_bench1.py] and [gas_bench2.py]

    A shallow embedding of the two benchmark scripts.  Python integers
    are [Z], byte strings and text are [string], the dictionary of local
    nonce counters is a [gmap], and every statement that talks to the
    outside (JSON-RPC through web3, subprocesses, files, numpy and
    matplotlib) is a call to an oracle that may answer or fail.  The
    scripts run on one control thread, so a program is a function from
    the world to an outcome and a new world. *)

From Stdlib Require Import ZArith Ascii DecimalString.
From Stdlib Require DecimalPos DecimalZ.
From stdpp Require Import base option list list_numbers gmap strings.

Local Open Scope Z_scope.

(** ** Python values used by the scripts *)

(** [str(n)] for an [int], as used by f-strings. *)
Definition str_of_Z (n : Z) : string := NilZero.string_of_int (Z.to_int n).

(** [f"{n:2d}"]: decimal, right-aligned in a field of width two. *)
Definition str_of_Z_2d (n : Z) : string :=
  let s := str_of_Z n in
  if (String.length s <? 2)%nat then " " +:+ s else s.

Definition hex_digits : list ascii :=
  ["0"; "1"; "2"; "3"; "4"; "5"; "6"; "7"; "8"; "9"; "a"; "b"; "c"; "d"; "e"; "f"]%char.

Definition hex_digit (n : N) : ascii :=
  default "0"%char (hex_digits !! N.to_nat n).

(** [HexBytes.hex()]: two lower-case hexadecimal digits per byte, no
    prefix. *)
Fixpoint hex (b : string) : string :=
  match b with
  | EmptyString => EmptyString
  | String c b' =>
      let n := N_of_ascii c in
      String (hex_digit (n / 16)) (String (hex_digit (n mod 16)) (hex b'))
  end.

Inductive Value :=
| VBytes (b : string)
| VInt (n : Z).

(** A decoded JSON document, as far as [deploy] looks into it. *)
#[warnings="-register-all"]
Inductive json :=
| JNull
| JStr (s : string)
| JObj (kvs : list (string * json))
| JOther (truthy : bool).

(** An account: an address and the key that signs for it. *)
Record Account := { address : string; privkey : string }.

Record Contract := { contract_address : option string; contract_abi : json }.

Inductive Call :=
| FnCall (c : Contract) (fn_name : string) (args : list Value)
| Constructor (abi : json) (bytecode : json)
| Transfer (to : string) (value : Z).

(** The dictionary handed to [build_transaction]. *)
Record TxParams := {
  p_from : string;
  p_nonce : Z;
  p_gas : option Z;
  p_gasPrice : Z
}.

Record Tx := {
  tx_call : Call;
  tx_from : option string;
  tx_nonce : Z;
  tx_gas : Z;
  tx_gasPrice : Z
}.

Record SignedTx := { signer : Account; raw_transaction : Tx }.

Record Receipt := {
  gasUsed : Z;
  status : Z;
  contractAddress : option string
}.

(** ** Exceptions and outcomes *)

Inductive exn :=
| ZeroDivisionError
| KeyError (key : string)
| IndexError
| AttributeError
| TypeError
| ValueError (msg : string)
| RuntimeError (msg : string)
| LibraryError (name : string).

Inductive outcome (A : Type) :=
| Return (a : A)
| Raise (e : exn).
Arguments Return {A} a.
Arguments Raise {A} e.

Definition is_return {A} (o : outcome A) : bool :=
  match o with Return _ => true | Raise _ => false end.

(** ** The outside world *)

(** What an oracle answers: a value, or the name of the exception the
    library raised. *)
Inductive reply (A : Type) :=
| Reply (a : A)
| Fault (name : string).
Arguments Reply {A} a.
Arguments Fault {A} name.

Definition answers {A} (r : reply A) : bool :=
  match r with Reply _ => true | Fault _ => false end.

(** The collaborators of the scripts.  [σ] is the state of everything
    outside the Python process: the chain, the operating system, the
    file system.  Every call may change it. *)
Class External (σ : Type) := {
  (* JSON-RPC through web3 *)
  web3_is_connected : σ → bool * σ;
  web3_get_transaction_count : string → σ → reply Z * σ;
  web3_get_balance : string → σ → reply Z * σ;
  web3_fill_defaults : Call → TxParams → σ → reply Z * σ;
  web3_send_raw_transaction : SignedTx → σ → reply string * σ;
  web3_wait_for_transaction_receipt : string → σ → reply Receipt * σ;
  web3_latest_block_transactions : σ → reply (list string) * σ;
  (* local cryptography *)
  keccak_text : string → string;
  address_of_key : string → string;
  (* operating system *)
  os_run : list string → σ → reply unit * σ;
  os_popen : list string → σ → reply unit * σ;
  os_exited_meanwhile : σ → bool * σ;
  os_exits_in_time : σ → bool * σ;
  sys_platform_win32 : bool;
  os_mkdir : string → σ → reply unit * σ;
  os_open_w : string → σ → reply unit * σ;
  os_load_json : string → σ → reply json * σ;
  (* numpy and matplotlib *)
  np_print_stats : string → list Z → σ → reply unit * σ;
  plt_make_plots : list (string * (list Z * list Z * list string)) → σ → reply unit * σ
}.

(** What the client saw of the chain, in order. *)
Inductive event :=
| EvGetCount (a : string) (n : Z)
| EvSend (s : SignedTx) (h : string)
| EvReceipt (h : string) (r : Receipt).

Inductive proc_state := NoProc | Alive | Dead.

Record World (σ : Type) := mkWorld {
  outside : σ;
  rpc_log : list event;
  stdout : list string;
  child : proc_state;
  files : gmap string (list string)
}.
Arguments mkWorld {σ}.
Arguments outside {σ}.
Arguments rpc_log {σ}.
Arguments stdout {σ}.
Arguments child {σ}.
Arguments files {σ}.

(** ** The monad of the scripts *)

Definition M (σ A : Type) : Type := World σ → outcome A * World σ.

Global Instance M_ret {σ} : MRet (M σ) := λ A a w, (Return a, w).
Global Instance M_bind {σ} : MBind (M σ) := λ A B f m w,
  match m w with
  | (Return a, w') => f a w'
  | (Raise e, w') => (Raise e, w')
  end.

Definition raise {σ A} (e : exn) : M σ A := λ w, (Raise e, w).

(** [for x in l: s = body(x, s)] *)
Fixpoint for_each {σ A S} (body : A → S → M σ S) (l : list A) (s : S) : M σ S :=
  match l with
  | [] => mret s
  | x :: l' => s' ← body x s; for_each body l' s'
  end.

(** [range(lo, hi)] *)
Definition range (lo hi : Z) : list Z := seqZ lo (hi - lo).

(** [for i, x in enumerate(l, start)] *)
Definition enumerate {A} (l : list A) (start : Z) : list (Z * A) :=
  zip (seqZ start (Z.of_nat (length l))) l.

Section Primitives.
Context {σ : Type} `{!External σ}.

Definition set_outside (w : World σ) (s : σ) : World σ :=
  mkWorld s (rpc_log w) (stdout w) (child w) (files w).

Definition log_event (ev : event) (w : World σ) : World σ :=
  mkWorld (outside w) (rpc_log w ++ [ev]) (stdout w) (child w) (files w).

(** Ask an oracle; a fault surfaces as the library's exception. *)
Definition ask {A} (q : σ → reply A * σ) : M σ A := λ w,
  match q (outside w) with
  | (Reply a, s) => (Return a, set_outside w s)
  | (Fault n, s) => (Raise (LibraryError n), set_outside w s)
  end.

Definition ask_bool (q : σ → bool * σ) : M σ bool := λ w,
  let '(b, s) := q (outside w) in (Return b, set_outside w s).

Definition modify (f : World σ → World σ) : M σ unit := λ w, (Return tt, f w).

Definition record (ev : event) : M σ unit := modify (log_event ev).

Definition print (line : string) : M σ unit :=
  modify (λ w, mkWorld (outside w) (rpc_log w) (stdout w ++ [line]) (child w) (files w)).

(** [w3.eth.get_transaction_count(a)] *)
Definition get_transaction_count (a : string) : M σ Z :=
  n ← ask (web3_get_transaction_count a); record (EvGetCount a n);; mret n.

(** [w3.eth.send_raw_transaction(signed.raw_transaction)] *)
Definition send_raw_transaction (s : SignedTx) : M σ string :=
  h ← ask (web3_send_raw_transaction s); record (EvSend s h);; mret h.

(** [w3.eth.wait_for_transaction_receipt(h)] *)
Definition wait_for_transaction_receipt (h : string) : M σ Receipt :=
  r ← ask (web3_wait_for_transaction_receipt h); record (EvReceipt h r);; mret r.

(** [call.build_transaction(params)]: web3 completes the dictionary;
    the gas limit is estimated through the node unless it is given. *)
Definition build_transaction (c : Call) (p : TxParams) : M σ Tx :=
  g ← ask (web3_fill_defaults c p);
  mret {| tx_call := c; tx_from := Some (p_from p); tx_nonce := p_nonce p;
          tx_gas := default g (p_gas p); tx_gasPrice := p_gasPrice p |}.

(** [acct.sign_transaction(tx)] *)
Definition sign_transaction (acct : Account) (tx : Tx) : SignedTx :=
  {| signer := acct; raw_transaction := tx |}.

(** [w3.to_wei(n, "gwei")] *)
Definition to_wei_gwei (n : Z) : Z := n * 10 ^ 9.

(** [Account.from_key(key)] *)
Definition from_key (key : string) : Account :=
  {| address := address_of_key key; privkey := key |}.

Definition set_child (st : proc_state) : M σ unit :=
  modify (λ w, mkWorld (outside w) (rpc_log w) (stdout w) st (files w)).

(** [with path.open("w") as f]: the file is created or emptied. *)
Definition open_w (path : string) : M σ unit :=
  ask (os_open_w path);;
  modify (λ w, mkWorld (outside w) (rpc_log w) (stdout w) (child w)
                 (<[path := []]> (files w))).

(** [f.write(text)] *)
Definition write (path text : string) : M σ unit :=
  modify (λ w, mkWorld (outside w) (rpc_log w) (stdout w) (child w)
                 (<[path := files w !!! path ++ [text]]> (files w))).

(** [try: body  finally: fin] *)
Definition try_finally {A} (body : M σ A) (fin : M σ unit) : M σ A := λ w,
  let '(o, w1) := body w in
  match fin w1 with
  | (Return _, w2) => (o, w2)
  | (Raise e, w2) => (Raise e, w2)
  end.

(** [v = None; try: v = acquire(); body  finally: fin(v)]: the variable
    holds [None] in the [finally] clause when [acquire] raised. *)
Definition try_finally_var {V A} (acquire : M σ V) (body : V → M σ A)
    (fin : option V → M σ unit) : M σ A := λ w,
  match acquire w with
  | (Raise e, w1) => try_finally (raise e) (fin None) w1
  | (Return v, w1) => try_finally (body v) (fin (Some v)) w1
  end.

(** [try: body  except Exception: handler] *)
Definition try_except {A} (body handler : M σ A) : M σ A := λ w,
  match body w with
  | (Return a, w1) => (Return a, w1)
  | (Raise _, w1) => handler w1
  end.
End Primitives.


(** ** Python built-ins the scripts rely on *)

Definition nl : string := String "010"%char EmptyString.

(** [sep.join(l)] *)
Fixpoint join (sep : string) (l : list string) : string :=
  match l with
  | [] => ""
  | [x] => x
  | x :: l' => x +:+ sep +:+ join sep l'
  end.

(** A dictionary whose iteration order matters: insertion order, and an
    assignment to a present key keeps the key's place. *)
Definition dict_set {V} (k : string) (v : V) (d : list (string * V)) : list (string * V) :=
  if decide (k ∈ d.*1)
  then (λ kv, if decide (kv.1 = k) then (k, v) else kv) <$> d
  else d ++ [(k, v)].

Definition is_space (c : ascii) : bool :=
  let n := nat_of_ascii c in
  ((9 <=? n) && (n <=? 13) || (28 <=? n) && (n <=? 32))%nat.

Definition digit_of (c : ascii) : option Z :=
  let n := nat_of_ascii c in
  if ((48 <=? n) && (n <=? 57))%nat then Some (Z.of_nat n - 48) else None.

Fixpoint lstrip (cs : list ascii) : list ascii :=
  match cs with
  | c :: cs' => if is_space c then lstrip cs' else cs
  | [] => []
  end.

Definition strip (cs : list ascii) : list ascii :=
  reverse (lstrip (reverse (lstrip cs))).

(** Decimal digits, single underscores allowed between digits. *)
Fixpoint parse_digits (cs : list ascii) (acc : Z) (after_digit : bool) : option Z :=
  match cs with
  | [] => if after_digit then Some acc else None
  | c :: cs' =>
      match digit_of c with
      | Some d => parse_digits cs' (10 * acc + d) true
      | None =>
          if decide (c = "_"%char)
          then if after_digit then parse_digits cs' acc false else None
          else None
      end
  end.

(** [int(s)] for text in ASCII: surrounding white space, an optional
    sign, decimal digits.  Anything else is a [ValueError]. *)
Definition py_int (s : string) : option Z :=
  match strip (String.list_ascii_of_string s) with
  | "+"%char :: ds => parse_digits ds 0 false
  | "-"%char :: ds => Z.opp <$> parse_digits ds 0 false
  | ds => parse_digits ds 0 false
  end.

(** [int(os.environ.get(name, dflt))] at import time. *)
Definition env_int (env : gmap string string) (name dflt : string) : outcome Z :=
  let s := default dflt (env !! name) in
  match py_int s with
  | Some n => Return n
  | None => Raise (ValueError s)
  end.

(** JSON documents as Python sees them after [json.load]. *)
Definition json_truthy (j : json) : bool :=
  match j with
  | JNull => false
  | JStr s => if decide (s = "") then false else true
  | JObj kvs => if decide (kvs = []) then false else true
  | JOther b => b
  end.

Fixpoint assoc (k : string) (kvs : list (string * json)) : option json :=
  match kvs with
  | [] => None
  | (k', v) :: kvs' => if decide (k' = k) then Some v else assoc k kvs'
  end.

(** [j[k]] *)
Definition json_getitem (j : json) (k : string) : outcome json :=
  match j with
  | JObj kvs => match assoc k kvs with Some v => Return v | None => Raise (KeyError k) end
  | _ => Raise TypeError
  end.

(** [j.get(k, dflt)] *)
Definition json_get (j : json) (k : string) (dflt : json) : outcome json :=
  match j with
  | JObj kvs => Return (default dflt (assoc k kvs))
  | _ => Raise AttributeError
  end.

(** * Code that both scripts contain, word for word *)

Module Common.

Definition RPC_URL : string := "http://127.0.0.1:8545".
Definition ANVIL_CMD : list string := ["anvil"; "--silent"].
Definition BUILD_CMD : list string := ["forge"; "build"].
Definition OUT_DIR : string := "gas_out".
Definition ANVIL_PRIVKEY : string :=
  "0xac0974bec39a17e36ba4a6b4d238ff944bacb478cbed5efcae784d7bf4f2ff80".

Record contract_spec := {
  name : string;
  artifact : string;
  fn : string;
  args_factory : Z → list Value
}.

Record deployed_contract := {
  d_contract : Contract;
  d_fn : string;
  d_args_factory : Z → list Value
}.

Section Common.
Context {σ : Type} `{!External σ}.
Variable GAS_PRICE_GWEI : Z.

Definition lift {A} (o : outcome A) : M σ A := λ w, (o, w).

Definition CONTRACTS : list contract_spec := [
  {| name := "DepositContract";
     artifact := "out/DepositContract.sol/DepositContract.json";
     fn := "deposit";
     args_factory := λ i, [VBytes (keccak_text ("leaf-" +:+ str_of_Z i))] |};
  {| name := "DepositContractWithProofs";
     artifact := "out/DepositContractWithProofs.sol/DepositContractWithProofs.json";
     fn := "deposit";
     args_factory := λ i, [VBytes (keccak_text ("leaf-" +:+ str_of_Z i))] |}
].

Definition run (cmd : list string) : M σ unit :=
  print ("$ " +:+ join " " cmd);;
  ask (os_run cmd).

(** [subprocess.Popen(ANVIL_CMD, ...)]: from now on a child is alive. *)
Definition Popen (cmd : list string) : M σ unit :=
  ask (os_popen cmd);; set_child Alive.

Definition start_anvil : M σ unit :=
  print "🚀 Starting Anvil...";;
  p ← Popen ANVIL_CMD;
  (* time.sleep(1.5) *)
  mret p.

(** [p.poll() is None]: the child is still running. *)
Definition poll_is_None : M σ bool := λ w,
  match child w with
  | Alive =>
      (gone ← ask_bool os_exited_meanwhile;
       if gone : bool then set_child Dead;; mret false else mret true) w
  | _ => (Return false, w)
  end.

(** [p.terminate()] and [os.kill(p.pid, signal.SIGTERM)] ask the child
    to stop; whether it does shows at the next [wait]. *)
Definition terminate : M σ unit := mret tt.
Definition kill_SIGTERM : M σ unit := mret tt.

(** [p.wait(timeout=3)] *)
Definition wait_3s : M σ unit :=
  gone ← ask_bool os_exits_in_time;
  if gone : bool then set_child Dead else raise (LibraryError "TimeoutExpired").

(** [p.kill()] *)
Definition kill : M σ unit := set_child Dead.

Definition stop_process (p : option unit) : M σ unit :=
  match p with
  | None => mret tt
  | Some _ =>
      running ← poll_is_None;
      if running : bool then
        print "🛑 Stopping Anvil...";;
        (if sys_platform_win32 then terminate else kill_SIGTERM);;
        try_except wait_3s kill
      else mret tt
  end.

Definition connect_web3 : M σ unit :=
  ok ← ask_bool web3_is_connected;
  if ok : bool then mret tt
  else raise (RuntimeError "Could not connect to Anvil RPC at 127.0.0.1:8545").

Definition load_artifact (path : string) : M σ json :=
  ask (os_load_json path).

Definition deploy (artifact : json) (acct : Account) : M σ Contract :=
  abi ← lift (json_getitem artifact "abi");
  b0 ← lift (json_get artifact "bytecode" (JObj []));
  b1 ← lift (json_get b0 "object" JNull);
  bytecode ←
    (if json_truthy b1 then mret b1 else
       b2 ← lift (json_get artifact "bytecode" JNull);
       if json_truthy b2 then mret b2 else
         e ← lift (json_getitem artifact "evm");
         eb ← lift (json_getitem e "bytecode");
         lift (json_getitem eb "object"));
  let ctor := Constructor abi bytecode in
  nonce ← get_transaction_count (address acct);
  tx ← build_transaction ctor
         {| p_from := address acct; p_nonce := nonce; p_gas := Some 5000000;
            p_gasPrice := to_wei_gwei GAS_PRICE_GWEI |};
  let signed := sign_transaction acct tx in
  tx_hash ← send_raw_transaction signed;
  receipt ← wait_for_transaction_receipt tx_hash;
  let addr := contractAddress receipt in
  mret {| contract_address := addr; contract_abi := abi |}.

(** numpy computes and prints the statistics. *)
Definition print_stats (name : string) (gas_values : list Z) : M σ unit :=
  ask (np_print_stats name gas_values).

Definition csv_line (name : string) (row : Z * Z * string) : string :=
  let '(i, gas, txh) := row in
  name +:+ "," +:+ str_of_Z i +:+ "," +:+ str_of_Z gas +:+ "," +:+ txh +:+ nl.

(** [save_csv], for the report file of either script. *)
Definition save_csv (report : string)
    (all_results : list (string * list (Z * Z * string))) : M σ unit :=
  let out := OUT_DIR +:+ "/" +:+ report in
  open_w out;;
  write out ("contract,i,gas,txhash" +:+ nl);;
  for_each (λ '(name, rows) (_ : unit),
              for_each (λ row (_ : unit), write out (csv_line name row)) rows tt)
           all_results tt;;
  print ("💾 Saved CSV: " +:+ out).

(** [[(i, gas_list[i], tx_hashes[i]) for i in range(len(gas_list))]] *)
Definition rows_of (gas_list : list Z) (tx_hashes : list string) : M σ (list (Z * Z * string)) :=
  for_each (λ i rows,
              match gas_list !! Z.to_nat i, tx_hashes !! Z.to_nat i with
              | Some g, Some h => mret (rows ++ [(i, g, h)])
              | _, _ => raise IndexError
              end)
           (range 0 (Z.of_nat (length gas_list))) [].

(** The loop "4) Deploy both". *)
Definition deploy_all (acct : Account) : M σ (list (string * deployed_contract)) :=
  for_each (λ c deployed,
              artifact ← load_artifact (artifact c);
              print ("🧱 Deploying " +:+ name c +:+ " ...");;
              contract ← deploy artifact acct;
              print ("✅ " +:+ name c +:+ " at "
                       +:+ default "None" (contract_address contract));;
              mret (dict_set (name c)
                      {| d_contract := contract; d_fn := fn c;
                         d_args_factory := args_factory c |} deployed))
           CONTRACTS [].
End Common.

End Common.

(** * [gas_bench1.py]: the transaction pipeliner *)

Module GasBench1.
Import Common.

Record pipeline_locals := {
  base_nonces : gmap string Z;
  tx_hashes : list string;
  gas_used : list Z
}.

Section Pipeliner.
Context {σ : Type} `{!External σ}.
Variable GAS_PRICE_GWEI : Z.

Definition prepare_accounts (num_accounts : Z) : M σ (list Account) :=
  let base := from_key ANVIL_PRIVKEY in
  let accounts :=
    [base] ++ ((λ i, from_key (keccak_text ("extra-" +:+ str_of_Z i)))
                 <$> range 0 (num_accounts - 1)) in
  let funding_amount := 100 * 10 ^ 18 in
  nonce ← get_transaction_count (address base);
  for_each (λ acct nonce,
              balance ← ask (web3_get_balance (address acct));
              if decide (balance = 0) then
                let tx := {| tx_call := Transfer (address acct) funding_amount;
                             tx_from := None; tx_nonce := nonce; tx_gas := 21000;
                             tx_gasPrice := to_wei_gwei GAS_PRICE_GWEI |} in
                let signed := sign_transaction base tx in
                send_raw_transaction signed;;
                mret (nonce + 1)
              else mret nonce)
           (drop 1 accounts) nonce;;
  (if decide (num_accounts > 1) then
     txs ← ask web3_latest_block_transactions;
     match last txs with
     | None => raise IndexError
     | Some h => wait_for_transaction_receipt h;; mret tt
     end
   else mret tt);;
  mret accounts.

(** [{acct.address: w3.eth.get_transaction_count(acct.address) for acct in accounts}] *)
Definition query_base_nonces (accounts : list Account) : M σ (gmap string Z) :=
  for_each (λ acct d, n ← get_transaction_count (address acct);
                      mret (<[address acct := n]> d))
           accounts ∅.

(** One turn of the loop "1. Sign & send". *)
Definition sign_and_send (contract : Contract) (fn_name : string)
    (args_factory : Z → list Value) (accounts : list Account)
    (i : Z) (st : gmap string Z * list string) : M σ (gmap string Z * list string) :=
  let '(nonces, hashes) := st in
  if decide (length accounts = 0%nat) then raise ZeroDivisionError else
  match accounts !! Z.to_nat (i `mod` Z.of_nat (length accounts)) with
  | None => raise IndexError
  | Some acct =>
      let args := args_factory i in
      let fn := FnCall contract fn_name args in
      match nonces !! address acct with
      | None => raise (KeyError (address acct))
      | Some nonce =>
          tx ← build_transaction fn
                 {| p_from := address acct; p_nonce := nonce; p_gas := None;
                    p_gasPrice := to_wei_gwei GAS_PRICE_GWEI |};
          let nonces' := <[address acct := nonce + 1]> nonces in
          let signed := sign_transaction acct tx in
          txh ← send_raw_transaction signed;
          mret (nonces', hashes ++ [txh])
      end
  end.

(** One turn of the loop "2. Collect receipts". *)
Definition collect_receipt (fn_name : string) (n_calls : Z)
    (it : Z * string) (gas : list Z) : M σ (list Z) :=
  let '(i, txh) := it in
  r ← wait_for_transaction_receipt txh;
  let gas' := gas ++ [gasUsed r] in
  (if decide (Z.land i (i - 1) = 0)
   then print ("  ⚡ " +:+ fn_name +:+ " insert " +:+ str_of_Z i +:+ ": gas="
                 +:+ str_of_Z (gasUsed r))
   else mret tt);;
  (if decide (i `mod` Z.max 1 (n_calls `div` 10) = 0)
   then print ("  receipts " +:+ str_of_Z i +:+ "/" +:+ str_of_Z n_calls)
   else mret tt);;
  mret gas'.

(** The body of [call_deposit_many_multiacct], up to its [return]:
    the values of its local variables at that point. *)
Definition call_deposit_many_multiacct_locals (contract : Contract)
    (fn_name : string) (args_factory : Z → list Value)
    (accounts : list Account) (n_calls : Z) : M σ pipeline_locals :=
  nonces0 ← query_base_nonces accounts;
  '(nonces, hashes) ← for_each (sign_and_send contract fn_name args_factory accounts)
                        (range 0 n_calls) (nonces0, []);
  gas ← for_each (collect_receipt fn_name n_calls) (enumerate hashes 1) [];
  mret {| base_nonces := nonces; tx_hashes := hashes; gas_used := gas |}.

Definition call_deposit_many_multiacct (contract : Contract)
    (fn_name : string) (args_factory : Z → list Value)
    (accounts : list Account) (n_calls : Z) : M σ (list Z * list string) :=
  loc ← call_deposit_many_multiacct_locals contract fn_name args_factory
          accounts n_calls;
  mret (gas_used loc, hex <$> tx_hashes loc).
End Pipeliner.

(** The module-level settings read from the environment. *)
Record Config := {
  BLOCK_TIME : Z;
  NUM_ACCOUNTS : Z;
  N : Z;
  GAS_PRICE_GWEI : Z
}.

Definition load_config (env : gmap string string) : outcome Config :=
  match env_int env "BLOCK_TIME" "0" with
  | Raise e => Raise e
  | Return block_time =>
  match env_int env "NUM_ACCOUNTS" "20" with
  | Raise e => Raise e
  | Return num_accounts =>
  match env_int env "N" "25000" with
  | Raise e => Raise e
  | Return n =>
  match env_int env "GAS_GWEI" "1" with
  | Raise e => Raise e
  | Return gas_price_gwei =>
      Return {| BLOCK_TIME := block_time; NUM_ACCOUNTS := num_accounts;
                N := n; GAS_PRICE_GWEI := gas_price_gwei |}
  end end end end.

Section Main.
Context {σ : Type} `{!External σ}.
Variable cfg : Config.

Definition save_csv := save_csv (σ := σ) "gas_report1.csv".

Definition make_plots (data : list (string * (list Z * list Z * list string))) : M σ unit :=
  ask (plt_make_plots data).

(** The loop "5) Call deposit N times for each and collect gas". *)
Definition run_all (deployed : list (string * deployed_contract))
    (accounts : list Account)
  : M σ (list (string * list (Z * Z * string))
         * list (string * (list Z * list Z * list string))) :=
  for_each (λ '(name, obj) '(all_results, plot_data),
              print (nl +:+ "➡️  Running " +:+ name +:+ ".deposit(...) "
                       +:+ str_of_Z (N cfg) +:+ " times");;
              '(gas_list, tx_hashes) ←
                call_deposit_many_multiacct (GAS_PRICE_GWEI cfg) (d_contract obj)
                  (d_fn obj) (d_args_factory obj) accounts (N cfg);
              print_stats name gas_list;;
              rows ← rows_of gas_list tx_hashes;
              mret (dict_set name rows all_results,
                    dict_set name (range 0 (Z.of_nat (length gas_list)), gas_list, [])
                      plot_data))
           deployed ([], []).

(** What [main] does inside [try:] once Anvil has been started. *)
Definition main_try : M σ unit :=
  connect_web3;;
  accounts ← prepare_accounts (GAS_PRICE_GWEI cfg) (NUM_ACCOUNTS cfg);
  match accounts !! 0%nat with
  | None => raise IndexError
  | Some first =>
      print ("Using " +:+ str_of_Z (Z.of_nat (length accounts))
               +:+ " funded accounts. First: " +:+ address first);;
      deployed ← deploy_all (GAS_PRICE_GWEI cfg) first;
      '(all_results, plot_data) ← run_all deployed accounts;
      save_csv all_results;;
      make_plots plot_data
  end.

(** [anvil = None; try: anvil = start_anvil(); ...; finally: stop_process(anvil)] *)
Definition main : M σ unit :=
  print "📦 Compiling with forge...";;
  run BUILD_CMD;;
  try_finally_var start_anvil (λ _, main_try) stop_process.
End Main.

(** Running the script: the module level, then [main()]. *)
Definition script {σ : Type} `{!External σ} (env : gmap string string) : M σ unit :=
  cfg ← lift (load_config env);
  ask (os_mkdir OUT_DIR);;
  main cfg.

End GasBench1.

(** * [gas_bench2.py]: the precount stepper *)

Module GasBench2.
Import Common.

Definition POWERS : Z := 28.

Section Stepper.
Context {σ : Type} `{!External σ}.
Variable GAS_PRICE_GWEI : Z.

Definition set_failed (k new_count : Z) : string :=
  "setDepositCount failed for k=" +:+ str_of_Z k +:+ ", new_count="
    +:+ str_of_Z new_count +:+ ".".

Definition deposit_failed (k new_count : Z) : string :=
  "deposit failed for k=" +:+ str_of_Z k +:+ ", new_count="
    +:+ str_of_Z new_count +:+ ". Receipt status=0".

Definition checkpoint_line (k new_count gas : Z) : string :=
  "  k=" +:+ str_of_Z_2d k +:+ ", set depositCount to " +:+ str_of_Z new_count
    +:+ ", gas=" +:+ str_of_Z gas.

(** One turn of the loop over [k]; the two lists are appended to only
    at its end, after both receipts have been checked. *)
Definition checkpoint (contract : Contract) (fn_name : string)
    (args_factory : Z → list Value) (acct : Account)
    (k : Z) (st : list Z * list string) : M σ (list Z * list string) :=
  let '(gas_list, tx_hashes) := st in
  let new_count := 2 ^ k - 1 in
  (* 1) setDepositCount *)
  let set_call := FnCall contract "setDepositCount" [VInt new_count] in
  nonce ← get_transaction_count (address acct);
  tx ← build_transaction set_call
         {| p_from := address acct; p_nonce := nonce; p_gas := None;
            p_gasPrice := to_wei_gwei GAS_PRICE_GWEI |};
  let signed := sign_transaction acct tx in
  tx_hash ← send_raw_transaction signed;
  receipt ← wait_for_transaction_receipt tx_hash;
  if decide (status receipt ≠ 1) then
    raise (RuntimeError (set_failed k new_count))
  else
  (* 2) One deposit after modifying depositCount *)
  let args := args_factory k in
  let fn := FnCall contract fn_name args in
  nonce2 ← get_transaction_count (address acct);
  tx2 ← build_transaction fn
          {| p_from := address acct; p_nonce := nonce2; p_gas := None;
             p_gasPrice := to_wei_gwei GAS_PRICE_GWEI |};
  let signed2 := sign_transaction acct tx2 in
  tx_hash2 ← send_raw_transaction signed2;
  receipt2 ← wait_for_transaction_receipt tx_hash2;
  if decide (status receipt2 ≠ 1) then
    raise (RuntimeError (deposit_failed k new_count))
  else
  let gas_list' := gas_list ++ [gasUsed receipt2] in
  let tx_hashes' := tx_hashes ++ [hex tx_hash2] in
  print (checkpoint_line k new_count (gasUsed receipt2));;
  mret (gas_list', tx_hashes').

(** A [for] loop that keeps its variables when a turn raises: they
    hold what the last completed turn left. *)
Fixpoint for_each_keep {A S} (body : A → S → M σ S) (l : list A) (s : S)
    (w : World σ) : outcome unit * S * World σ :=
  match l with
  | [] => (Return tt, s, w)
  | x :: l' =>
      match body x s w with
      | (Return s', w') => for_each_keep body l' s' w'
      | (Raise e, w') => (Raise e, s, w')
      end
  end.

(** [call_deposit_after_precounts] with its two local lists, which
    exist whether the function returns or raises. *)
Definition call_deposit_after_precounts_locals (contract : Contract)
    (fn_name : string) (args_factory : Z → list Value) (acct : Account)
    (max_power : Z) (w : World σ) : outcome unit * (list Z * list string) * World σ :=
  for_each_keep (checkpoint contract fn_name args_factory acct)
    (range 1 (max_power + 1)) ([], []) w.

Definition call_deposit_after_precounts (contract : Contract)
    (fn_name : string) (args_factory : Z → list Value) (acct : Account)
    (max_power : Z) : M σ (list Z * list string) := λ w,
  match call_deposit_after_precounts_locals contract fn_name args_factory acct
          max_power w with
  | (Return _, lists, w') => (Return lists, w')
  | (Raise e, _, w') => (Raise e, w')
  end.
End Stepper.

Record Config := { GAS_PRICE_GWEI : Z }.

Definition load_config (env : gmap string string) : outcome Config :=
  match env_int env "GAS_GWEI" "1" with
  | Raise e => Raise e
  | Return gas_price_gwei => Return {| GAS_PRICE_GWEI := gas_price_gwei |}
  end.

Section Main.
Context {σ : Type} `{!External σ}.
Variable cfg : Config.

Definition save_csv := save_csv (σ := σ) "gas_report2.csv".

Definition make_plots (data : list (string * (list Z * list Z * list string))) : M σ unit :=
  ask (plt_make_plots data).

(** [f"{2 ** k - 1}\n(2^{k}-1)"] *)
Definition tick_label (k : Z) : string :=
  str_of_Z (2 ^ k - 1) +:+ nl +:+ "(2^" +:+ str_of_Z k +:+ "-1)".

Definition run_all (deployed : list (string * deployed_contract)) (acct : Account)
  : M σ (list (string * list (Z * Z * string))
         * list (string * (list Z * list Z * list string))) :=
  for_each (λ '(name, obj) '(all_results, plot_data),
              print (nl +:+ "➡️  Running " +:+ name
                       +:+ ": set depositCount to 2^k-1 then deposit (k=1.."
                       +:+ str_of_Z POWERS +:+ ")");;
              '(gas_list, tx_hashes) ←
                call_deposit_after_precounts (GAS_PRICE_GWEI cfg) (d_contract obj)
                  (d_fn obj) (d_args_factory obj) acct POWERS;
              print_stats name gas_list;;
              rows ← rows_of gas_list tx_hashes;
              let exponents := range 1 (Z.of_nat (length gas_list) + 1) in
              mret (dict_set name rows all_results,
                    dict_set name (exponents, gas_list, tick_label <$> exponents)
                      plot_data))
           deployed ([], []).

Definition main_try : M σ unit :=
  connect_web3;;
  let acct := from_key ANVIL_PRIVKEY in
  print ("Using account: " +:+ address acct);;
  deployed ← deploy_all (GAS_PRICE_GWEI cfg) acct;
  '(all_results, plot_data) ← run_all deployed acct;
  save_csv all_results;;
  make_plots plot_data.

Definition main : M σ unit :=
  print "📦 Compiling with forge...";;
  run BUILD_CMD;;
  try_finally_var start_anvil (λ _, main_try) stop_process.
End Main.

Definition script {σ : Type} `{!External σ} (env : gmap string string) : M σ unit :=
  cfg ← lift (load_config env);
  ask (os_mkdir OUT_DIR);;
  main cfg.

End GasBench2.

(** * A stub chain

    Its state counts the transactions accepted so far; the hash of a
    transaction is its sequence number; every receipt reports 21000 gas
    and the status that [status_of] gives for the current count. *)

Module Stub.
Definition h_of (n : nat) : string := String (ascii_of_nat n) EmptyString.

Definition artifact_json : json :=
  JObj [("abi", JOther true); ("bytecode", JObj [("object", JStr "0x00")])].

Definition stub (status_of : nat → Z) : External nat := {|
  web3_is_connected s := (true, s);
  web3_get_transaction_count a s := (Reply (Z.of_nat (String.length a)), s);
  web3_get_balance a s := (Reply 0, s);
  web3_fill_defaults c p s := (Reply 50000, s);
  web3_send_raw_transaction t s := (Reply (h_of s), S s);
  web3_wait_for_transaction_receipt h s :=
    (Reply {| gasUsed := 21000; status := status_of s;
              contractAddress := Some "0xC0" |}, s);
  web3_latest_block_transactions s := (Reply [h_of (pred s)], s);
  keccak_text t := t;
  address_of_key k := k;
  os_run c s := (Reply tt, s);
  os_popen c s := (Reply tt, s);
  os_exited_meanwhile s := (false, s);
  os_exits_in_time s := (true, s);
  sys_platform_win32 := false;
  os_mkdir p s := (Reply tt, s);
  os_open_w p s := (Reply tt, s);
  os_load_json p s := (Reply artifact_json, s);
  np_print_stats n g s := (Reply tt, s);
  plt_make_plots d s := (Reply tt, s)
|}.

(** Every receipt reports success. *)
Definition success : External nat := stub (λ _, 1).

(** Every receipt reports failure. *)
Definition failing : External nat := stub (λ _, 0).

(** Receipts report failure once [n] transactions have been accepted. *)
Definition failing_from (n : nat) : External nat :=
  stub (λ s, if (s <? n)%nat then 1 else 0).

Definition w0 : World nat := mkWorld 0%nat [] [] NoProc ∅.
Definition acct (a : string) : Account := {| address := a; privkey := a |}.
Definition pool2 : list Account := [acct "A"; acct "BB"].
Definition c0 : Contract := {| contract_address := Some "0xC0"; contract_abi := JNull |}.
Definition leaf (i : Z) : list Value := [VInt i].

Definition small_config : GasBench1.Config :=
  {| GasBench1.BLOCK_TIME := 0; GasBench1.NUM_ACCOUNTS := 2;
     GasBench1.N := 3; GasBench1.GAS_PRICE_GWEI := 1 |}.

Definition config2 : GasBench2.Config := {| GasBench2.GAS_PRICE_GWEI := 1 |}.
End Stub.

(** * Observations on a run *)

(** The events logged between two worlds, and those a run appends. *)
Definition events_since {σ} (w w' : World σ) : list event :=
  drop (length (rpc_log w)) (rpc_log w').

Definition trace {σ A} (m : M σ A) (w : World σ) : list event :=
  events_since w (m w).2.

Definition sends (evs : list event) : list (SignedTx * string) :=
  omap (λ ev, match ev with EvSend s h => Some (s, h) | _ => None end) evs.

Definition receipts (evs : list event) : list (string * Receipt) :=
  omap (λ ev, match ev with EvReceipt h r => Some (h, r) | _ => None end) evs.

Definition queries (evs : list event) : list (string * Z) :=
  omap (λ ev, match ev with EvGetCount a n => Some (a, n) | _ => None end) evs.

(** The last count the queries [qs] report for address [a]. *)
Definition last_query (a : string) (qs : list (string * Z)) : option Z :=
  snd <$> last (filter (λ q, q.1 = a) qs).

(** The transaction count the chain last reported for address [a]. *)
Definition queried_count (a : string) (evs : list event) : option Z :=
  last_query a (queries evs).

(** The nonces of the transactions that address [a] signed, in the
    order they were submitted. *)
Definition nonces_of (a : string) (ss : list (SignedTx * string)) : list Z :=
  (λ sh, tx_nonce (raw_transaction sh.1))
    <$> filter (λ sh, address (signer sh.1) = a) ss.

(** The row that [main] builds for index [i] out of the two lists. *)
Definition row_at (gas_list : list Z) (tx_hashes : list string) (i : Z) : Z * Z * string :=
  (i, default 0 (gas_list !! Z.to_nat i), default "" (tx_hashes !! Z.to_nat i)).

(** The chain answers every request the benchmarks make of it. *)
Record Responsive {σ} `{!External σ} : Prop := {
  answers_count : ∀ a s, answers (web3_get_transaction_count a s).1;
  answers_fill : ∀ c p s, answers (web3_fill_defaults c p s).1;
  answers_send : ∀ t s, answers (web3_send_raw_transaction t s).1;
  answers_wait : ∀ h s, answers (web3_wait_for_transaction_receipt h s).1
}.
Arguments Responsive {σ} _.

(** Receipt [r] is an answer of the chain to a request about [h]. *)
Definition from_chain {σ} `{!External σ} (hr : string * Receipt) : Prop :=
  ∃ s s', web3_wait_for_transaction_receipt hr.1 s = (Reply hr.2, s').

(** Every receipt the chain hands out reports success. *)
Definition AllSucceed {σ} (E : External σ) : Prop :=
  ∀ h s r s', web3_wait_for_transaction_receipt h s = (Reply r, s') → status r = 1.

(** A log made of queries, then submissions, then receipts. *)
Definition phases (qs : list (string * Z)) (sent : list (SignedTx * string))
    (rs : list (string * Receipt)) : list event :=
  (uncurry EvGetCount <$> qs) ++ (uncurry EvSend <$> sent)
    ++ (uncurry EvReceipt <$> rs).


(** ** Vocabulary for a batch of the pipeliner *)

Section BatchVocabulary.
Variable GAS_PRICE_GWEI : Z.
Variables (contract : Contract) (fn_name : string) (args_factory : Z → list Value).
Variable accounts : list Account.

(** The transaction that call [i] submits for [acct]. *)
Definition call_tx (acct : Account) (i nonce g : Z) : SignedTx :=
  sign_transaction acct
    {| tx_call := FnCall contract fn_name (args_factory i);
       tx_from := Some (address acct); tx_nonce := nonce; tx_gas := g;
       tx_gasPrice := to_wei_gwei GAS_PRICE_GWEI |}.

Definition round_robin (sent : list (SignedTx * string)) : Prop :=
  ∀ i s h, sent !! i = Some (s, h) →
    ∃ acct nonce g, accounts !! (i `mod` length accounts)%nat = Some acct ∧
                    s = call_tx acct (Z.of_nat i) nonce g.

Definition gapless (d0 : gmap string Z) (sent : list (SignedTx * string)) : Prop :=
  ∀ a c, d0 !! a = Some c →
    nonces_of a sent = seqZ c (Z.of_nat (length (nonces_of a sent))).

End BatchVocabulary.

(** The same chain, except that every receipt reports the status [f]
    chooses for it. *)
Definition with_status {σ} (f : Receipt → Z) (E : External σ) : External σ := {|
  web3_is_connected := web3_is_connected;
  web3_get_transaction_count := web3_get_transaction_count;
  web3_get_balance := web3_get_balance;
  web3_fill_defaults := web3_fill_defaults;
  web3_send_raw_transaction := web3_send_raw_transaction;
  web3_wait_for_transaction_receipt h s :=
    match web3_wait_for_transaction_receipt h s with
    | (Reply r, s') =>
        (Reply {| gasUsed := gasUsed r; status := f r;
                  contractAddress := contractAddress r |}, s')
    | (Fault nm, s') => (Fault nm, s')
    end;
  web3_latest_block_transactions := web3_latest_block_transactions;
  keccak_text := keccak_text;
  address_of_key := address_of_key;
  os_run := os_run;
  os_popen := os_popen;
  os_exited_meanwhile := os_exited_meanwhile;
  os_exits_in_time := os_exits_in_time;
  sys_platform_win32 := sys_platform_win32;
  os_mkdir := os_mkdir;
  os_open_w := os_open_w;
  os_load_json := os_load_json;
  np_print_stats := np_print_stats;
  plt_make_plots := plt_make_plots
|}.

(** Two worlds that differ at most in the log of events. *)
Definition same_but_log {σ} (w1 w2 : World σ) : Prop :=
  outside w1 = outside w2 ∧ stdout w1 = stdout w2 ∧
  child w1 = child w2 ∧ files w1 = files w2.


(** ** Vocabulary for a run of the stepper *)

(** What one completed checkpoint exchanged with the chain. *)
Record cp_record := {
  cp_k : Z;
  cp_n1 : Z; cp_g1 : Z; cp_h1 : string; cp_r1 : Receipt;
  cp_n2 : Z; cp_g2 : Z; cp_h2 : string; cp_r2 : Receipt
}.

(** The transaction that sets the counter to [2^k - 1]. *)
Definition set_tx (gas_price_gwei : Z) (contract : Contract) (acct : Account)
    (k nonce g : Z) : SignedTx :=
  sign_transaction acct
    {| tx_call := FnCall contract "setDepositCount" [VInt (2 ^ k - 1)];
       tx_from := Some (address acct); tx_nonce := nonce; tx_gas := g;
       tx_gasPrice := to_wei_gwei gas_price_gwei |}.

Section StepperVocabulary.
Context {σ : Type} `{!External σ}.
Variable GAS_PRICE_GWEI : Z.
Variables (contract : Contract) (fn_name : string) (args_factory : Z → list Value).
Variable acct : Account.

Definition set_events (k n1 g1 : Z) (h1 : string) (r1 : Receipt) : list event :=
  [EvGetCount (address acct) n1;
   EvSend (set_tx GAS_PRICE_GWEI contract acct k n1 g1) h1;
   EvReceipt h1 r1].

Definition cp_events (c : cp_record) : list event :=
  set_events (cp_k c) (cp_n1 c) (cp_g1 c) (cp_h1 c) (cp_r1 c) ++
  [EvGetCount (address acct) (cp_n2 c);
   EvSend (call_tx GAS_PRICE_GWEI contract fn_name args_factory acct
             (cp_k c) (cp_n2 c) (cp_g2 c)) (cp_h2 c);
   EvReceipt (cp_h2 c) (cp_r2 c)].

Definition cp_line (c : cp_record) : string :=
  GasBench2.checkpoint_line (cp_k c) (2 ^ cp_k c - 1) (gasUsed (cp_r2 c)).

Definition cp_ok (c : cp_record) : Prop :=
  status (cp_r1 c) = 1 ∧ status (cp_r2 c) = 1.

(** The log, the output and the two lists after the checkpoints [cps]. *)
Definition after_checkpoints (w : World σ) (cps : list cp_record)
    (lists : list Z * list string) (w' : World σ) : Prop :=
  Forall cp_ok cps ∧
  lists.1 = (λ c, gasUsed (cp_r2 c)) <$> cps ∧
  lists.2 = (λ c, hex (cp_h2 c)) <$> cps ∧
  rpc_log w' = rpc_log w ++ (cps ≫= cp_events) ∧
  stdout w' = stdout w ++ (cp_line <$> cps).

(** How the turn for checkpoint [k] ended when it raised [e] after
    logging [evs]. *)
Definition checkpoint_failed (k : Z) (e : exn) (evs : list event) : Prop :=
  (∃ nm, e = LibraryError nm ∧ ¬ Responsive _ ∧
         Forall (λ hr, status hr.2 = 1) (receipts evs)) ∨
  (e = RuntimeError (GasBench2.set_failed k (2 ^ k - 1)) ∧
   ∃ n1 g1 h1 r1, evs = set_events k n1 g1 h1 r1 ∧
                  from_chain (h1, r1) ∧ status r1 ≠ 1) ∨
  (e = RuntimeError (GasBench2.deposit_failed k (2 ^ k - 1)) ∧
   ∃ c, cp_k c = k ∧ evs = cp_events c ∧ status (cp_r1 c) = 1 ∧
        from_chain (cp_h2 c, cp_r2 c) ∧ status (cp_r2 c) ≠ 1).

End StepperVocabulary.

(** ** Vocabulary for the report file *)

(** [s.split(c)] *)
Fixpoint split_on (c : ascii) (s : string) : list string :=
  match s with
  | EmptyString => [EmptyString]
  | String x s' =>
      if Ascii.eqb x c then EmptyString :: split_on c s'
      else match split_on c s' with
           | f :: fs => String x f :: fs
           | [] => [String x EmptyString]
           end
  end.

(** [s.rstrip("\n")] for a line that ends in at most one newline. *)
Fixpoint chomp (s : string) : string :=
  match s with
  | EmptyString => EmptyString
  | String c s' =>
      match s' with
      | EmptyString => if Ascii.eqb c "010" then EmptyString else s
      | _ => String c (chomp s')
      end
  end.

(** The fields of a line of the report. *)
Definition csv_fields (line : string) : list string := split_on "," (chomp line).

Fixpoint comma_free (s : string) : bool :=
  match s with
  | EmptyString => true
  | String c s' => negb (Ascii.eqb c ",") && comma_free s'
  end.

(** The rows [main] builds from [n] results. *)
Definition recorded (n : nat) (rows : list (Z * Z * string)) : Prop :=
  ∃ gas hs, length gas = n ∧ length hs = n ∧
    rows = row_at gas (hex <$> hs) <$> range 0 (Z.of_nat n).

(** The lines [save_csv] writes after the header. *)
Definition report_lines (all_results : list (string * list (Z * Z * string))) : list string :=
  all_results ≫= (λ '(name, rows), Common.csv_line name <$> rows).

(** The state of the report file after a run that recorded [n] results
    for each contract: the header, then one line per result; every line
    reads back as the four fields it was made of. *)
Definition report_ok (path : string) (n : nat) (fs : gmap string (list string)) : Prop :=
  ∃ all_results,
    all_results.*1 = ["DepositContract"; "DepositContractWithProofs"] ∧
    Forall (recorded n) all_results.*2 ∧
    fs !! path = Some (("contract,i,gas,txhash" +:+ nl) :: report_lines all_results) ∧
    length (report_lines all_results) = sum_list (length <$> all_results.*2) ∧
    ∀ name rows i gas txh,
      (name, rows) ∈ all_results → (i, gas, txh) ∈ rows →
      csv_fields (Common.csv_line name (i, gas, txh))
        = [name; str_of_Z i; str_of_Z gas; txh].


(** * A stub chain with switches

    The stub chain again, except for what the switches turn off: the
    endpoint, the build, the start of Anvil, and what the chain holds
    when the accounts are prepared. *)

Module Scenario.
Record switches := {
  connected : bool;
  build_ok : bool;
  anvil_ok : bool;
  balance : Z;
  block_txs : list string;
  artifact_doc : json
}.

Definition chain (k : switches) : External nat := {|
  web3_is_connected s := (connected k, s);
  web3_get_transaction_count a s := (Reply (Z.of_nat (String.length a)), s);
  web3_get_balance a s := (Reply (balance k), s);
  web3_fill_defaults c p s := (Reply 50000, s);
  web3_send_raw_transaction t s := (Reply (Stub.h_of s), S s);
  web3_wait_for_transaction_receipt h s :=
    (Reply {| gasUsed := 21000; status := 1; contractAddress := Some "0xC0" |}, s);
  web3_latest_block_transactions s := (Reply (block_txs k), s);
  keccak_text t := t;
  address_of_key k := k;
  os_run c s := (if build_ok k then Reply tt else Fault "CalledProcessError", s);
  os_popen c s := (if anvil_ok k then Reply tt else Fault "FileNotFoundError", s);
  os_exited_meanwhile s := (false, s);
  os_exits_in_time s := (true, s);
  sys_platform_win32 := false;
  os_mkdir p s := (Reply tt, s);
  os_open_w p s := (Reply tt, s);
  os_load_json p s := (Reply (artifact_doc k), s);
  np_print_stats n g s := (Reply tt, s);
  plt_make_plots d s := (Reply tt, s)
|}.

Definition usual : switches :=
  {| connected := true; build_ok := true; anvil_ok := true; balance := 0;
     block_txs := ["h"]; artifact_doc := Stub.artifact_json |}.

(** The endpoint does not answer. *)
Definition offline : switches :=
  {| connected := false; build_ok := true; anvil_ok := true; balance := 0;
     block_txs := ["h"]; artifact_doc := Stub.artifact_json |}.

(** [forge build] fails. *)
Definition broken_build : switches :=
  {| connected := true; build_ok := false; anvil_ok := true; balance := 0;
     block_txs := ["h"]; artifact_doc := Stub.artifact_json |}.

(** Anvil is not installed. *)
Definition no_anvil : switches :=
  {| connected := true; build_ok := true; anvil_ok := false; balance := 0;
     block_txs := ["h"]; artifact_doc := Stub.artifact_json |}.

(** Every account holds funds already and the latest block is empty. *)
Definition funded_idle : switches :=
  {| connected := true; build_ok := true; anvil_ok := true; balance := 7;
     block_txs := []; artifact_doc := Stub.artifact_json |}.

(** An artifact whose bytecode is a plain string. *)
Definition flat_artifact : json :=
  JObj [("abi", JOther true); ("bytecode", JStr "0x6080")].

(** An artifact whose bytecode entry has no ["object"]. *)
Definition artifact_without_object : json :=
  JObj [("abi", JOther true); ("bytecode", JObj [("sourceMap", JStr "1:2:3")])].

(** An artifact in the layout of the compiler's own output. *)
Definition artifact_evm : json :=
  JObj [("abi", JOther true);
        ("evm", JObj [("bytecode", JObj [("object", JStr "6080")])])].
End Scenario.

(** ** Vocabulary for the preparation of the accounts *)

(** The chain answers everything [prepare_accounts] asks. *)
Record FundingAnswers {σ} `{!External σ} : Prop := {
  funding_count : ∀ a s, answers (web3_get_transaction_count a s).1;
  funding_balance : ∀ a s, answers (web3_get_balance a s).1;
  funding_send : ∀ t s, answers (web3_send_raw_transaction t s).1;
  funding_block : ∀ s, answers (web3_latest_block_transactions s).1;
  funding_wait : ∀ h s, answers (web3_wait_for_transaction_receipt h s).1
}.
Arguments FundingAnswers {σ} _.

(** It does, and its latest block always holds a transaction. *)
Definition Fundable {σ} (E : External σ) : Prop :=
  FundingAnswers E ∧
  ∀ s txs, (web3_latest_block_transactions s).1 = Reply txs → txs ≠ [].

Section FundingVocabulary.
Context {σ : Type} `{!External σ}.
Variable GAS_PRICE_GWEI : Z.

(** The account that holds the funds. *)
Definition base_account : Account := from_key Common.ANVIL_PRIVKEY.

(** The extra account with index [i]. *)
Definition extra_account (i : Z) : Account :=
  from_key (keccak_text ("extra-" +:+ str_of_Z i)).

(** The pool for [num_accounts]. *)
Definition pool (num_accounts : Z) : list Account :=
  base_account :: (extra_account <$> range 0 (num_accounts - 1)).

(** The transfer of 100 ether to [to], signed by the base account. *)
Definition funding_tx (to : Account) (nonce : Z) : SignedTx :=
  sign_transaction base_account
    {| tx_call := Transfer (address to) (100 * 10 ^ 18);
       tx_from := None; tx_nonce := nonce; tx_gas := 21000;
       tx_gasPrice := to_wei_gwei GAS_PRICE_GWEI |}.

(** The transfers to the accounts [funded], with nonces from [c] on;
    each comes with the hash the chain gave it. *)
Definition funding_sends (c : Z) (funded : list (Account * string))
  : list (SignedTx * string) :=
  (λ '(nonce, (to, h)), (funding_tx to nonce, h))
    <$> zip (seqZ c (Z.of_nat (length funded))) funded.
End FundingVocabulary.

(** ** Vocabulary for a deployment *)

(** The construction transaction that [deploy] submits for [acct]. *)
Definition deploy_tx (gas_price_gwei : Z) (abi bytecode : json) (acct : Account)
    (nonce : Z) : SignedTx :=
  sign_transaction acct
    {| tx_call := Constructor abi bytecode;
       tx_from := Some (address acct); tx_nonce := nonce; tx_gas := 5000000;
       tx_gasPrice := to_wei_gwei gas_price_gwei |}.

(** An exception raised by looking into a document. *)
Definition document_error (e : exn) : Prop :=
  (∃ k, e = KeyError k) ∨ e = TypeError ∨ e = AttributeError.

(** ** Vocabulary for the settings *)

(** The number that the digits [d] denote when they follow digits that
    denote [acc]. *)
Fixpoint uint_val (d : Decimal.uint) (acc : Z) : Z :=
  match d with
  | Decimal.Nil => acc
  | Decimal.D0 d => uint_val d (10 * acc + 0)
  | Decimal.D1 d => uint_val d (10 * acc + 1)
  | Decimal.D2 d => uint_val d (10 * acc + 2)
  | Decimal.D3 d => uint_val d (10 * acc + 3)
  | Decimal.D4 d => uint_val d (10 * acc + 4)
  | Decimal.D5 d => uint_val d (10 * acc + 5)
  | Decimal.D6 d => uint_val d (10 * acc + 6)
  | Decimal.D7 d => uint_val d (10 * acc + 7)
  | Decimal.D8 d => uint_val d (10 * acc + 8)
  | Decimal.D9 d => uint_val d (10 * acc + 9)
  end.

(** The environment variables that [gas_bench1.py] reads, in the order
    in which it reads them. *)
Definition settings1 : list string := ["BLOCK_TIME"; "NUM_ACCOUNTS"; "N"; "GAS_GWEI"].

(** Text on which [py_int] is what Python's [int()] does: characters of
    ASCII only, since [int()] also reads the digits and the white space
    of other scripts, and no more than 4300 of them, the number of
    digits after which [int()] raises [ValueError] by default. *)
Definition plain_text (s : string) : Prop :=
  Forall (λ c, (nat_of_ascii c < 128)%nat) (String.list_ascii_of_string s) ∧
  (String.length s ≤ 4300)%nat.

(** ** Vocabulary for the progress lines of the pipeliner *)

(** The line for a receipt whose number is a power of two. *)
Definition bolt_line (fn_name : string) (i gas : Z) : string :=
  "  ⚡ " +:+ fn_name +:+ " insert " +:+ str_of_Z i +:+ ": gas=" +:+ str_of_Z gas.

(** The line that counts the receipts. *)
Definition tick_line (i n_calls : Z) : string :=
  "  receipts " +:+ str_of_Z i +:+ "/" +:+ str_of_Z n_calls.

(** ** More vocabulary for the report file *)

(** The number of commas in [s]. *)
Fixpoint commas (s : string) : nat :=
  match s with
  | EmptyString => 0%nat
  | String c s' => ((if Ascii.eqb c "," then 1 else 0) + commas s')%nat
  end.

(** ** Vocabulary for the ways in which [main] fails *)

(** An exception that the library or the operating system raised. *)
Definition library_error (e : exn) : Prop := ∃ nm, e = LibraryError nm.

(** The error of [connect_web3]. *)
Definition connection_error (e : exn) : Prop :=
  e = RuntimeError "Could not connect to Anvil RPC at 127.0.0.1:8545".

(** The error of the stepper for a checkpoint of [main]. *)
Definition checkpoint_error (e : exn) : Prop :=
  ∃ k, 1 ≤ k ≤ GasBench2.POWERS ∧
       (e = RuntimeError (GasBench2.set_failed k (2 ^ k - 1)) ∨
        e = RuntimeError (GasBench2.deposit_failed k (2 ^ k - 1))).

(** ** Vocabulary for a whole run *)

(** The argument generator of both contracts:
    [[w3.keccak(text=f"leaf-{i}")]]. *)
Definition leaf_args {σ} `{!External σ} (i : Z) : list Value :=
  [VBytes (keccak_text ("leaf-" +:+ str_of_Z i))].

(** What a deployment exchanges with the chain. *)
Definition deploy_events (gas_price_gwei : Z) (abi code : json) (acct : Account)
    (n : Z) (h : string) (r : Receipt) : list event :=
  [EvGetCount (address acct) n;
   EvSend (deploy_tx gas_price_gwei abi code acct n) h;
   EvReceipt h r].

(** The handle on the contract that the receipt [r] names. *)
Definition deployed_at (r : Receipt) (abi : json) : Contract :=
  {| contract_address := contractAddress r; contract_abi := abi |}.

(** * The sequential runner [call_deposit_many] of both scripts

    Neither [main] calls it.  It reads the clock to print rates; the
    floating-point arithmetic of these lines is not modelled.  A reading
    of the clock is kept as the oracle gives it, the code decides on
    readings only whether one is later than another, and the oracle
    gives the text of an elapsed time and of a rate with two
    decimals. *)

Class Clock (σ : Type) := {
  reading : Type;
  (* [time.time()] *)
  time_time : σ → reading * σ;
  (* [b > a] *)
  later : reading → reading → bool;
  (* [f"{b - a:.2f}"] for [b > a] *)
  elapsed_2f : reading → reading → string;
  (* [f"{calls / (b - a):.2f}"] for [b > a] *)
  rate_2f : Z → reading → reading → string
}.

Section ClockPrimitives.
Context {σ : Type} `{!External σ} `{!Clock σ}.

Definition now : M σ reading := λ w,
  let '(t, s) := time_time (outside w) in (Return t, set_outside w s).

(** [f"{rate:.2f}"] where [rate = calls / (b - a) if b > a else float('inf')] *)
Definition rate_text (calls : Z) (a b : reading) : string :=
  if later b a then rate_2f calls a b else "inf".
End ClockPrimitives.

Module Sequential1.
Section Runner.
Context {σ : Type} `{!External σ} `{!Clock σ}.
Variable GAS_PRICE_GWEI : Z.

Definition progress_line (fn_name : string) (i n_calls gas : Z)
    (last_print_time : reading) (last_print_i : Z) (start_time t : reading) : string :=
  "  " +:+ fn_name +:+ " " +:+ str_of_Z (i + 1) +:+ "/" +:+ str_of_Z n_calls
    +:+ " (latest gas=" +:+ str_of_Z gas +:+ ") | seg_rate="
    +:+ rate_text (i + 1 - last_print_i) last_print_time t
    +:+ " tx/s, avg_rate=" +:+ rate_text (i + 1) start_time t +:+ " tx/s".

Definition completed_line (fn_name : string) (n_calls : Z) (start_time end_time : reading)
  : string :=
  "🚀 Completed " +:+ fn_name +:+ ": " +:+ str_of_Z n_calls +:+ " calls in "
    +:+ elapsed_2f start_time end_time +:+ "s — "
    +:+ rate_2f n_calls start_time end_time +:+ " inserts/s".

(** One turn of the loop; the state is [gas_list], [tx_hashes],
    [last_print_time] and [last_print_i]. *)
Definition one_call (contract : Contract) (fn_name : string)
    (args_factory : Z → list Value) (acct : Account) (n_calls : Z)
    (start_time : reading) (i : Z) (st : list Z * list string * reading * Z)
  : M σ (list Z * list string * reading * Z) :=
  let '(gas_list, tx_hashes, last_print_time, last_print_i) := st in
  let args := args_factory i in
  let fn := FnCall contract fn_name args in
  nonce ← get_transaction_count (address acct);
  tx ← build_transaction fn
         {| p_from := address acct; p_nonce := nonce; p_gas := None;
            p_gasPrice := to_wei_gwei GAS_PRICE_GWEI |};
  let signed := sign_transaction acct tx in
  tx_hash ← send_raw_transaction signed;
  receipt ← wait_for_transaction_receipt tx_hash;
  let gas_list' := gas_list ++ [gasUsed receipt] in
  let tx_hashes' := tx_hashes ++ [hex tx_hash] in
  (if decide (Z.land (i + 1) i = 0)
   then print ("  ⚡ " +:+ fn_name +:+ " insert " +:+ str_of_Z (i + 1) +:+ ": gas="
                 +:+ str_of_Z (gasUsed receipt))
   else mret tt);;
  if decide ((i + 1) `mod` Z.max 1 (n_calls `div` 10) = 0) then
    t ← now;
    print (progress_line fn_name i n_calls (gasUsed receipt) last_print_time
             last_print_i start_time t);;
    mret (gas_list', tx_hashes', t, i + 1)
  else mret (gas_list', tx_hashes', last_print_time, last_print_i).

Definition call_deposit_many (contract : Contract) (fn_name : string)
    (args_factory : Z → list Value) (acct : Account) (n_calls : Z)
  : M σ (list Z * list string) :=
  start_time ← now;
  '(gas_list, tx_hashes, _, _) ←
    for_each (one_call contract fn_name args_factory acct n_calls start_time)
      (range 0 n_calls) ([], [], start_time, 0);
  end_time ← now;
  (if later end_time start_time
   then print (completed_line fn_name n_calls start_time end_time)
   else mret tt);;
  mret (gas_list, tx_hashes).
End Runner.
End Sequential1.

Module Sequential2.
Section Runner.
Context {σ : Type} `{!External σ} `{!Clock σ}.
Variable GAS_PRICE_GWEI : Z.

Definition completed_line (fn_name : string) (n_calls : Z) (start_time end_time : reading)
  : string :=
  "🚀 Completed " +:+ fn_name +:+ ": " +:+ str_of_Z n_calls +:+ " calls in "
    +:+ elapsed_2f start_time end_time +:+ "s — "
    +:+ rate_2f n_calls start_time end_time +:+ " inserts/s".

(** One turn of the loop; the state is [gas_list] and [tx_hashes]. *)
Definition one_call (contract : Contract) (fn_name : string)
    (args_factory : Z → list Value) (acct : Account) (n_calls : Z)
    (i : Z) (st : list Z * list string) : M σ (list Z * list string) :=
  let '(gas_list, tx_hashes) := st in
  let args := args_factory i in
  let fn := FnCall contract fn_name args in
  nonce ← get_transaction_count (address acct);
  tx ← build_transaction fn
         {| p_from := address acct; p_nonce := nonce; p_gas := Some 300000;
            p_gasPrice := to_wei_gwei GAS_PRICE_GWEI |};
  let signed := sign_transaction acct tx in
  tx_hash ← send_raw_transaction signed;
  receipt ← wait_for_transaction_receipt tx_hash;
  let gas_list' := gas_list ++ [gasUsed receipt] in
  let tx_hashes' := tx_hashes ++ [hex tx_hash] in
  (if decide ((i + 1) `mod` Z.max 1 (n_calls `div` 10) = 0)
   then print ("  " +:+ fn_name +:+ " " +:+ str_of_Z (i + 1) +:+ "/"
                 +:+ str_of_Z n_calls +:+ " (latest gas="
                 +:+ str_of_Z (gasUsed receipt) +:+ ")")
   else mret tt);;
  mret (gas_list', tx_hashes').

Definition call_deposit_many (contract : Contract) (fn_name : string)
    (args_factory : Z → list Value) (acct : Account) (n_calls : Z)
  : M σ (list Z * list string) :=
  start_time ← now;
  '(gas_list, tx_hashes) ←
    for_each (one_call contract fn_name args_factory acct n_calls)
      (range 0 n_calls) ([], []);
  end_time ← now;
  (if later end_time start_time
   then print (completed_line fn_name n_calls start_time end_time)
   else mret tt);;
  mret (gas_list, tx_hashes).
End Runner.
End Sequential2.

(** ** Vocabulary for the sequential runner *)

(** What one call exchanged with the chain. *)
Record call_record := {
  call_i : Z; call_n : Z; call_g : Z; call_h : string; call_r : Receipt
}.

Definition call_events (tx : Z → Z → Z → SignedTx) (acct : Account) (c : call_record)
  : list event :=
  [EvGetCount (address acct) (call_n c);
   EvSend (tx (call_i c) (call_n c) (call_g c)) (call_h c);
   EvReceipt (call_h c) (call_r c)].

(** The transaction of call [i] in [gas_bench2.py], with its fixed gas
    limit. *)
Definition fixed_gas_tx (gas_price_gwei : Z) (contract : Contract) (fn_name : string)
    (args_factory : Z → list Value) (acct : Account) (i nonce : Z) : SignedTx :=
  sign_transaction acct
    {| tx_call := FnCall contract fn_name (args_factory i);
       tx_from := Some (address acct); tx_nonce := nonce; tx_gas := 300000;
       tx_gasPrice := to_wei_gwei gas_price_gwei |}.

(** A clock for the stub chain: the time is the number of transactions
    accepted so far. *)
Definition stub_clock : Clock nat := {|
  reading := nat;
  time_time s := (s, s);
  later b a := (a <? b)%nat;
  elapsed_2f a b := "0.00";
  rate_2f calls a b := "0.00"
|}.


(** * Reasoning about runs *)

Section Runs.
Context {σ : Type} `{!External σ}.

Lemma bind_run {A B} (m : M σ A) (f : A → M σ B) w :
  (m ≫= f) w = match m w with
               | (Return a, w') => f a w'
               | (Raise e, w') => (Raise e, w')
               end.
Proof. reflexivity. Qed.

Lemma ret_run {A} (a : A) (w : World σ) : (mret a : M σ A) w = (Return a, w).
Proof. reflexivity. Qed.

Lemma trace_app {A} (m : M σ A) w evs :
  rpc_log (m w).2 = rpc_log w ++ evs → trace m w = evs.
Proof. intros H. unfold trace, events_since. by rewrite H, drop_app_length. Qed.

Lemma sends_app evs1 evs2 : sends (evs1 ++ evs2) = sends evs1 ++ sends evs2.
Proof. apply omap_app. Qed.
Lemma receipts_app evs1 evs2 : receipts (evs1 ++ evs2) = receipts evs1 ++ receipts evs2.
Proof. apply omap_app. Qed.
Lemma queries_app evs1 evs2 : queries (evs1 ++ evs2) = queries evs1 ++ queries evs2.
Proof. apply omap_app. Qed.

Lemma queries_phases qs sent rs : queries (phases qs sent rs) = qs.
Proof.
  unfold phases. rewrite !queries_app.
  replace (queries (uncurry EvSend <$> sent)) with (@nil (string * Z))
    by (induction sent as [|[??]]; naive_solver).
  replace (queries (uncurry EvReceipt <$> rs)) with (@nil (string * Z))
    by (induction rs as [|[??]]; naive_solver).
  rewrite !app_nil_r. induction qs as [|[??] ? IH]; [done|]. simpl. by f_equal.
Qed.

Lemma sends_phases qs sent rs : sends (phases qs sent rs) = sent.
Proof.
  unfold phases. rewrite !sends_app.
  replace (sends (uncurry EvGetCount <$> qs)) with (@nil (SignedTx * string))
    by (induction qs as [|[??]]; naive_solver).
  replace (sends (uncurry EvReceipt <$> rs)) with (@nil (SignedTx * string))
    by (induction rs as [|[??]]; naive_solver).
  rewrite app_nil_r. simpl. induction sent as [|[??] ? IH]; [done|]. simpl. by f_equal.
Qed.

Lemma receipts_phases qs sent rs : receipts (phases qs sent rs) = rs.
Proof.
  unfold phases. rewrite !receipts_app.
  replace (receipts (uncurry EvGetCount <$> qs)) with (@nil (string * Receipt))
    by (induction qs as [|[??]]; naive_solver).
  replace (receipts (uncurry EvSend <$> sent)) with (@nil (string * Receipt))
    by (induction sent as [|[??]]; naive_solver).
  simpl. induction rs as [|[??] ? IH]; [done|]. simpl. by f_equal.
Qed.

(** A loop invariant for [for_each]: [I done s w] holds after the
    turns for [done]; [E done e w] describes a turn that raised. *)
Lemma for_each_inv {A S} (I : list A → S → World σ → Prop)
    (E : list A → exn → World σ → Prop)
    (body : A → S → M σ S) (l : list A) (s : S) (w : World σ) :
  I [] s w →
  (∀ done x rest s w, l = done ++ x :: rest → I done s w →
     match body x s w with
     | (Return s', w') => I (done ++ [x]) s' w'
     | (Raise e, w') => E done e w'
     end) →
  match for_each body l s w with
  | (Return s', w') => I l s' w'
  | (Raise e, w') => ∃ done, E done e w'
  end.
Proof.
  revert I E s w. induction l as [|x l IH]; intros I E s w H0 Hstep.
  - exact H0.
  - simpl. rewrite bind_run.
    pose proof (Hstep [] x l s w eq_refl H0) as Hx.
    destruct (body x s w) as [[s'|e] w']; [|by exists []].
    specialize (IH (λ d, I (x :: d)) (λ d, E (x :: d)) s' w' Hx).
    simpl in IH.
    assert (Hs : ∀ done y rest s w, l = done ++ y :: rest → I (x :: done) s w →
               match body y s w with
               | (Return s', w') => I (x :: done ++ [y]) s' w'
               | (Raise e, w') => E (x :: done) e w'
               end).
    { intros done y rest s0 w0 -> HI.
      exact (Hstep (x :: done) y rest s0 w0 eq_refl HI). }
    specialize (IH Hs).
    destruct (for_each body l s' w') as [[s''|e] w'']; [exact IH|].
    destruct IH as [done He]. by exists (x :: done).
Qed.

Lemma ask_run {A} (q : σ → reply A * σ) w :
  ask q w = match q (outside w) with
            | (Reply a, s) => (Return a, set_outside w s)
            | (Fault n, s) => (Raise (LibraryError n), set_outside w s)
            end.
Proof. reflexivity. Qed.

Lemma get_transaction_count_run a w :
  get_transaction_count a w =
    match web3_get_transaction_count a (outside w) with
    | (Reply n, s) => (Return n, log_event (EvGetCount a n) (set_outside w s))
    | (Fault nm, s) => (Raise (LibraryError nm), set_outside w s)
    end.
Proof.
  unfold get_transaction_count. rewrite bind_run, ask_run.
  by destruct (web3_get_transaction_count a (outside w)) as [[n|nm] s].
Qed.

Lemma send_raw_transaction_run t w :
  send_raw_transaction t w =
    match web3_send_raw_transaction t (outside w) with
    | (Reply h, s) => (Return h, log_event (EvSend t h) (set_outside w s))
    | (Fault nm, s) => (Raise (LibraryError nm), set_outside w s)
    end.
Proof.
  unfold send_raw_transaction. rewrite bind_run, ask_run.
  by destruct (web3_send_raw_transaction t (outside w)) as [[n|nm] s].
Qed.

Lemma wait_for_transaction_receipt_run h w :
  wait_for_transaction_receipt h w =
    match web3_wait_for_transaction_receipt h (outside w) with
    | (Reply r, s) => (Return r, log_event (EvReceipt h r) (set_outside w s))
    | (Fault nm, s) => (Raise (LibraryError nm), set_outside w s)
    end.
Proof.
  unfold wait_for_transaction_receipt. rewrite bind_run, ask_run.
  by destruct (web3_wait_for_transaction_receipt h (outside w)) as [[n|nm] s].
Qed.

Lemma build_transaction_run c p w :
  build_transaction c p w =
    match web3_fill_defaults c p (outside w) with
    | (Reply g, s) =>
        (Return {| tx_call := c; tx_from := Some (p_from p); tx_nonce := p_nonce p;
                   tx_gas := default g (p_gas p); tx_gasPrice := p_gasPrice p |},
         set_outside w s)
    | (Fault nm, s) => (Raise (LibraryError nm), set_outside w s)
    end.
Proof.
  unfold build_transaction. rewrite bind_run, ask_run.
  by destruct (web3_fill_defaults c p (outside w)) as [[n|nm] s].
Qed.
End Runs.

Module PipelinerFacts.
Import Common GasBench1.

Section Steps.
Context {σ : Type} `{!External σ}.
Variable GAS_PRICE_GWEI : Z.
Variables (contract : Contract) (fn_name : string) (args_factory : Z → list Value).
Variable accounts : list Account.

Local Abbreviation call_tx := (call_tx GAS_PRICE_GWEI contract fn_name args_factory).
Local Abbreviation round_robin :=
  (round_robin GAS_PRICE_GWEI contract fn_name args_factory accounts).

Lemma not_responsive_fault {A B} (q : A → σ → reply B * σ) a s nm s' :
  q a s = (Fault nm, s') → (∀ a s, answers (q a s).1) → False.
Proof. intros Hq Hall. specialize (Hall a s). by rewrite Hq in Hall. Qed.

Lemma sign_and_send_run i d hs w :
  0 ≤ i →
  (∀ acct, acct ∈ accounts → is_Some (d !! address acct)) →
  match sign_and_send GAS_PRICE_GWEI contract fn_name args_factory accounts i (d, hs) w with
  | (Return (d', hs'), w') =>
      ∃ acct nonce g h,
        accounts !! (Z.to_nat i `mod` length accounts)%nat = Some acct ∧
        d !! address acct = Some nonce ∧
        d' = <[address acct := nonce + 1]> d ∧
        hs' = hs ++ [h] ∧
        rpc_log w' = rpc_log w ++ [EvSend (call_tx acct i nonce g) h]
  | (Raise e, w') =>
      rpc_log w' = rpc_log w ∧
      (e = ZeroDivisionError ∧ accounts = [] ∨
       ∃ nm, e = LibraryError nm ∧ ¬ Responsive _)
  end.
Proof.
  intros Hi Hdom. unfold sign_and_send.
  destruct (decide (length accounts = 0%nat)) as [H0|H0].
  { split; [done|]. left. split; [done|]. by apply nil_length_inv. }
  assert (Hidx : Z.to_nat (i `mod` Z.of_nat (length accounts))
                 = (Z.to_nat i `mod` length accounts)%nat).
  { rewrite Z2Nat.inj_mod by lia. by rewrite Nat2Z.id. }
  rewrite Hidx.
  destruct (lookup_lt_is_Some_2 accounts (Z.to_nat i `mod` length accounts)%nat)
    as [acct Hacct]; [by apply Nat.mod_upper_bound|].
  rewrite Hacct.
  destruct (Hdom acct) as [nonce Hn]; [by eapply list_elem_of_lookup_2|].
  rewrite Hn, bind_run, build_transaction_run.
  destruct (web3_fill_defaults _ _ (outside w)) as [[g|nm] s] eqn:Hfill.
  2:{ split; [done|]. right. exists nm. split; [done|]. intros [_ Hr _ _].
      eapply (not_responsive_fault (λ '(c, p), web3_fill_defaults c p) (_, _));
        [exact Hfill|]. intros [c p] s0. apply Hr. }
  rewrite bind_run, send_raw_transaction_run. simpl.
  destruct (web3_send_raw_transaction _ s) as [[h|nm] s2] eqn:Hsend.
  2:{ split; [done|]. right. exists nm. split; [done|]. intros [_ _ Hr _].
      eapply not_responsive_fault; [exact Hsend|]. intros t s0. apply Hr. }
  exists acct, nonce, g, h. done.
Qed.

Lemma collect_receipt_run n_calls i h gas w :
  match collect_receipt fn_name n_calls (i, h) gas w with
  | (Return gas', w') =>
      ∃ r, gas' = gas ++ [gasUsed r] ∧ rpc_log w' = rpc_log w ++ [EvReceipt h r] ∧
           from_chain (h, r)
  | (Raise e, w') =>
      rpc_log w' = rpc_log w ∧ ∃ nm, e = LibraryError nm ∧ ¬ Responsive _
  end.
Proof.
  unfold collect_receipt. rewrite bind_run, wait_for_transaction_receipt_run.
  destruct (web3_wait_for_transaction_receipt h (outside w)) as [[r|nm] s] eqn:Hw.
  2:{ split; [done|]. exists nm. split; [done|]. intros [_ _ _ Hr].
      eapply not_responsive_fault; [exact Hw|]. intros t s0. apply Hr. }
  simpl. repeat case_decide; exists r; (split_and!; [done..|by eexists _, _]).
Qed.

Lemma last_query_snoc a qs b n :
  last_query a (qs ++ [(b, n)]) = if decide (b = a) then Some n else last_query a qs.
Proof.
  unfold last_query. rewrite filter_app, filter_cons, filter_nil. simpl.
  case_decide; [by rewrite last_snoc|by rewrite app_nil_r].
Qed.

Lemma query_base_nonces_run w :
  match query_base_nonces accounts w with
  | (Return d, w') =>
      ∃ qs, rpc_log w' = rpc_log w ++ (uncurry EvGetCount <$> qs) ∧
            qs.*1 = address <$> accounts ∧
            ∀ a, d !! a = last_query a qs
  | (Raise e, w') =>
      ∃ qs nm, rpc_log w' = rpc_log w ++ (uncurry EvGetCount <$> qs) ∧
               e = LibraryError nm ∧
               ¬ (∀ a s, answers (web3_get_transaction_count a s).1)
  end.
Proof.
  unfold query_base_nonces.
  opose proof (for_each_inv
    (λ done (d : gmap string Z) w',
       ∃ qs, rpc_log w' = rpc_log w ++ (uncurry EvGetCount <$> qs) ∧
             qs.*1 = address <$> done ∧ ∀ a, d !! a = last_query a qs)
    (λ done e w', ∃ qs nm, rpc_log w' = rpc_log w ++ (uncurry EvGetCount <$> qs) ∧
                           e = LibraryError nm ∧
                           ¬ (∀ a s, answers (web3_get_transaction_count a s).1))
    (λ acct d, n ← get_transaction_count (address acct);
               mret (<[address acct := n]> d)) accounts ∅ w _ _) as Hfe.
  - exists []. simpl. rewrite app_nil_r. done.
  - intros done acct rest d w1 _ (qs & Hlog & Hqs & Hd).
    rewrite bind_run, get_transaction_count_run.
    destruct (web3_get_transaction_count _ (outside w1)) as [[n|nm] s] eqn:Hq.
    + cbv beta iota. rewrite ret_run. exists (qs ++ [(address acct, n)]).
      cbn [log_event set_outside rpc_log].
      rewrite Hlog, !fmap_app, Hqs, <-app_assoc. split_and!; [done..|].
      intros a. rewrite last_query_snoc. rewrite lookup_insert, Hd. done.
    + exists qs, nm. split_and!; [done..|]. intros Hr.
      eapply not_responsive_fault; [exact Hq|]. intros t s0. apply Hr.
  - destruct (for_each _ accounts ∅ w) as [[d|e] w']; [done|].
    by destruct Hfe as [_ Hfe].
Qed.

Lemma nonces_of_snoc a sent s h :
  nonces_of a (sent ++ [(s, h)]) =
    nonces_of a sent ++
      (if decide (address (signer s) = a) then [tx_nonce (raw_transaction s)] else []).
Proof.
  unfold nonces_of. rewrite filter_app, fmap_app, filter_cons, filter_nil. simpl.
  by case_decide.
Qed.

Lemma sign_and_send_loop n d0 w :
  (∀ acct, acct ∈ accounts → is_Some (d0 !! address acct)) →
  match for_each (sign_and_send GAS_PRICE_GWEI contract fn_name args_factory accounts)
          (range 0 n) (d0, []) w with
  | (Return (d, hs), w') =>
      ∃ sent, rpc_log w' = rpc_log w ++ (uncurry EvSend <$> sent) ∧
              length sent = Z.to_nat n ∧ hs = sent.*2 ∧
              round_robin sent ∧ gapless d0 sent ∧
              ∀ a, d !! a = (λ c, c + Z.of_nat (length (nonces_of a sent))) <$> d0 !! a
  | (Raise e, w') =>
      ∃ sent, rpc_log w' = rpc_log w ++ (uncurry EvSend <$> sent) ∧
              (length sent < Z.to_nat n)%nat ∧
              round_robin sent ∧ gapless d0 sent ∧
              (e = ZeroDivisionError ∧ accounts = [] ∨
               ∃ nm, e = LibraryError nm ∧ ¬ Responsive _)
  end.
Proof.
  intros Hdom.
  opose proof (for_each_inv
    (λ done (st : gmap string Z * list string) w',
       ∃ sent, rpc_log w' = rpc_log w ++ (uncurry EvSend <$> sent) ∧
               length sent = length done ∧ st.2 = sent.*2 ∧
               round_robin sent ∧ gapless d0 sent ∧
               ∀ a, st.1 !! a
                    = (λ c, c + Z.of_nat (length (nonces_of a sent))) <$> d0 !! a)
    (λ done e w',
       ∃ sent, rpc_log w' = rpc_log w ++ (uncurry EvSend <$> sent) ∧
               (length sent < Z.to_nat n)%nat ∧
               round_robin sent ∧ gapless d0 sent ∧
               (e = ZeroDivisionError ∧ accounts = [] ∨
                ∃ nm, e = LibraryError nm ∧ ¬ Responsive _))
    (sign_and_send GAS_PRICE_GWEI contract fn_name args_factory accounts)
    (range 0 n) (d0, []) w _ _) as Hfe.
  - exists []. rewrite app_nil_r. split_and!; try done.
    intros a. simpl. destruct (d0 !! a) as [c|]; simpl; [f_equal; lia|done].
  - intros done x rest [d hs] w1 Hl (sent & Hlog & Hlen & Hhs & Hrr & Hgap & Hd).
    simpl in Hhs, Hd.
    assert (Hx : x = Z.of_nat (length done) ∧ Z.of_nat (length done) < n).
    { assert (Hlk : range 0 n !! length done = Some x).
      { rewrite Hl. by rewrite list_lookup_middle. }
      unfold range in Hlk. apply lookup_seqZ in Hlk. lia. }
    destruct Hx as [-> Hlt].
    opose proof (sign_and_send_run (Z.of_nat (length done)) d hs w1 _ _) as Hstep.
    { lia. }
    { intros acct Hin. rewrite Hd. destruct (Hdom acct Hin) as [c ->]. by eexists. }
    destruct (sign_and_send _ _ _ _ _ _ _ w1) as [[[d' hs']|e] w'].
    + destruct Hstep as (acct & nonce & g & h & Hacct & Hn & -> & -> & Hlog').
      rewrite Nat2Z.id in Hacct.
      exists (sent ++ [(call_tx acct (Z.of_nat (length done)) nonce g, h)]).
      rewrite Hlog', Hlog, !fmap_app, !length_app, Hlen, <-app_assoc. simpl.
      assert (Hc : ∀ c, d0 !! address acct = Some c →
                     nonce = c + Z.of_nat (length (nonces_of (address acct) sent))).
      { intros c Hc. specialize (Hd (address acct)). rewrite Hn, Hc in Hd.
        simpl in Hd. congruence. }
      split_and!; try done.
      * by rewrite Hhs.
      * intros i s0 h0 [[Hi Hlk]|[-> Heq]]%lookup_snoc_Some; [by eapply Hrr|].
        injection Heq as <- <-. rewrite Hlen. by exists acct, nonce, g.
      * intros a c Hac. rewrite nonces_of_snoc. simpl.
        case_decide as Ha; [|rewrite app_nil_r; by apply Hgap].
        subst a. rewrite length_app. simpl.
        rewrite Nat.add_1_r, seqZ_S, <-(Hgap _ _ Hac). do 2 f_equal. exact (Hc c Hac).
      * intros a. rewrite nonces_of_snoc. simpl.
        case_decide as Ha.
        -- subst a. rewrite lookup_insert_eq, length_app. simpl.
           destruct (d0 !! address acct) as [c|] eqn:Hc0.
           ++ simpl. rewrite (Hc c eq_refl). f_equal. lia.
           ++ specialize (Hd (address acct)). by rewrite Hn, Hc0 in Hd.
        -- rewrite lookup_insert_ne by done. by rewrite app_nil_r.
    + destruct Hstep as [Hlog' He]. exists sent. rewrite Hlog'.
      split_and!; try done. lia.
  - destruct (for_each _ (range 0 n) (d0, []) w) as [[[d hs]|e] w'].
    + destruct Hfe as (sent & ? & Hlen & ?). exists sent.
      unfold range in Hlen. rewrite length_seqZ in Hlen.
      replace (n - 0) with n in Hlen by lia. done.
    + by destruct Hfe as [_ Hfe].
Qed.

Lemma enumerate_snd {A} (l : list A) start : (enumerate l start).*2 = l.
Proof. unfold enumerate. apply snd_zip. rewrite length_seqZ. lia. Qed.

Lemma collect_receipt_loop n_calls hashes w :
  match for_each (collect_receipt fn_name n_calls) (enumerate hashes 1) [] w with
  | (Return gas, w') =>
      ∃ rs, rpc_log w' = rpc_log w ++ (uncurry EvReceipt <$> rs) ∧
            Forall from_chain rs ∧
            rs.*1 = hashes ∧ gas = (λ hr, gasUsed hr.2) <$> rs
  | (Raise e, w') =>
      ∃ rs, rpc_log w' = rpc_log w ++ (uncurry EvReceipt <$> rs) ∧
            Forall from_chain rs ∧
            rs.*1 `prefix_of` hashes ∧
            ∃ nm, e = LibraryError nm ∧ ¬ Responsive _
  end.
Proof.
  opose proof (for_each_inv
    (λ done (gas : list Z) w',
       ∃ rs, rpc_log w' = rpc_log w ++ (uncurry EvReceipt <$> rs) ∧
             Forall from_chain rs ∧
             rs.*1 = done.*2 ∧ gas = (λ hr, gasUsed hr.2) <$> rs)
    (λ done e w',
       ∃ rs, rpc_log w' = rpc_log w ++ (uncurry EvReceipt <$> rs) ∧
             Forall from_chain rs ∧
             rs.*1 `prefix_of` hashes ∧
             ∃ nm, e = LibraryError nm ∧ ¬ Responsive _)
    (collect_receipt fn_name n_calls) (enumerate hashes 1) [] w _ _) as Hfe.
  - exists []. by rewrite app_nil_r.
  - intros done [i h] rest gas w1 Hl (rs & Hlog & Hfc & Hrs & ->).
    pose proof (collect_receipt_run n_calls i h ((λ hr, gasUsed hr.2) <$> rs) w1) as Hstep.
    destruct (collect_receipt _ _ _ _ w1) as [[gas'|e] w'].
    + destruct Hstep as (r & -> & Hlog' & Hr). exists (rs ++ [(h, r)]).
      rewrite Hlog', Hlog, !fmap_app, Hrs, <-app_assoc.
      split_and!; [done| |done..]. apply Forall_app. by split; [|constructor].
    + destruct Hstep as [Hlog' He]. exists rs. rewrite Hlog'.
      split_and!; try done.
      rewrite Hrs, <-(enumerate_snd hashes 1), Hl, fmap_app. by eexists.
  - destruct (for_each _ (enumerate hashes 1) [] w) as [[gas|e] w'].
    + destruct Hfe as (rs & ? & ? & Hrs & ?). exists rs.
      by rewrite enumerate_snd in Hrs.
    + by destruct Hfe as [_ Hfe].
Qed.

Lemma last_query_is_Some a (qs : list (string * Z)) :
  a ∈ qs.*1 → is_Some (last_query a qs).
Proof.
  intros [[a' n] [-> Hin]]%list_elem_of_fmap. unfold last_query. simpl.
  apply fmap_is_Some, last_is_Some.
  intros Hnil. assert (Hf : (a', n) ∈ filter (λ q : string * Z, q.1 = a') qs).
  { by apply list_elem_of_filter. }
  rewrite Hnil in Hf. by apply not_elem_of_nil in Hf.
Qed.

(** Everything a run of the pipeliner does, on any chain: the log
    grows by the nonce queries, then the submissions, then the
    receipts; [qs], [sent] and [rs] are complete when the run returns. *)
Lemma pipeliner_run n_calls w :
  ∃ qs sent rs,
    let r := call_deposit_many_multiacct_locals GAS_PRICE_GWEI contract fn_name
               args_factory accounts n_calls w in
    rpc_log r.2 = rpc_log w ++ phases qs sent rs ∧
    round_robin sent ∧
    (∀ a c, last_query a qs = Some c →
            nonces_of a sent = seqZ c (Z.of_nat (length (nonces_of a sent)))) ∧
    (sent ≠ [] → qs.*1 = address <$> accounts) ∧
    (length sent ≤ Z.to_nat n_calls)%nat ∧
    rs.*1 `prefix_of` sent.*2 ∧
    Forall from_chain rs ∧
    match r.1 with
    | Return loc =>
        qs.*1 = address <$> accounts ∧
        length sent = Z.to_nat n_calls ∧
        rs.*1 = sent.*2 ∧
        tx_hashes loc = sent.*2 ∧
        gas_used loc = (λ hr, gasUsed hr.2) <$> rs ∧
        ∀ a, base_nonces loc !! a
             = (λ c, c + Z.of_nat (length (nonces_of a sent))) <$> last_query a qs
    | Raise e =>
        (e = ZeroDivisionError ∧ accounts = [] ∧ 0 < n_calls) ∨
        ∃ nm, e = LibraryError nm ∧ ¬ Responsive _
    end.
Proof.
  unfold call_deposit_many_multiacct_locals, phases. rewrite bind_run.
  pose proof (query_base_nonces_run w) as H0.
  destruct (query_base_nonces accounts w) as [[d0|e] w0].
  2:{ destruct H0 as (qs & nm & Hlog & -> & Hnr). exists qs, [], []. simpl.
      rewrite Hlog, app_nil_r. split_and!; try done; [lia|]. right. exists nm.
      split; [done|]. intros [Hr _ _ _]. by apply Hnr. }
  destruct H0 as (qs & Hlog0 & Hqs & Hd0).
  assert (Hdom : ∀ acct, acct ∈ accounts → is_Some (d0 !! address acct)).
  { intros acct Hin. rewrite Hd0. apply last_query_is_Some. rewrite Hqs.
    by apply list_elem_of_fmap_2. }
  rewrite bind_run.
  pose proof (sign_and_send_loop n_calls d0 w0 Hdom) as H1.
  destruct (for_each (sign_and_send _ _ _ _ _) _ _ w0) as [[[d hs]|e] w1].
  2:{ destruct H1 as (sent & Hlog1 & Hlen & Hrr & Hgap & He). exists qs, sent, [].
      simpl. rewrite Hlog1, Hlog0, app_nil_r, <-app_assoc.
      split_and!; try done.
      - intros a c Hc. apply Hgap. by rewrite Hd0.
      - lia.
      - by apply prefix_nil.
      - destruct He as [[-> ->]|He]; [left; split_and!; try done; lia|by right]. }
  destruct H1 as (sent & Hlog1 & Hlen & -> & Hrr & Hgap & Hd).
  rewrite bind_run.
  pose proof (collect_receipt_loop n_calls sent.*2 w1) as H2.
  destruct (for_each (collect_receipt _ _) _ _ w1) as [[gas|e] w2].
  2:{ destruct H2 as (rs & Hlog2 & Hfc & Hrs & He). exists qs, sent, rs.
      simpl. rewrite Hlog2, Hlog1, Hlog0, <-!app_assoc.
      split_and!; try done; [|lia|by right].
      intros a c Hc. apply Hgap. by rewrite Hd0. }
  destruct H2 as (rs & Hlog2 & Hfc & Hrs & ->). exists qs, sent, rs.
  simpl. rewrite Hlog2, Hlog1, Hlog0, <-!app_assoc.
  split_and!; try done.
  - intros a c Hc. apply Hgap. by rewrite Hd0.
  - lia.
  - by rewrite Hrs.
  - intros a. by rewrite Hd, Hd0.
Qed.
End Steps.
End PipelinerFacts.

Module PipelinerClaims.
Import Common GasBench1 PipelinerFacts.

Section Claims.
Context {σ : Type} `{!External σ}.
Variable GAS_PRICE_GWEI : Z.
Variables (contract : Contract) (fn_name : string) (args_factory : Z → list Value).
Variable accounts : list Account.
Variable n_calls : Z.

Local Abbreviation locals :=
  (call_deposit_many_multiacct_locals GAS_PRICE_GWEI contract fn_name
     args_factory accounts n_calls).
Local Abbreviation run :=
  (call_deposit_many_multiacct GAS_PRICE_GWEI contract fn_name
     args_factory accounts n_calls).

Lemma run_locals w :
  run w = match locals w with
          | (Return loc, w') => (Return (gas_used loc, hex <$> tx_hashes loc), w')
          | (Raise e, w') => (Raise e, w')
          end.
Proof. reflexivity. Qed.

Lemma trace_run_locals w : trace run w = trace locals w.
Proof. unfold trace. rewrite run_locals. by destruct (locals w) as [[?|?] ?]. Qed.

(** What [pipeliner_run] says, read off the trace of the function. *)
Lemma pipeliner_trace w :
  ∃ qs sent rs,
    trace run w = phases qs sent rs ∧
    round_robin GAS_PRICE_GWEI contract fn_name args_factory accounts sent ∧
    (∀ a c, last_query a qs = Some c →
            nonces_of a sent = seqZ c (Z.of_nat (length (nonces_of a sent)))) ∧
    (sent ≠ [] → qs.*1 = address <$> accounts) ∧
    (length sent ≤ Z.to_nat n_calls)%nat ∧
    rs.*1 `prefix_of` sent.*2 ∧
    Forall from_chain rs ∧
    match (locals w).1 with
    | Return loc =>
        qs.*1 = address <$> accounts ∧
        length sent = Z.to_nat n_calls ∧
        rs.*1 = sent.*2 ∧
        tx_hashes loc = sent.*2 ∧
        gas_used loc = (λ hr, gasUsed hr.2) <$> rs ∧
        ∀ a, base_nonces loc !! a
             = (λ c, c + Z.of_nat (length (nonces_of a sent))) <$> last_query a qs
    | Raise e =>
        (e = ZeroDivisionError ∧ accounts = [] ∧ 0 < n_calls) ∨
        ∃ nm, e = LibraryError nm ∧ ¬ Responsive _
    end.
Proof.
  destruct (pipeliner_run GAS_PRICE_GWEI contract fn_name args_factory accounts
              n_calls w) as (qs & sent & rs & Hlog & H).
  exists qs, sent, rs. split; [|exact H].
  rewrite trace_run_locals. by apply trace_app.
Qed.

(** C1, as amended.  On a chain that answers every request, with a pool
    that is not empty and [n_calls >= 1], [call_deposit_many_multiacct]
    returns a list of gas values and a list of transaction identifiers,
    both of length [n_calls]; entry [i] of either list belongs to the
    [i]-th submitted call: the submission with the arguments of call
    [i] got hash [h], the [i]-th receipt collected is the one for [h],
    the [i]-th identifier is [hex h] and the [i]-th gas value is that
    receipt's [gasUsed]. *)
Theorem pipeliner_outputs_in_order w :
  Responsive _ → accounts ≠ [] → 1 ≤ n_calls →
  ∃ gas txs,
    (run w).1 = Return (gas, txs) ∧
    length gas = Z.to_nat n_calls ∧ length txs = Z.to_nat n_calls ∧
    ∀ i, (i < Z.to_nat n_calls)%nat →
      ∃ s h r,
        sends (trace run w) !! i = Some (s, h) ∧
        tx_call (raw_transaction s)
          = FnCall contract fn_name (args_factory (Z.of_nat i)) ∧
        receipts (trace run w) !! i = Some (h, r) ∧
        txs !! i = Some (hex h) ∧
        gas !! i = Some (gasUsed r).
Proof.
  intros Hresp Hne _.
  destruct (pipeliner_trace w) as (qs & sent & rs & Htr & Hrr & _ & _ & _ & _ & Hfc & Hres).
  rewrite run_locals, Htr, sends_phases, receipts_phases.
  destruct (locals w) as [[loc|e] w']; simpl in Hres |- *.
  2:{ destruct Hres as [(_ & ? & _)|(nm & _ & ?)]; done. }
  destruct Hres as (_ & Hlen & Hrs & Hhs & Hgas & _).
  assert (Hlenrs : length rs = length sent).
  { by rewrite <-(length_fmap fst rs), Hrs, length_fmap. }
  exists (gas_used loc), (hex <$> tx_hashes loc). split; [done|].
  rewrite Hgas, Hhs, !length_fmap, Hlenrs. split_and!; [done..|].
  intros i Hi.
  destruct (lookup_lt_is_Some_2 sent i) as [[s h] Hs]; [lia|].
  destruct (lookup_lt_is_Some_2 rs i) as [[h' r] Hr]; [lia|].
  assert (h' = h) as ->.
  { assert (Hi1 : rs.*1 !! i = Some h') by (by rewrite list_lookup_fmap, Hr).
    rewrite Hrs, list_lookup_fmap, Hs in Hi1. by injection Hi1. }
  exists s, h, r. destruct (Hrr i s h Hs) as (acct & nonce & g & _ & ->).
  rewrite !list_lookup_fmap, Hs, Hr. done.
Qed.

(** On any chain, the [i]-th transaction that the pipeliner submits
    carries the arguments of call [i], is signed by account
    [i mod len(accounts)] of the pool and names it as its sender. *)
Lemma round_robin_rule w i s h :
  sends (trace run w) !! i = Some (s, h) →
  accounts !! (i `mod` length accounts)%nat = Some (signer s) ∧
  tx_from (raw_transaction s) = Some (address (signer s)) ∧
  tx_call (raw_transaction s) = FnCall contract fn_name (args_factory (Z.of_nat i)).
Proof.
  destruct (pipeliner_trace w) as (qs & sent & rs & Htr & Hrr & _).
  rewrite Htr, sends_phases. intros Hs.
  by destruct (Hrr i s h Hs) as (acct & nonce & g & ? & ->).
Qed.

Lemma nonces_of_take a c m (sent : list (SignedTx * string)) :
  nonces_of a sent = seqZ c (Z.of_nat (length (nonces_of a sent))) →
  nonces_of a (take m sent) = seqZ c (Z.of_nat (length (nonces_of a (take m sent)))).
Proof.
  intros Hall. rewrite <-(take_drop m sent) in Hall.
  assert (Happ : ∀ l1 l2, nonces_of a (l1 ++ l2) = nonces_of a l1 ++ nonces_of a l2).
  { intros. unfold nonces_of. by rewrite filter_app, fmap_app. }
  rewrite Happ, length_app, Nat2Z.inj_add, seqZ_app in Hall by lia.
  apply app_inj_1 in Hall; [by destruct Hall|].
  by rewrite length_seqZ, Nat2Z.id.
Qed.

(** C3.  On any chain and for any address [a]: if the chain reported
    the transaction count [c] for [a] when the batch started, then in
    every prefix of the batch the nonces of the transactions signed
    for [a], in submission order, are [c, c+1, c+2, ...] with no gap
    and no repetition.  Every submitted transaction is signed for an
    address whose count was queried. *)
Theorem nonces_gapless w a c m :
  queried_count a (trace run w) = Some c →
  let mine := nonces_of a (take m (sends (trace run w))) in
  mine = seqZ c (Z.of_nat (length mine)) ∧
  (∀ j n1 n2, mine !! j = Some n1 → mine !! S j = Some n2 → n2 = n1 + 1) ∧
  (∀ i s h, sends (trace run w) !! i = Some (s, h) →
     is_Some (queried_count (address (signer s)) (trace run w))).
Proof.
  destruct (pipeliner_trace w) as (qs & sent & rs & Htr & Hrr & Hgap & Hq & _).
  unfold queried_count. rewrite Htr, sends_phases, queries_phases. intros Hc.
  cbv zeta. set (mine := nonces_of a (take m sent)).
  assert (Hmine : mine = seqZ c (Z.of_nat (length mine))).
  { by apply nonces_of_take, Hgap. }
  split_and!; [done| |].
  - intros j n1 n2. rewrite Hmine. intros [-> _]%lookup_seqZ [-> _]%lookup_seqZ. lia.
  - intros i s h Hs. apply last_query_is_Some.
    rewrite Hq by (by intros ->).
    destruct (Hrr i s h Hs) as (acct & nonce & g & Hacct & ->). simpl.
    apply list_elem_of_fmap_2. by eapply list_elem_of_lookup_2.
Qed.

(** On any chain the pipeliner never raises an error of its own about
    a receipt: it can only pass on an exception of the library, or
    divide by the length of an empty pool.  When it returns, every
    call was submitted once and the gas values are the [gasUsed] of
    all receipts, whatever their status. *)
Lemma pipeliner_records_every_receipt w :
  match (run w).1 with
  | Return (gas, txs) =>
      gas = (λ hr, gasUsed hr.2) <$> receipts (trace run w) ∧
      txs = (λ sh, hex sh.2) <$> sends (trace run w) ∧
      (λ sh, tx_call (raw_transaction sh.1)) <$> sends (trace run w)
        = (λ i, FnCall contract fn_name (args_factory i)) <$> range 0 n_calls
  | Raise e => e = ZeroDivisionError ∨ ∃ nm, e = LibraryError nm
  end.
Proof.
  destruct (pipeliner_trace w) as (qs & sent & rs & Htr & Hrr & _ & _ & _ & _ & Hfc & Hres).
  rewrite run_locals, Htr, sends_phases, receipts_phases.
  destruct (locals w) as [[loc|e] w']; simpl in Hres |- *.
  2:{ destruct Hres as [(? & _)|(nm & ? & _)]; eauto. }
  destruct Hres as (_ & Hlen & Hrs & Hhs & Hgas & _).
  split_and!; [done|by rewrite Hhs, <-list_fmap_compose|].
  apply list_eq. intros i. unfold range. rewrite !list_lookup_fmap.
  destruct (sent !! i) as [[s h]|] eqn:Hs; simpl.
  - destruct (Hrr i s h Hs) as (acct & nonce & g & _ & ->).
    apply lookup_lt_Some in Hs. rewrite lookup_seqZ_lt by lia. simpl.
    by rewrite Z.add_0_l.
  - apply lookup_ge_None in Hs. by rewrite lookup_seqZ_ge by lia.
Qed.

Lemma fmap_const_replicate {A B} (f : A → B) (c : B) (l : list A) :
  Forall (λ x, f x = c) l → f <$> l = replicate (length l) c.
Proof.
  induction 1 as [|x l Hx _ IH]; [done|].
  rewrite fmap_cons. cbn [length replicate]. by f_equal.
Qed.

(** C2.  The rule: on any chain, the [i]-th transaction that the
    pipeliner submits carries the arguments of call [i], is signed by
    account [i mod len(accounts)] of the pool and names that account
    as its sender.  The scenario: on a chain that answers every
    request and whose receipts all report success with 21000 gas, five
    calls over a pool of two accounts are signed by accounts
    0, 1, 0, 1, 0 of the pool and the five gas values returned are all
    21000. *)
Theorem round_robin_assignment w :
  (∀ i s h,
     sends (trace run w) !! i = Some (s, h) →
     accounts !! (i `mod` length accounts)%nat = Some (signer s) ∧
     tx_from (raw_transaction s) = Some (address (signer s)) ∧
     tx_call (raw_transaction s)
       = FnCall contract fn_name (args_factory (Z.of_nat i))) ∧
  (Responsive _ →
   (∀ h s r s', web3_wait_for_transaction_receipt h s = (Reply r, s') →
                status r = 1 ∧ gasUsed r = 21000) →
   ∀ a0 a1, accounts = [a0; a1] → n_calls = 5 →
     (λ sh, signer sh.1) <$> sends (trace run w) = [a0; a1; a0; a1; a0] ∧
     ∃ txs, (run w).1 = Return ([21000; 21000; 21000; 21000; 21000], txs)).
Proof.
  split; [intros i s h; apply round_robin_rule|].
  intros Hresp Hstub a0 a1 Hpool Hn.
  destruct (pipeliner_trace w)
    as (qs & sent & rs & Htr & Hrr & _ & _ & _ & _ & Hfc & Hres).
  rewrite run_locals, Htr, sends_phases.
  destruct (locals w) as [[loc|e] w']; simpl in Hres |- *.
  2:{ destruct Hres as [(_ & Hnil & _)|(nm & _ & ?)]; [|done].
      by rewrite Hpool in Hnil. }
  destruct Hres as (_ & Hlen & Hrs & Hhs & Hgas & _).
  rewrite Hn in Hlen. split.
  - destruct sent as [|[s0 h0] [|[s1 h1] [|[s2 h2] [|[s3 h3] [|[s4 h4] [|]]]]]];
      try done.
    destruct (Hrr 0%nat s0 h0 eq_refl) as (? & ? & ? & H0 & ->).
    destruct (Hrr 1%nat s1 h1 eq_refl) as (? & ? & ? & H1 & ->).
    destruct (Hrr 2%nat s2 h2 eq_refl) as (? & ? & ? & H2 & ->).
    destruct (Hrr 3%nat s3 h3 eq_refl) as (? & ? & ? & H3 & ->).
    destruct (Hrr 4%nat s4 h4 eq_refl) as (? & ? & ? & H4 & ->).
    rewrite Hpool in H0, H1, H2, H3, H4. simpl in *. by simplify_eq.
  - exists (hex <$> tx_hashes loc). do 2 f_equal. rewrite Hgas.
    assert (Hl : length rs = 5%nat).
    { by rewrite <-(length_fmap fst rs), Hrs, length_fmap, Hlen. }
    rewrite (fmap_const_replicate _ 21000); [by rewrite Hl|].
    eapply Forall_impl; [exact Hfc|]. intros [h r] (s & s' & Hw).
    by destruct (Hstub _ _ _ _ Hw).
Qed.
End Claims.

(** C10.  With [n_calls = 0], on a chain that answers the nonce
    queries, the pipeliner submits nothing, returns two empty lists, and
    leaves in [base_nonces], for every account of the pool, the count
    the chain reported for it at the start. *)
Theorem pipeliner_zero_calls {σ : Type} `{!External σ} (GAS_PRICE_GWEI : Z)
    (contract : Contract) (fn_name : string) (args_factory : Z → list Value)
    (accounts : list Account) (w : World σ) :
  (∀ a s, answers (web3_get_transaction_count a s).1) →
  let locals := call_deposit_many_multiacct_locals GAS_PRICE_GWEI contract fn_name
                  args_factory accounts 0 in
  let run := call_deposit_many_multiacct GAS_PRICE_GWEI contract fn_name
               args_factory accounts 0 in
  ∃ loc,
    (locals w).1 = Return loc ∧
    (run w).1 = Return ([], []) ∧
    sends (trace run w) = [] ∧
    tx_hashes loc = [] ∧ gas_used loc = [] ∧
    ∀ acct, acct ∈ accounts →
      is_Some (base_nonces loc !! address acct) ∧
      base_nonces loc !! address acct = queried_count (address acct) (trace run w).
Proof.
  intros Hans locals run.
  assert (Hrun : ∀ w, run w = match locals w with
                             | (Return loc, w') =>
                                 (Return (gas_used loc, hex <$> tx_hashes loc), w')
                             | (Raise e, w') => (Raise e, w')
                             end) by reflexivity.
  assert (Hloc : locals w = match query_base_nonces accounts w with
                            | (Return d, w') =>
                                (Return {| base_nonces := d; tx_hashes := [];
                                           gas_used := [] |}, w')
                            | (Raise e, w') => (Raise e, w')
                            end).
  { unfold locals, call_deposit_many_multiacct_locals. rewrite bind_run.
    by destruct (query_base_nonces accounts w) as [[d|e] w']. }
  pose proof (query_base_nonces_run accounts w) as Hq.
  unfold trace. rewrite Hrun, Hloc.
  destruct (query_base_nonces accounts w) as [[d|e] w'].
  2:{ by destruct Hq as (? & ? & _ & _ & ?). }
  destruct Hq as (qs & Hlog & Hqs & Hd). eexists. split; [done|]. simpl.
  unfold events_since. rewrite Hlog, drop_app_length.
  pose proof (sends_phases qs [] []) as Hs.
  pose proof (queries_phases qs [] []) as Hqq.
  unfold phases in Hs, Hqq. simpl in Hs, Hqq. rewrite app_nil_r in Hs, Hqq.
  split_and!; [done..|]. intros acct Hin. unfold queried_count. rewrite Hqq, Hd.
  split; [|done]. apply last_query_is_Some. rewrite Hqs. by apply list_elem_of_fmap_2.
Qed.
End PipelinerClaims.

(** * The pipeliner does not look at the status of a receipt *)

Module StatusBlind.
Import Common GasBench1 PipelinerFacts PipelinerClaims.

Section StatusBlind.
Context {σ : Type} (E : External σ).
Variable f : Receipt → Z.
Variable GAS_PRICE_GWEI : Z.
Variables (contract : Contract) (fn_name : string) (args_factory : Z → list Value).
Variable accounts : list Account.
Variable n_calls : Z.

Lemma collect_receipt_blind it gas w1 w2 :
  same_but_log w1 w2 →
  let r1 := collect_receipt (External0 := with_status f E) fn_name n_calls it gas w1 in
  let r2 := collect_receipt (External0 := E) fn_name n_calls it gas w2 in
  r1.1 = r2.1 ∧ same_but_log r1.2 r2.2.
Proof.
  intros (Ho & Hs & Hc & Hf). destruct it as [i h]. unfold collect_receipt.
  rewrite !bind_run, !wait_for_transaction_receipt_run. simpl. rewrite Ho.
  destruct (web3_wait_for_transaction_receipt h (outside w2)) as [[r|nm] s]; simpl.
  - repeat case_decide; simpl; rewrite ?Hs; done.
  - done.
Qed.

Lemma collect_loop_blind l gas w1 w2 :
  same_but_log w1 w2 →
  let r1 := for_each (collect_receipt (External0 := with_status f E) fn_name n_calls)
              l gas w1 in
  let r2 := for_each (collect_receipt (External0 := E) fn_name n_calls) l gas w2 in
  r1.1 = r2.1 ∧ same_but_log r1.2 r2.2.
Proof.
  revert gas w1 w2. induction l as [|it l IH]; intros gas w1 w2 Hw; [done|].
  simpl. rewrite !bind_run.
  destruct (collect_receipt_blind it gas w1 w2 Hw) as [Ho Hw'].
  destruct (collect_receipt (External0 := with_status f E) _ _ it gas w1) as [[g1|e1] w1'],
           (collect_receipt (External0 := E) _ _ it gas w2) as [[g2|e2] w2'];
    simpl in Ho, Hw' |- *; simplify_eq; [by apply IH|done].
Qed.

(** Rewriting the status of every receipt changes neither what the
    pipeliner returns or raises, nor what it prints, nor the state it
    leaves the chain in. *)
Lemma pipeliner_status_blind w :
  let r1 := call_deposit_many_multiacct (External0 := with_status f E) GAS_PRICE_GWEI
              contract fn_name args_factory accounts n_calls w in
  let r2 := call_deposit_many_multiacct (External0 := E) GAS_PRICE_GWEI
              contract fn_name args_factory accounts n_calls w in
  r1.1 = r2.1 ∧ same_but_log r1.2 r2.2.
Proof.
  unfold call_deposit_many_multiacct, call_deposit_many_multiacct_locals.
  rewrite !bind_run.
  change (query_base_nonces (External0 := with_status f E) accounts w)
    with (query_base_nonces (External0 := E) accounts w).
  destruct (query_base_nonces (External0 := E) accounts w) as [[d0|e] w0]; [|done].
  rewrite !bind_run.
  change (sign_and_send (External0 := with_status f E))
    with (sign_and_send (External0 := E)).
  destruct (for_each (sign_and_send _ _ _ _ _) _ _ w0) as [[[d hs]|e] w1]; [|done].
  rewrite !bind_run.
  assert (Hrefl : same_but_log w1 w1) by done.
  destruct (collect_loop_blind (enumerate hs 1) [] w1 w1 Hrefl) as [Ho Hw].
  destruct (for_each (collect_receipt (External0 := with_status f E) _ _) _ _ w1)
    as [[g1|e1] w1'],
    (for_each (collect_receipt (External0 := E) _ _) _ _ w1) as [[g2|e2] w2'];
    simpl in Ho, Hw |- *; by simplify_eq.
Qed.
End StatusBlind.

(** C6.  The pipeliner never looks at the status of a receipt.  On any
    chain, rewriting the status of every receipt in any way changes
    neither what the function returns or raises, nor what it prints, nor
    the state of the chain.  It never raises an error of its own about a
    receipt: it only passes on an exception of the library, or divides by
    the length of an empty pool.  When it returns, every call was
    submitted exactly once, in order, and the gas values are the
    [gasUsed] of all receipts collected, whatever status they report. *)
Theorem pipeliner_ignores_status {σ : Type} (E : External σ) (GAS_PRICE_GWEI : Z)
    (contract : Contract) (fn_name : string) (args_factory : Z → list Value)
    (accounts : list Account) (n_calls : Z) (w : World σ) :
  let run := call_deposit_many_multiacct (External0 := E) GAS_PRICE_GWEI contract
               fn_name args_factory accounts n_calls in
  (∀ f : Receipt → Z,
     let r := call_deposit_many_multiacct (External0 := with_status f E)
                GAS_PRICE_GWEI contract fn_name args_factory accounts n_calls w in
     r.1 = (run w).1 ∧ same_but_log r.2 (run w).2) ∧
  match (run w).1 with
  | Return (gas, txs) =>
      gas = (λ hr, gasUsed hr.2) <$> receipts (trace run w) ∧
      txs = (λ sh, hex sh.2) <$> sends (trace run w) ∧
      (λ sh, tx_call (raw_transaction sh.1)) <$> sends (trace run w)
        = (λ i, FnCall contract fn_name (args_factory i)) <$> range 0 n_calls
  | Raise e => e = ZeroDivisionError ∨ ∃ nm, e = LibraryError nm
  end.
Proof.
  intros run. split.
  - intros f. apply pipeliner_status_blind.
  - apply pipeliner_records_every_receipt.
Qed.
End StatusBlind.

(** * The precount stepper *)

Module StepperFacts.
Import Common GasBench2 PipelinerFacts.

Section Steps.
Context {σ : Type} `{!External σ}.
Variable GAS_PRICE_GWEI : Z.
Variables (contract : Contract) (fn_name : string) (args_factory : Z → list Value).
Variable acct : Account.

Local Abbreviation set_events := (set_events GAS_PRICE_GWEI contract acct).
Local Abbreviation cp_events :=
  (cp_events GAS_PRICE_GWEI contract fn_name args_factory acct).
Local Abbreviation after_checkpoints :=
  (after_checkpoints GAS_PRICE_GWEI contract fn_name args_factory acct).
Local Abbreviation checkpoint_failed :=
  (checkpoint_failed GAS_PRICE_GWEI contract fn_name args_factory acct).
Local Abbreviation stepper :=
  (call_deposit_after_precounts_locals GAS_PRICE_GWEI contract fn_name
     args_factory acct).

Lemma not_responsive (P : Prop) : (Responsive _ → P) → ¬ P → ¬ Responsive _.
Proof. tauto. Qed.

Lemma checkpoint_run k gas hs w :
  match checkpoint GAS_PRICE_GWEI contract fn_name args_factory acct k (gas, hs) w with
  | (Return (gas', hs'), w') =>
      ∃ c, cp_k c = k ∧ status (cp_r1 c) = 1 ∧ status (cp_r2 c) = 1 ∧
           gas' = gas ++ [gasUsed (cp_r2 c)] ∧ hs' = hs ++ [hex (cp_h2 c)] ∧
           rpc_log w' = rpc_log w ++ cp_events c ∧
           stdout w' = stdout w ++ [cp_line c]
  | (Raise e, w') =>
      stdout w' = stdout w ∧
      ∃ evs, rpc_log w' = rpc_log w ++ evs ∧
        ((∃ nm, e = LibraryError nm ∧ ¬ Responsive _ ∧
                Forall (λ hr, status hr.2 = 1) (receipts evs)) ∨
         (e = RuntimeError (set_failed k (2 ^ k - 1)) ∧
          ∃ n1 g1 h1 r1, evs = set_events k n1 g1 h1 r1 ∧
                         from_chain (h1, r1) ∧ status r1 ≠ 1) ∨
         (e = RuntimeError (deposit_failed k (2 ^ k - 1)) ∧
          ∃ c, cp_k c = k ∧ evs = cp_events c ∧ status (cp_r1 c) = 1 ∧
               from_chain (cp_h2 c, cp_r2 c) ∧ status (cp_r2 c) ≠ 1))
  end.
Proof.
  unfold checkpoint.
  rewrite bind_run, get_transaction_count_run.
  destruct (web3_get_transaction_count _ (outside w)) as [[n1|nm] s1] eqn:H1;
    cbv beta iota.
  2:{ split; [done|]. exists []. rewrite app_nil_r. split; [done|]. left.
      exists nm. split_and!; [done| |done]. intros [Hr _ _ _].
      eapply not_responsive_fault; [exact H1|]. intros ??. apply Hr. }
  rewrite bind_run, build_transaction_run. cbn [outside log_event set_outside].
  destruct (web3_fill_defaults _ _ s1) as [[g1|nm] s2] eqn:H2; cbv beta iota.
  2:{ split; [done|]. exists [EvGetCount (address acct) n1]. split; [done|]. left.
      exists nm. split_and!; [done| |done]. intros [_ Hr _ _].
      eapply (not_responsive_fault (λ '(c, p), web3_fill_defaults c p) (_, _));
        [exact H2|]. intros [??] ?. apply Hr. }
  rewrite bind_run, send_raw_transaction_run. cbn [outside log_event set_outside].
  destruct (web3_send_raw_transaction _ s2) as [[h1|nm] s3] eqn:H3; cbv beta iota.
  2:{ split; [done|]. exists [EvGetCount (address acct) n1]. split; [done|]. left.
      exists nm. split_and!; [done| |done]. intros [_ _ Hr _].
      eapply not_responsive_fault; [exact H3|]. intros ??. apply Hr. }
  rewrite bind_run, wait_for_transaction_receipt_run.
  cbn [outside log_event set_outside].
  destruct (web3_wait_for_transaction_receipt _ s3) as [[r1|nm] s4] eqn:H4;
    cbv beta iota.
  2:{ split; [done|]. eexists [_; _]. split; [cbn; by rewrite <-app_assoc|]. left.
      exists nm. split_and!; [done| |done]. intros [_ _ _ Hr].
      eapply not_responsive_fault; [exact H4|]. intros ??. apply Hr. }
  destruct (decide (status r1 ≠ 1)) as [Hbad1|Hok1].
  { split; [done|]. exists (set_events k n1 g1 h1 r1).
    split; [cbn; by rewrite <-!app_assoc|]. right. left. split; [done|].
    exists n1, g1, h1, r1. split_and!; [done| |done]. by eexists _, _. }
  apply dec_stable in Hok1.
  rewrite bind_run, get_transaction_count_run. cbn [outside log_event set_outside].
  destruct (web3_get_transaction_count _ s4) as [[n2|nm] s5] eqn:H5; cbv beta iota.
  2:{ split; [done|]. exists (set_events k n1 g1 h1 r1).
      split; [cbn; by rewrite <-!app_assoc|]. left.
      exists nm. split_and!; [done| |by repeat constructor]. intros [Hr _ _ _].
      eapply not_responsive_fault; [exact H5|]. intros ??. apply Hr. }
  rewrite bind_run, build_transaction_run. cbn [outside log_event set_outside].
  destruct (web3_fill_defaults _ _ s5) as [[g2|nm] s6] eqn:H6; cbv beta iota.
  2:{ split; [done|]. exists (set_events k n1 g1 h1 r1 ++ [EvGetCount (address acct) n2]).
      split; [cbn; by rewrite <-!app_assoc|]. left.
      exists nm. split_and!; [done| |by repeat constructor]. intros [_ Hr _ _].
      eapply (not_responsive_fault (λ '(c, p), web3_fill_defaults c p) (_, _));
        [exact H6|]. intros [??] ?. apply Hr. }
  rewrite bind_run, send_raw_transaction_run. cbn [outside log_event set_outside].
  destruct (web3_send_raw_transaction _ s6) as [[h2|nm] s7] eqn:H7; cbv beta iota.
  2:{ split; [done|]. exists (set_events k n1 g1 h1 r1 ++ [EvGetCount (address acct) n2]).
      split; [cbn; by rewrite <-!app_assoc|]. left.
      exists nm. split_and!; [done| |by repeat constructor]. intros [_ _ Hr _].
      eapply not_responsive_fault; [exact H7|]. intros ??. apply Hr. }
  rewrite bind_run, wait_for_transaction_receipt_run.
  cbn [outside log_event set_outside].
  destruct (web3_wait_for_transaction_receipt _ s7) as [[r2|nm] s8] eqn:H8;
    cbv beta iota.
  2:{ split; [done|].
      eexists (set_events k n1 g1 h1 r1 ++ [EvGetCount (address acct) n2; EvSend _ h2]).
      split; [cbn; by rewrite <-!app_assoc|]. left.
      exists nm. split_and!; [done| |by repeat constructor]. intros [_ _ _ Hr].
      eapply not_responsive_fault; [exact H8|]. intros ??. apply Hr. }
  set (c := {| cp_k := k; cp_n1 := n1; cp_g1 := g1; cp_h1 := h1; cp_r1 := r1;
               cp_n2 := n2; cp_g2 := g2; cp_h2 := h2; cp_r2 := r2 |}).
  destruct (decide (status r2 ≠ 1)) as [Hbad2|Hok2].
  { split; [done|]. exists (cp_events c).
    split; [cbn; by rewrite <-!app_assoc|]. right. right. split; [done|].
    exists c. split_and!; [done..| |done]. by eexists _, _. }
  apply dec_stable in Hok2.
  exists c. cbn. rewrite <-!app_assoc. done.
Qed.

Lemma for_each_keep_snoc {A S} (body : A → S → M σ S) done x s0 w0 s w s' w' :
  for_each_keep body done s0 w0 = (Return tt, s, w) →
  body x s w = (Return s', w') →
  for_each_keep body (done ++ [x]) s0 w0 = (Return tt, s', w').
Proof.
  revert s0 w0. induction done as [|y done IH]; intros s0 w0 Hd Hx; simpl in *.
  - injection Hd as -> ->. by rewrite Hx.
  - destruct (body y s0 w0) as [[s1|e] w1]; [by apply IH|done].
Qed.

(** A loop invariant for [for_each_keep]; [E done x e s w] describes
    the turn for [x] that raised, with the variables it found. *)
Lemma for_each_keep_inv {A S} (I : list A → S → World σ → Prop)
    (E : list A → A → exn → S → World σ → Prop)
    (body : A → S → M σ S) (l : list A) (s : S) (w : World σ) :
  I [] s w →
  (∀ done x rest s w, l = done ++ x :: rest → I done s w →
     match body x s w with
     | (Return s', w') => I (done ++ [x]) s' w'
     | (Raise e, w') => E done x e s w'
     end) →
  match for_each_keep body l s w with
  | (Return _, s', w') => I l s' w'
  | (Raise e, s', w') => ∃ done x rest, l = done ++ x :: rest ∧ E done x e s' w'
  end.
Proof.
  revert I E s w. induction l as [|x l IH]; intros I E s w H0 Hstep.
  - exact H0.
  - simpl. pose proof (Hstep [] x l s w eq_refl H0) as Hx.
    destruct (body x s w) as [[s'|e] w']; [|by exists [], x, l].
    specialize (IH (λ d, I (x :: d)) (λ d, E (x :: d)) s' w' Hx).
    simpl in IH.
    assert (Hs : ∀ done y rest s w, l = done ++ y :: rest → I (x :: done) s w →
               match body y s w with
               | (Return s', w') => I (x :: done ++ [y]) s' w'
               | (Raise e, w') => E (x :: done) y e s w'
               end).
    { intros done y rest s0 w0 -> HI.
      exact (Hstep (x :: done) y rest s0 w0 eq_refl HI). }
    specialize (IH Hs).
    destruct (for_each_keep body l s' w') as [[[[]|e] s''] w'']; [exact IH|].
    destruct IH as (done & y & rest & -> & He). by exists (x :: done), y, rest.
Qed.

Lemma range_split lo hi done x rest :
  range lo hi = done ++ x :: rest →
  x = lo + Z.of_nat (length done) ∧ x < hi ∧ done = range lo x.
Proof.
  unfold range. intros Hl.
  assert (Hlen : length (seqZ lo (hi - lo)) = length (done ++ x :: rest)) by by rewrite Hl.
  rewrite length_seqZ, length_app in Hlen. simpl in Hlen.
  assert (Hx : seqZ lo (hi - lo) !! length done = Some x).
  { rewrite Hl. by rewrite list_lookup_middle. }
  apply lookup_seqZ in Hx as [-> Hlt]. split_and!; [done|lia|].
  replace (hi - lo) with (Z.of_nat (length done) + (hi - lo - Z.of_nat (length done)))
    in Hl by lia.
  rewrite seqZ_app in Hl by lia.
  apply app_inj_1 in Hl as [Hl _]; [|by rewrite length_seqZ, Nat2Z.id].
  symmetry. etrans; [|exact Hl]. f_equal. lia.
Qed.

(** Everything a run of the stepper does, on any chain. *)
Lemma stepper_run max_power w :
  match stepper max_power w with
  | (Return _, lists, w') =>
      ∃ cps, cp_k <$> cps = range 1 (max_power + 1) ∧
             after_checkpoints w cps lists w'
  | (Raise e, lists, w') =>
      ∃ k cps w1 evs,
        1 ≤ k ≤ max_power ∧
        cp_k <$> cps = range 1 k ∧
        stepper (k - 1) w = (Return tt, lists, w1) ∧
        after_checkpoints w cps lists w1 ∧
        stdout w' = stdout w1 ∧
        rpc_log w' = rpc_log w1 ++ evs ∧
        checkpoint_failed k e evs
  end.
Proof.
  unfold stepper, call_deposit_after_precounts_locals.
  set (body := checkpoint GAS_PRICE_GWEI contract fn_name args_factory acct).
  opose proof (for_each_keep_inv
    (λ done lists w',
       for_each_keep body done ([], []) w = (Return tt, lists, w') ∧
       ∃ cps, cp_k <$> cps = done ∧ after_checkpoints w cps lists w')
    (λ done k e lists w',
       ∃ cps w1 evs,
         for_each_keep body done ([], []) w = (Return tt, lists, w1) ∧
         cp_k <$> cps = done ∧ after_checkpoints w cps lists w1 ∧
         stdout w' = stdout w1 ∧ rpc_log w' = rpc_log w1 ++ evs ∧
         checkpoint_failed k e evs)
    body (range 1 (max_power + 1)) ([], []) w _ _) as Hfe.
  - split; [done|]. exists []. split; [done|].
    unfold after_checkpoints. simpl. by rewrite !app_nil_r.
  - intros done k rest [gas hs] w1 Hl (Hrun & cps & Hks & Hok & Hgas & Hhs & Hlog & Hout).
    simpl in Hgas, Hhs.
    pose proof (checkpoint_run k gas hs w1) as Hstep. fold body in Hstep.
    destruct (body k (gas, hs) w1) as [[[gas' hs']|e] w'] eqn:Hbody.
    + destruct Hstep as (c & Hk & H1 & H2 & -> & -> & Hlog' & Hout').
      split; [by eapply for_each_keep_snoc|].
      exists (cps ++ [c]). rewrite fmap_app, Hks. simpl. rewrite Hk.
      split; [done|]. unfold after_checkpoints. simpl.
      rewrite !fmap_app, bind_app, Hlog', Hlog, Hout', Hout, Hgas, Hhs, <-!app_assoc.
      simpl.
      split_and!; try done. apply Forall_app. split; [done|]. by repeat constructor.
    + destruct Hstep as (Hout' & evs & Hlog' & He).
      exists cps, w1, evs. split_and!; try done.
  - destruct (for_each_keep body _ _ w) as [[[[]|e] lists] w'].
    + by destruct Hfe as [_ Hfe].
    + destruct Hfe as (done & k & rest & Hl & cps & w1 & evs & Hrun & Hks & Haft & Hout
                       & Hlog & He).
      apply range_split in Hl as (Hk & Hlt & ->).
      exists k, cps, w1, evs. split_and!; try done; [lia..|].
      by replace (k - 1 + 1) with k by lia.
Qed.
End Steps.
End StepperFacts.

Module StepperClaims.
Import Common GasBench2 PipelinerFacts StepperFacts.

Section Claims.
Context {σ : Type} `{!External σ}.
Variable GAS_PRICE_GWEI : Z.
Variables (contract : Contract) (fn_name : string) (args_factory : Z → list Value).
Variable acct : Account.

Local Abbreviation stepper :=
  (call_deposit_after_precounts_locals GAS_PRICE_GWEI contract fn_name
     args_factory acct).
Local Abbreviation cp_evs :=
  (cp_events GAS_PRICE_GWEI contract fn_name args_factory acct).
Local Abbreviation set_evs := (set_events GAS_PRICE_GWEI contract acct).

Lemma rows_of_run gas_list tx_hashes (w : World σ) :
  length gas_list = length tx_hashes →
  rows_of gas_list tx_hashes w
    = (Return (row_at gas_list tx_hashes <$> range 0 (Z.of_nat (length gas_list))), w).
Proof.
  intros Hlen. unfold rows_of.
  match goal with |- for_each ?b _ _ _ = _ => set (body := b) end.
  opose proof (for_each_inv
    (λ done (rows : list (Z * Z * string)) w',
       w' = w ∧ rows = row_at gas_list tx_hashes <$> done)
    (λ _ _ _, False) body (range 0 (Z.of_nat (length gas_list))) [] w _ _) as Hfe;
    [done| |].
  - intros done i rest rows w1 Hl [-> ->]. unfold body.
    apply range_split in Hl as (Hi & Hlt & _).
    destruct (lookup_lt_is_Some_2 gas_list (Z.to_nat i)) as [g Hg]; [lia|].
    destruct (lookup_lt_is_Some_2 tx_hashes (Z.to_nat i)) as [h Hh]; [lia|].
    rewrite Hg, Hh. split; [done|].
    rewrite fmap_app. f_equal.
    change (row_at gas_list tx_hashes <$> [i]) with [row_at gas_list tx_hashes i].
    unfold row_at. by rewrite Hg, Hh.
  - destruct (for_each _ _ _ w) as [[rows|e] w']; [|by destruct Hfe].
    by destruct Hfe as [-> ->].
Qed.

Lemma stepper_function max_power w :
  call_deposit_after_precounts GAS_PRICE_GWEI contract fn_name args_factory acct
    max_power w
  = match stepper max_power w with
    | (Return _, lists, w') => (Return lists, w')
    | (Raise e, _, w') => (Raise e, w')
    end.
Proof. reflexivity. Qed.

(** C4.  On a chain that answers every request and whose receipts all
    report success, the stepper with [max_power = K] returns two lists
    of length [K].  They come from [K] checkpoints [cps] whose
    exponents are [1, 2, ..., K] in this order; at the checkpoint for
    [k] the log shows the call [setDepositCount(2^k - 1)] and then the
    measured call with the arguments for [k]; the entry of either list
    for that checkpoint is the [gasUsed] of the measured call's receipt
    and the hexadecimal form of its hash; the line printed for it names
    [k], [2^k - 1] and that gas.  The rows [main] builds from the lists
    hold, for the checkpoint with exponent [k], the index [k - 1], the
    gas and the identifier. *)
Theorem stepper_rows (K : Z) (w : World σ) :
  Responsive _ → AllSucceed _ →
  ∃ gas hashes w' cps,
    call_deposit_after_precounts GAS_PRICE_GWEI contract fn_name args_factory acct K w
      = (Return (gas, hashes), w') ∧
    length gas = Z.to_nat K ∧ length hashes = Z.to_nat K ∧
    length cps = Z.to_nat K ∧
    cp_k <$> cps = range 1 (K + 1) ∧
    events_since w w' = cps ≫= cp_evs ∧
    gas = (λ c, gasUsed (cp_r2 c)) <$> cps ∧
    hashes = (λ c, hex (cp_h2 c)) <$> cps ∧
    stdout w' = stdout w ++
      ((λ c, checkpoint_line (cp_k c) (2 ^ cp_k c - 1) (gasUsed (cp_r2 c))) <$> cps) ∧
    rows_of gas hashes w'
      = (Return ((λ c, (cp_k c - 1, gasUsed (cp_r2 c), hex (cp_h2 c))) <$> cps), w').
Proof.
  intros Hresp Hall. rewrite stepper_function.
  pose proof (stepper_run GAS_PRICE_GWEI contract fn_name args_factory acct K w) as Hrun.
  fold stepper in Hrun.
  destruct (stepper K w) as [[[[]|e] [gas hs]] w'].
  2:{ destruct Hrun as (k & cps & w1 & evs & _ & _ & _ & _ & _ & _ & He).
      destruct He as [(nm & _ & Hnr & _)|[(_ & n1 & g1 & h1 & r1 & _ & Hfc & Hbad)
                                         |(_ & c & _ & _ & _ & Hfc & Hbad)]].
      - done.
      - destruct Hfc as (s & s' & Hw). by apply Hall in Hw.
      - destruct Hfc as (s & s' & Hw). by apply Hall in Hw. }
  destruct Hrun as (cps & Hks & Hok & Hgas & Hhs & Hlog & Hout).
  simpl in Hgas, Hhs. subst gas hs.
  assert (Hlen : length cps = Z.to_nat K).
  { rewrite <-(length_fmap cp_k cps), Hks. unfold range. rewrite length_seqZ. lia. }
  exists ((λ c, gasUsed (cp_r2 c)) <$> cps), ((λ c, hex (cp_h2 c)) <$> cps), w', cps.
  rewrite !length_fmap. split_and!; try done.
  - unfold events_since. by rewrite Hlog, drop_app_length.
  - rewrite rows_of_run by (by rewrite !length_fmap). f_equal. f_equal.
    rewrite length_fmap. apply list_eq. intros j. unfold range.
    rewrite !list_lookup_fmap.
    destruct (cps !! j) as [c|] eqn:Hc; simpl.
    + pose proof (lookup_lt_Some _ _ _ Hc) as Hj.
      rewrite lookup_seqZ_lt by lia. simpl. unfold row_at.
      replace (Z.to_nat (0 + Z.of_nat j)) with j by lia.
      rewrite !list_lookup_fmap, Hc. simpl.
      assert (Hk : (cp_k <$> cps) !! j = Some (cp_k c)) by by rewrite list_lookup_fmap, Hc.
      rewrite Hks in Hk. unfold range in Hk. apply lookup_seqZ in Hk as [-> _].
      do 3 f_equal. lia.
    + apply lookup_ge_None in Hc. by rewrite lookup_seqZ_ge by lia.
Qed.

Lemma receipt_in_checkpoints cps h r :
  Forall cp_ok cps → EvReceipt h r ∈ cps ≫= cp_evs → status r = 1.
Proof.
  intros Hok (c & Hin & Hc)%list_elem_of_bind.
  rewrite Forall_forall in Hok. destruct (Hok c Hc) as [H1 H2].
  unfold cp_events, set_events in Hin. simpl in Hin.
  repeat (apply elem_of_cons in Hin as [Hin|Hin]; [by simplify_eq|]).
  by apply elem_of_nil in Hin.
Qed.

Lemma receipt_in_events evs h r : EvReceipt h r ∈ evs → (h, r) ∈ receipts evs.
Proof. intros Hin. apply list_elem_of_omap. by exists (EvReceipt h r). Qed.

(** C5.  On any chain: if a run of the stepper with [max_power = K]
    ever sees a receipt that does not report success, then it is at
    some checkpoint [k], the receipt is the last thing the run does
    with the chain, and the function raises the [RuntimeError] for
    [k], naming the call that failed.  At that moment the two lists
    are exactly what the first [k - 1] checkpoints produce, [k - 1]
    entries each, and nothing was printed for [k]. *)
Theorem stepper_fail_fast (K : Z) (w : World σ) (h : string) (r : Receipt) :
  let res := stepper K w in
  EvReceipt h r ∈ events_since w res.2 → status r ≠ 1 →
  ∃ k w1,
    1 ≤ k ≤ K ∧
    stepper (k - 1) w = (Return tt, res.1.2, w1) ∧
    length res.1.2.1 = Z.to_nat (k - 1) ∧
    length res.1.2.2 = Z.to_nat (k - 1) ∧
    stdout res.2 = stdout w1 ∧
    last (rpc_log res.2) = Some (EvReceipt h r) ∧
    ((res.1.1 = Raise (RuntimeError (set_failed k (2 ^ k - 1))) ∧
      (call_deposit_after_precounts GAS_PRICE_GWEI contract fn_name args_factory
         acct K w).1 = Raise (RuntimeError (set_failed k (2 ^ k - 1))) ∧
      ∃ n g, events_since w1 res.2 = set_evs k n g h r) ∨
     (res.1.1 = Raise (RuntimeError (deposit_failed k (2 ^ k - 1))) ∧
      (call_deposit_after_precounts GAS_PRICE_GWEI contract fn_name args_factory
         acct K w).1 = Raise (RuntimeError (deposit_failed k (2 ^ k - 1))) ∧
      ∃ c, cp_k c = k ∧ cp_h2 c = h ∧ cp_r2 c = r ∧ status (cp_r1 c) = 1 ∧
           events_since w1 res.2 = cp_evs c)).
Proof.
  intros res Hin Hbad. subst res. rewrite stepper_function.
  pose proof (stepper_run GAS_PRICE_GWEI contract fn_name args_factory acct K w) as Hrun.
  fold stepper in Hrun. unfold events_since in Hin |- *.
  destruct (stepper K w) as [[[[]|e] [gas hs]] w']; simpl in Hin |- *.
  { destruct Hrun as (cps & _ & Hok & _ & _ & Hlog & _).
    rewrite Hlog, drop_app_length in Hin.
    by apply receipt_in_checkpoints in Hin. }
  destruct Hrun as (k & cps & w1 & evs & Hk & Hks & Hpre & Haft & Hout & Hlog & He).
  destruct Haft as (Hok & Hgas & Hhs & Hlog1 & Hout1). simpl in Hgas, Hhs.
  subst gas hs.
  assert (Hlen : length cps = Z.to_nat (k - 1)).
  { rewrite <-(length_fmap cp_k cps), Hks. unfold range. rewrite length_seqZ. lia. }
  rewrite Hlog, Hlog1, <-app_assoc, drop_app_length in Hin.
  apply elem_of_app in Hin as [Hin|Hin]; [by apply receipt_in_checkpoints in Hin|].
  exists k, w1. rewrite !length_fmap, Hlog, drop_app_length.
  split_and!; try done; try lia.
  - destruct He as [(nm & _ & _ & Hall)|[(_ & n1 & g1 & h1 & r1 & -> & _)
                                         |(_ & c & _ & -> & Hr1 & _)]].
    + apply receipt_in_events in Hin. rewrite Forall_forall in Hall.
      by apply Hall in Hin.
    + unfold set_events in Hin |- *.
      repeat (apply elem_of_cons in Hin as [Hin|Hin]; [try done|]).
      * simplify_eq. by rewrite last_app.
      * by apply elem_of_nil in Hin.
    + unfold cp_events, set_events in Hin |- *.
      simpl in Hin |- *.
      repeat (apply elem_of_cons in Hin as [Hin|Hin]; [try done|]).
      * by simplify_eq.
      * simplify_eq. by rewrite last_app.
      * by apply elem_of_nil in Hin.
  - destruct He as [(nm & _ & _ & Hall)|[(-> & n1 & g1 & h1 & r1 & -> & _)
                                         |(-> & c & Hck & -> & Hr1 & _ & Hr2)]].
    + apply receipt_in_events in Hin. rewrite Forall_forall in Hall.
      by apply Hall in Hin.
    + left. split_and!; [done..|]. exists n1, g1.
      unfold set_events in Hin.
      repeat (apply elem_of_cons in Hin as [Hin|Hin]; [try done|]).
      * by simplify_eq.
      * by apply elem_of_nil in Hin.
    + right. split_and!; [done..|]. exists c.
      unfold cp_events, set_events in Hin. simpl in Hin.
      repeat (apply elem_of_cons in Hin as [Hin|Hin]; [try done|]).
      * by simplify_eq.
      * by simplify_eq.
      * by apply elem_of_nil in Hin.
Qed.
End Claims.
End StepperClaims.

(** * The chain subprocess is stopped on every way out of [main] *)

Module CleanupFacts.
Import Common.

Section Cleanup.
Context {σ : Type} `{!External σ}.

Lemma stop_process_run p (w : World σ) :
  stop_process (Some p) w =
    match child w with
    | Alive =>
        let '(gone, s) := os_exited_meanwhile (outside w) in
        if gone : bool
        then (Return tt, mkWorld s (rpc_log w) (stdout w) Dead (files w))
        else let '(_, s') := os_exits_in_time s in
             (Return tt, mkWorld s' (rpc_log w) (stdout w ++ ["🛑 Stopping Anvil..."])
                           Dead (files w))
    | _ => (Return tt, w)
    end.
Proof.
  cbv [stop_process poll_is_None ask_bool try_except wait_3s kill set_child modify
       print terminate kill_SIGTERM raise mbind M_bind mret M_ret set_outside
       outside rpc_log stdout child files].
  destruct w as [o l out c fs]. destruct c; try done.
  destruct (os_exited_meanwhile o) as [[] s]; [done|].
  destruct sys_platform_win32; by destruct (os_exits_in_time s) as [[] s'].
Qed.

Lemma stop_process_not_alive p (w : World σ) :
  child (stop_process (Some p) w).2 ≠ Alive.
Proof.
  rewrite stop_process_run. destruct (child w) eqn:Hc; simpl; try by rewrite Hc.
  destruct (os_exited_meanwhile (outside w)) as [[] s]; [done|].
  by destruct (os_exits_in_time s) as [? s'].
Qed.

Lemma stop_process_returns p (w : World σ) : (stop_process p w).1 = Return tt.
Proof.
  destruct p as [p|]; [|done].
  rewrite stop_process_run. destruct (child w); try done.
  destruct (os_exited_meanwhile (outside w)) as [[] s]; [done|].
  by destruct (os_exits_in_time s) as [? s'].
Qed.

Lemma stop_process_files p (w : World σ) : files (stop_process p w).2 = files w.
Proof.
  destruct p as [p|]; [|done].
  rewrite stop_process_run. destruct (child w); try done.
  destruct (os_exited_meanwhile (outside w)) as [[] s]; [done|].
  by destruct (os_exits_in_time s) as [? s'].
Qed.

Lemma start_anvil_run (w : World σ) :
  start_anvil w =
    let out := stdout w ++ ["🚀 Starting Anvil..."] in
    match os_popen ANVIL_CMD (outside w) with
    | (Reply _, s) => (Return tt, mkWorld s (rpc_log w) out Alive (files w))
    | (Fault nm, s) =>
        (Raise (LibraryError nm), mkWorld s (rpc_log w) out (child w) (files w))
    end.
Proof.
  cbv [start_anvil Popen ask set_child modify print mbind M_bind mret M_ret
       set_outside outside rpc_log stdout child files].
  destruct w as [o l out c fs]. by destruct (os_popen ANVIL_CMD o) as [[[]|nm] s].
Qed.

Lemma run_run cmd (w : World σ) :
  run cmd w =
    let out := stdout w ++ ["$ " +:+ join " " cmd] in
    match os_run cmd (outside w) with
    | (Reply _, s) => (Return tt, mkWorld s (rpc_log w) out (child w) (files w))
    | (Fault nm, s) =>
        (Raise (LibraryError nm), mkWorld s (rpc_log w) out (child w) (files w))
    end.
Proof.
  cbv [run ask modify print mbind M_bind mret M_ret
       set_outside outside rpc_log stdout child files].
  destruct w as [o l out c fs]. by destruct (os_run cmd o) as [[[]|nm] s].
Qed.

(** Whatever the body of the [try] does, when [main] ends the child
    is not running. *)
Lemma guarded_main_stops_child (body : M σ unit) (w : World σ) :
  child w = NoProc →
  let main := print "📦 Compiling with forge...";; run BUILD_CMD;;
              try_finally_var start_anvil (λ _, body) stop_process in
  child (main w).2 ≠ Alive.
Proof.
  intros Hc main. unfold main. rewrite bind_run. cbn [print modify].
  rewrite bind_run, run_run. cbn [outside rpc_log stdout child files].
  destruct (os_run BUILD_CMD (outside w)) as [[[]|nm] s]; cbn; [|by rewrite Hc].
  unfold try_finally_var. rewrite start_anvil_run.
  cbn [outside rpc_log stdout child files].
  destruct (os_popen ANVIL_CMD s) as [[[]|nm] s1].
  - unfold try_finally.
    match goal with |- context [body ?w0] => destruct (body w0) as [o w2] end.
    pose proof (stop_process_not_alive tt w2) as Hs.
    by destruct (stop_process (Some tt) w2) as [[[]|e] w3].
  - cbn. by rewrite Hc.
Qed.
End Cleanup.
End CleanupFacts.

(** C9.  Started from a world without a child process, [main] of either
    script ends with the Anvil subprocess not running, whether it
    returns or raises, wherever the failure occurred: [stop_process]
    runs in the [finally] clause and leaves no child alive. *)
Theorem chain_subprocess_stopped {σ : Type} `{!External σ}
    (cfg1 : GasBench1.Config) (cfg2 : GasBench2.Config) (w : World σ) :
  child w = NoProc →
  child (GasBench1.main cfg1 w).2 ≠ Alive ∧
  child (GasBench2.main cfg2 w).2 ≠ Alive.
Proof.
  intros Hc. split.
  - exact (CleanupFacts.guarded_main_stops_child (GasBench1.main_try cfg1) w Hc).
  - exact (CleanupFacts.guarded_main_stops_child (GasBench2.main_try cfg2) w Hc).
Qed.

(** * The settings read from the environment *)

Lemma env_int_other (env : gmap string string) k v name dflt :
  k ≠ name → env_int (<[k := v]> env) name dflt = env_int env name dflt.
Proof. intros Hne. unfold env_int. by rewrite lookup_insert_ne. Qed.

Lemma env_int_without (env : gmap string string) k name dflt :
  k ≠ name → env_int (delete k env) name dflt = env_int env name dflt.
Proof. intros Hne. unfold env_int. by rewrite lookup_delete_ne. Qed.

(** With nothing set, the settings are 0, 20, 25000 and 1. *)
Lemma default_config :
  GasBench1.load_config ∅
  = Return {| GasBench1.BLOCK_TIME := 0; GasBench1.NUM_ACCOUNTS := 20;
              GasBench1.N := 25000; GasBench1.GAS_PRICE_GWEI := 1 |}
  ∧ GasBench2.load_config ∅ = Return {| GasBench2.GAS_PRICE_GWEI := 1 |}.
Proof. split; reflexivity. Qed.

(** C7, where the code departs from it.  [BLOCK_TIME] is read from the
    environment (default 0) into the setting of that name, and then
    never used: the script behaves exactly as it does without the
    variable, and Anvil is started with the fixed command
    [anvil --silent] whatever the value. *)
Theorem block_time_is_ignored {σ : Type} `{!External σ}
    (env : gmap string string) (bt : string) (n : Z) (w : World σ) :
  py_int bt = Some n →
  (∀ cfg, GasBench1.load_config (<["BLOCK_TIME" := bt]> env) = Return cfg →
          GasBench1.BLOCK_TIME cfg = n) ∧
  (∀ cfg, GasBench1.load_config (delete "BLOCK_TIME" env) = Return cfg →
          GasBench1.BLOCK_TIME cfg = 0) ∧
  GasBench1.script (<["BLOCK_TIME" := bt]> env) w
    = GasBench1.script (delete "BLOCK_TIME" env) w ∧
  Common.ANVIL_CMD = ["anvil"; "--silent"].
Proof.
  intros Hbt.
  assert (H1 : env_int (<["BLOCK_TIME" := bt]> env) "BLOCK_TIME" "0" = Return n).
  { unfold env_int. rewrite lookup_insert_eq. simpl. by rewrite Hbt. }
  assert (H0 : env_int (delete "BLOCK_TIME" env) "BLOCK_TIME" "0" = Return 0).
  { unfold env_int. by rewrite lookup_delete_eq. }
  unfold GasBench1.script, GasBench1.load_config.
  rewrite H1, H0, !env_int_other, !env_int_without by done.
  destruct (env_int env "NUM_ACCOUNTS" "20") as [na|e]; [|by split_and!].
  destruct (env_int env "N" "25000") as [nc|e]; [|by split_and!].
  destruct (env_int env "GAS_GWEI" "1") as [gp|e]; [|by split_and!].
  split_and!; [by intros cfg [= <-]|by intros cfg [= <-]|done|done].
Qed.

(** * Reading a line of the report back *)

Section CsvText.
Lemma append_cons x a b : String x a +:+ b = String x (a +:+ b).
Proof. reflexivity. Qed.

Lemma comma_free_app a b : comma_free (a +:+ b) = comma_free a && comma_free b.
Proof.
  induction a as [|c a IH]; [done|]. rewrite append_cons. simpl. rewrite IH.
  by destruct (Ascii.eqb c ",").
Qed.

Lemma split_on_comma_free a : comma_free a → split_on "," a = [a].
Proof.
  induction a as [|c a IH]; [done|]. simpl.
  destruct (Ascii.eqb c ","); [done|]. simpl. intros Ha. by rewrite IH.
Qed.

Lemma split_on_field a b :
  comma_free a → split_on "," (a +:+ "," +:+ b) = a :: split_on "," b.
Proof.
  change ("," +:+ b) with (String ","%char b).
  induction a as [|c a IH]; [done|]. rewrite append_cons. simpl.
  destruct (Ascii.eqb c ","); [done|]. simpl. intros Ha. by rewrite IH.
Qed.

Lemma append_assoc a b c : (a +:+ b) +:+ c = a +:+ (b +:+ c).
Proof. induction a as [|x a IH]; [done|]. rewrite !append_cons. by f_equal. Qed.

Lemma chomp_line a : chomp (a +:+ nl) = a.
Proof.
  induction a as [|c a IH]; [done|]. rewrite append_cons. simpl.
  destruct (a +:+ nl) eqn:Hab; [|by rewrite IH].
  destruct a; discriminate.
Qed.

Lemma comma_free_uint d : comma_free (NilEmpty.string_of_uint d).
Proof. induction d; simpl; done. Qed.

Lemma comma_free_str_of_Z n : comma_free (str_of_Z n).
Proof.
  unfold str_of_Z, NilZero.string_of_int, NilZero.string_of_uint.
  destruct (Z.to_int n) as [d|d]; destruct d; simpl; try done; apply comma_free_uint.
Qed.

Lemma comma_free_hex_digit n : Ascii.eqb (hex_digit n) "," = false.
Proof.
  unfold hex_digit. destruct (hex_digits !! N.to_nat n) as [c|] eqn:Hc; [|done].
  apply list_elem_of_lookup_2 in Hc. revert c Hc. apply Forall_forall.
  by repeat constructor.
Qed.

Lemma comma_free_hex b : comma_free (hex b).
Proof.
  induction b as [|c b IH]; [done|]. simpl. by rewrite !comma_free_hex_digit.
Qed.

(** A line of the report reads back as the four fields it was made of. *)
Lemma csv_fields_line name i gas txh :
  comma_free name → comma_free txh →
  csv_fields (Common.csv_line name (i, gas, txh))
    = [name; str_of_Z i; str_of_Z gas; txh].
Proof.
  intros Hname Htxh. unfold csv_fields, Common.csv_line.
  replace (name +:+ "," +:+ str_of_Z i +:+ "," +:+ str_of_Z gas +:+ "," +:+ txh +:+ nl)
    with ((name +:+ "," +:+ str_of_Z i +:+ "," +:+ str_of_Z gas +:+ "," +:+ txh) +:+ nl)
    by (by rewrite !append_assoc).
  rewrite chomp_line.
  rewrite !split_on_field by (done || apply comma_free_str_of_Z).
  by rewrite split_on_comma_free.
Qed.
End CsvText.

(** * What the report file holds *)

Module ReportFacts.
Import Common.

Section Report.
Context {σ : Type} `{!External σ}.

Lemma bind_inv {A B} (m : M σ A) (f : A → M σ B) w b w' :
  (m ≫= f) w = (Return b, w') →
  ∃ a w1, m w = (Return a, w1) ∧ f a w1 = (Return b, w').
Proof.
  rewrite bind_run. destruct (m w) as [[a|e] w1]; [|done]. intros Hf. by exists a, w1.
Qed.

Lemma write_run path text (w : World σ) l :
  files w !! path = Some l →
  (write path text w).1 = Return tt ∧
  files (write path text w).2 !! path = Some (l ++ [text]).
Proof.
  intros Hl. unfold write, modify. simpl. split; [done|].
  by rewrite lookup_insert_eq, (lookup_total_correct _ _ _ Hl).
Qed.

Lemma write_rows_run path name rows (w : World σ) l :
  files w !! path = Some l →
  let r := for_each (λ row (_ : unit), write path (csv_line name row)) rows tt w in
  r.1 = Return tt ∧ files r.2 !! path = Some (l ++ (csv_line name <$> rows)).
Proof.
  revert w l. induction rows as [|row rows IH]; intros w l Hl; simpl.
  { by rewrite app_nil_r. }
  rewrite bind_run.
  destruct (write_run path (csv_line name row) w l Hl) as [Ho Hf].
  destruct (write path (csv_line name row) w) as [[[]|e] w1]; [|done].
  simpl in Hf. destruct (IH w1 _ Hf) as [Ho' Hf'].
  split; [done|]. by rewrite Hf', <-app_assoc.
Qed.

Lemma write_all_run path all_results (w : World σ) l :
  files w !! path = Some l →
  let r := for_each (λ '(name, rows) (_ : unit),
                       for_each (λ row (_ : unit), write path (csv_line name row))
                         rows tt) all_results tt w in
  r.1 = Return tt ∧ files r.2 !! path = Some (l ++ report_lines all_results).
Proof.
  revert w l. induction all_results as [|[name rows] res IH]; intros w l Hl; simpl.
  { unfold report_lines. simpl. by rewrite app_nil_r. }
  rewrite bind_run.
  destruct (write_rows_run path name rows w l Hl) as [Ho Hf].
  destruct (for_each _ rows tt w) as [[[]|e] w1]; [|done].
  simpl in Hf. destruct (IH w1 _ Hf) as [Ho' Hf'].
  split; [done|]. rewrite Hf', <-app_assoc. done.
Qed.

Lemma save_csv_run report all_results (w w' : World σ) :
  save_csv report all_results w = (Return tt, w') →
  files w' !! (OUT_DIR +:+ "/" +:+ report)
    = Some (("contract,i,gas,txhash" +:+ nl) :: report_lines all_results).
Proof.
  unfold save_csv. set (out := OUT_DIR +:+ "/" +:+ report).
  intros (? & w1 & Hopen & Hrest)%bind_inv.
  apply bind_inv in Hrest as (? & w2 & Hhead & Hrest).
  apply bind_inv in Hrest as (? & w3 & Hrows & Hprint).
  assert (H1 : files w1 !! out = Some []).
  { unfold open_w in Hopen. apply bind_inv in Hopen as (? & w0 & _ & Hmod).
    injection Hmod as _ <-. simpl. by rewrite lookup_insert_eq. }
  destruct (write_run out ("contract,i,gas,txhash" +:+ nl) w1 [] H1) as [_ H2].
  rewrite Hhead in H2. simpl in H2.
  destruct (write_all_run out all_results w2 _ H2) as [_ H3].
  rewrite Hrows in H3. simpl in H3.
  injection Hprint as <-. simpl. done.
Qed.
End Report.
End ReportFacts.

Module ReportClaims.
Import Common ReportFacts PipelinerFacts PipelinerClaims StepperFacts StepperClaims.

Section Report.
Context {σ : Type} `{!External σ}.

Lemma dict_set_fresh {V} k (v : V) (d : list (string * V)) :
  k ∉ d.*1 → dict_set k v d = d ++ [(k, v)].
Proof. intros Hk. unfold dict_set. by rewrite decide_False. Qed.

Lemma deploy_all_keys gp acct (w w' : World σ) deployed :
  deploy_all gp acct w = (Return deployed, w') →
  deployed.*1 = ["DepositContract"; "DepositContractWithProofs"].
Proof.
  unfold deploy_all, CONTRACTS. simpl.
  intros (d1 & w1 & H1 & H2)%bind_inv.
  apply bind_inv in H2 as (d2 & w2 & H2 & H3). injection H3 as <- _.
  repeat (apply bind_inv in H1 as (? & ? & _ & H1)). injection H1 as <- _.
  repeat (apply bind_inv in H2 as (? & ? & _ & H2)). injection H2 as <- _.
  reflexivity.
Qed.

Lemma pipeliner_returns gp contract fn_name args_factory accounts n_calls
    (w w' : World σ) gas txs :
  GasBench1.call_deposit_many_multiacct gp contract fn_name args_factory accounts
    n_calls w = (Return (gas, txs), w') →
  ∃ hs, txs = hex <$> hs ∧ length gas = Z.to_nat n_calls ∧ length hs = Z.to_nat n_calls.
Proof.
  intros Hrun.
  destruct (pipeliner_run gp contract fn_name args_factory accounts n_calls w)
    as (qs & sent & rs & _ & _ & _ & _ & _ & _ & _ & Hres).
  simpl in Hres.
  change (GasBench1.call_deposit_many_multiacct gp contract fn_name args_factory
            accounts n_calls w)
    with (match GasBench1.call_deposit_many_multiacct_locals gp contract fn_name
                  args_factory accounts n_calls w with
          | (Return loc, w') =>
              (Return (GasBench1.gas_used loc, hex <$> GasBench1.tx_hashes loc), w')
          | (Raise e, w') => (Raise e, w')
          end) in Hrun.
  destruct (GasBench1.call_deposit_many_multiacct_locals _ _ _ _ _ _ w)
    as [[loc|e] w1]; [|done].
  simpl in Hres. destruct Hres as (_ & Hlen & Hrs & Hhs & Hgas & _).
  injection Hrun as <- <- _. exists (GasBench1.tx_hashes loc).
  rewrite Hgas, Hhs, !length_fmap. split_and!; [done| |done].
  by rewrite <-(length_fmap fst rs), Hrs, length_fmap.
Qed.

Lemma stepper_returns gp contract fn_name args_factory acct max_power
    (w w' : World σ) gas hashes :
  GasBench2.call_deposit_after_precounts gp contract fn_name args_factory acct
    max_power w = (Return (gas, hashes), w') →
  ∃ hs, hashes = hex <$> hs ∧ length gas = Z.to_nat max_power ∧
        length hs = Z.to_nat max_power.
Proof.
  intros Hrun. rewrite stepper_function in Hrun.
  pose proof (stepper_run gp contract fn_name args_factory acct max_power w) as Hs.
  destruct (GasBench2.call_deposit_after_precounts_locals _ _ _ _ _ _ w)
    as [[[[]|e] lists] w1]; [|done].
  destruct Hs as (cps & Hks & _ & Hgas & Hhs & _). injection Hrun as -> _.
  simpl in Hgas, Hhs. subst gas hashes. exists (cp_h2 <$> cps).
  assert (Hlen : length cps = Z.to_nat max_power).
  { rewrite <-(length_fmap cp_k cps), Hks. unfold range. rewrite length_seqZ. lia. }
  rewrite !length_fmap. split_and!; [|done..]. by rewrite <-list_fmap_compose.
Qed.

Lemma recorded_rows gas hs n (w : World σ) :
  length gas = n → length hs = n →
  ∃ rows, rows_of gas (hex <$> hs) w = (Return rows, w) ∧ recorded n rows.
Proof.
  intros Hg Hh. eexists. split.
  - apply rows_of_run. by rewrite length_fmap, Hg, Hh.
  - exists gas, hs. by rewrite Hg.
Qed.

Lemma fresh_key {V} (deployed done rest : list (string * V)) name obj :
  NoDup deployed.*1 → deployed = done ++ (name, obj) :: rest → name ∉ done.*1.
Proof.
  intros Hnd ->. rewrite fmap_app in Hnd. apply NoDup_app in Hnd as (_ & Hnd & _).
  intros Hin. apply (Hnd _ Hin). simpl. by left.
Qed.

Lemma run_all1_results cfg deployed accounts (w w' : World σ) all_results plot_data :
  NoDup deployed.*1 →
  GasBench1.run_all cfg deployed accounts w = (Return (all_results, plot_data), w') →
  all_results.*1 = deployed.*1 ∧
  Forall (recorded (Z.to_nat (GasBench1.N cfg))) all_results.*2.
Proof.
  intros Hnd Hrun. unfold GasBench1.run_all in Hrun.
  match type of Hrun with for_each ?b _ _ _ = _ => set (body := b) in Hrun end.
  opose proof (for_each_inv
    (λ done (st : list (string * list (Z * Z * string))
                  * list (string * (list Z * list Z * list string))) (_ : World σ),
       st.1.*1 = done.*1 ∧ Forall (recorded (Z.to_nat (GasBench1.N cfg))) st.1.*2)
    (λ _ _ _, True) body deployed ([], []) w _ _) as Hfe; [done| |].
  - intros done [name obj] rest [res plots] w1 Hl [Hkeys Hrec]. simpl in Hkeys, Hrec.
    destruct (body (name, obj) (res, plots) w1) as [[[res' plots']|e] w2] eqn:Hbody;
      [|done].
    unfold body in Hbody.
    apply bind_inv in Hbody as (? & ? & _ & Hbody).
    apply bind_inv in Hbody as ([gas txs] & ? & Hcall & Hbody).
    apply bind_inv in Hbody as (? & w3 & _ & Hbody).
    apply bind_inv in Hbody as (rows & ? & Hrows & Hret).
    injection Hret as <- _ _.
    apply pipeliner_returns in Hcall as (hs & -> & Hg & Hh).
    destruct (recorded_rows gas hs _ w3 Hg Hh) as (rows' & Hrows' & Hrec').
    rewrite Hrows' in Hrows. injection Hrows as <- _.
    rewrite dict_set_fresh by (rewrite Hkeys; by eapply fresh_key).
    simpl. rewrite !fmap_app, Hkeys. split; [done|].
    apply Forall_app. split; [done|]. by repeat constructor.
  - rewrite Hrun in Hfe. by destruct Hfe.
Qed.

Lemma run_all2_results cfg deployed acct (w w' : World σ) all_results plot_data :
  NoDup deployed.*1 →
  GasBench2.run_all cfg deployed acct w = (Return (all_results, plot_data), w') →
  all_results.*1 = deployed.*1 ∧
  Forall (recorded (Z.to_nat GasBench2.POWERS)) all_results.*2.
Proof.
  intros Hnd Hrun. unfold GasBench2.run_all in Hrun.
  match type of Hrun with for_each ?b _ _ _ = _ => set (body := b) in Hrun end.
  opose proof (for_each_inv
    (λ done (st : list (string * list (Z * Z * string))
                  * list (string * (list Z * list Z * list string))) (_ : World σ),
       st.1.*1 = done.*1 ∧ Forall (recorded (Z.to_nat GasBench2.POWERS)) st.1.*2)
    (λ _ _ _, True) body deployed ([], []) w _ _) as Hfe; [done| |].
  - intros done [name obj] rest [res plots] w1 Hl [Hkeys Hrec]. simpl in Hkeys, Hrec.
    destruct (body (name, obj) (res, plots) w1) as [[[res' plots']|e] w2] eqn:Hbody;
      [|done].
    unfold body in Hbody.
    apply bind_inv in Hbody as (? & ? & _ & Hbody).
    apply bind_inv in Hbody as ([gas txs] & ? & Hcall & Hbody).
    apply bind_inv in Hbody as (? & w3 & _ & Hbody).
    apply bind_inv in Hbody as (rows & ? & Hrows & Hret).
    injection Hret as <- _ _.
    apply stepper_returns in Hcall as (hs & -> & Hg & Hh).
    destruct (recorded_rows gas hs _ w3 Hg Hh) as (rows' & Hrows' & Hrec').
    rewrite Hrows' in Hrows. injection Hrows as <- _.
    rewrite dict_set_fresh by (rewrite Hkeys; by eapply fresh_key).
    simpl. rewrite !fmap_app, Hkeys. split; [done|].
    apply Forall_app. split; [done|]. by repeat constructor.
  - rewrite Hrun in Hfe. by destruct Hfe.
Qed.

Lemma report_lines_length (all_results : list (string * list (Z * Z * string))) :
  length (report_lines all_results) = sum_list (length <$> all_results.*2).
Proof.
  unfold report_lines. induction all_results as [|[name rows] res IH]; [done|].
  rewrite bind_cons, length_app, length_fmap, IH. done.
Qed.

Lemma recorded_comma_free n rows i gas txh :
  recorded n rows → (i, gas, txh) ∈ rows → comma_free txh.
Proof.
  intros (gs & hs & _ & _ & ->) (j & Hrow & _)%list_elem_of_fmap.
  unfold row_at in Hrow. injection Hrow as _ _ ->.
  rewrite list_lookup_fmap. destruct (hs !! Z.to_nat j); [apply comma_free_hex|done].
Qed.

Lemma guarded_main_returns (body : M σ unit) (w w' : World σ) :
  (print "📦 Compiling with forge...";; run BUILD_CMD;;
   try_finally_var start_anvil (λ _, body) stop_process) w = (Return tt, w') →
  ∃ w1 w2, body w1 = (Return tt, w2) ∧ files w' = files w2.
Proof.
  intros (? & ? & _ & Hm)%bind_inv. apply bind_inv in Hm as (? & w0 & _ & Hm).
  unfold try_finally_var in Hm.
  destruct (start_anvil w0) as [[[]|e] w1].
  - unfold try_finally in Hm. destruct (body w1) as [o w2] eqn:Hbody.
    pose proof (CleanupFacts.stop_process_files (Some tt) w2) as Hf.
    destruct (stop_process (Some tt) w2) as [[[]|e] w3]; [|done].
    injection Hm as -> <-. by exists w1, w2.
  - unfold try_finally, raise in Hm. by destruct (stop_process None w1) as [[[]|?] ?].
Qed.

Lemma report_of_results path n fs (all_results : list (string * list (Z * Z * string))) :
  all_results.*1 = ["DepositContract"; "DepositContractWithProofs"] →
  Forall (recorded n) all_results.*2 →
  fs !! path = Some (("contract,i,gas,txhash" +:+ nl) :: report_lines all_results) →
  report_ok path n fs.
Proof.
  intros Hkeys Hrec Hfs. exists all_results. split_and!; try done.
  - apply report_lines_length.
  - intros name rows i gas txh Hin Hrow. apply csv_fields_line.
    + assert (Hname : name ∈ all_results.*1).
      { apply list_elem_of_fmap. by exists (name, rows). }
      rewrite Hkeys in Hname.
      apply elem_of_cons in Hname as [->|Hname]; [done|].
      by apply list_elem_of_singleton in Hname as ->.
    + eapply recorded_comma_free; [|exact Hrow].
      rewrite Forall_forall in Hrec. apply Hrec.
      apply list_elem_of_fmap. by exists (name, rows).
Qed.

Lemma make_plots_files data (w w' : World σ) :
  ask (plt_make_plots data) w = (Return tt, w') → files w' = files w.
Proof.
  rewrite ask_run. destruct (plt_make_plots data (outside w)) as [[[]|?] ?]; [|done].
  by intros [= <-].
Qed.

Lemma names_NoDup : NoDup ["DepositContract"; "DepositContractWithProofs"].
Proof. apply NoDup_cons. split; [|apply NoDup_singleton]. by intros ?%list_elem_of_singleton. Qed.

(** C8.  When [main] of either script returns, the report file holds
    the header and then one line per recorded result: the results of
    the first contract, then those of the second, [N] per contract in
    the first script and [POWERS] in the second.  The number of lines
    after the header is the total number of recorded results, and
    every such line is a contract name, an index, a gas value and a
    transaction identifier joined by commas, which splits at the
    commas into exactly these four fields, in this order. *)
Theorem csv_report_rows (cfg1 : GasBench1.Config) (cfg2 : GasBench2.Config)
    (w : World σ) :
  ((GasBench1.main cfg1 w).1 = Return tt →
   report_ok "gas_out/gas_report1.csv" (Z.to_nat (GasBench1.N cfg1))
     (files (GasBench1.main cfg1 w).2)) ∧
  ((GasBench2.main cfg2 w).1 = Return tt →
   report_ok "gas_out/gas_report2.csv" (Z.to_nat GasBench2.POWERS)
     (files (GasBench2.main cfg2 w).2)).
Proof.
  split.
  - destruct (GasBench1.main cfg1 w) as [o w'] eqn:Hmain. simpl. intros ->.
    apply guarded_main_returns in Hmain as (w1 & w2 & Hbody & ->).
    unfold GasBench1.main_try in Hbody.
    apply bind_inv in Hbody as (? & ? & _ & Hbody).
    apply bind_inv in Hbody as (accounts & w3 & _ & Hbody).
    destruct (accounts !! 0%nat) as [first|]; [|done].
    apply bind_inv in Hbody as (? & ? & _ & Hbody).
    apply bind_inv in Hbody as (deployed & ? & Hdep & Hbody).
    apply bind_inv in Hbody as ([res plots] & ? & Hrun & Hbody).
    apply bind_inv in Hbody as ([] & ? & Hsave & Hplots).
    apply deploy_all_keys in Hdep.
    apply run_all1_results in Hrun as [Hkeys Hrec];
      [|rewrite Hdep; apply names_NoDup].
    apply save_csv_run in Hsave.
    apply make_plots_files in Hplots. rewrite Hplots.
    eapply report_of_results; [by rewrite Hkeys|done|done].
  - destruct (GasBench2.main cfg2 w) as [o w'] eqn:Hmain. simpl. intros ->.
    apply guarded_main_returns in Hmain as (w1 & w2 & Hbody & ->).
    unfold GasBench2.main_try in Hbody.
    apply bind_inv in Hbody as (? & ? & _ & Hbody).
    apply bind_inv in Hbody as (? & ? & _ & Hbody).
    apply bind_inv in Hbody as (deployed & ? & Hdep & Hbody).
    apply bind_inv in Hbody as ([res plots] & ? & Hrun & Hbody).
    apply bind_inv in Hbody as ([] & ? & Hsave & Hplots).
    apply deploy_all_keys in Hdep.
    apply run_all2_results in Hrun as [Hkeys Hrec];
      [|rewrite Hdep; apply names_NoDup].
    apply save_csv_run in Hsave.
    apply make_plots_files in Hplots. rewrite Hplots.
    eapply report_of_results; [by rewrite Hkeys|done|done].
Qed.
End Report.
End ReportClaims.

(** * The theorems at work on the stub chain *)

Section StubRuns.

Lemma stub_responsive status_of : Responsive (Stub.stub status_of).
Proof. constructor; intros; exact I. Qed.

Lemma stub_all_succeed : AllSucceed Stub.success.
Proof. intros h s r s' [= <- _]. reflexivity. Qed.

(** C1 as stated fails for the empty pool: with one call to make, the
    first turn of the loop divides by [len(accounts) = 0]. *)
Lemma pipeliner_empty_pool_raises :
  let run := GasBench1.call_deposit_many_multiacct (External0 := Stub.success) 1
               Stub.c0 "deposit" Stub.leaf [] 1 in
  Responsive Stub.success ∧ 1 ≤ 1 ∧
  (run Stub.w0).1 = Raise ZeroDivisionError ∧
  ¬ ∃ gas txs, (run Stub.w0).1 = Return (gas, txs) ∧
               length gas = 1%nat ∧ length txs = 1%nat.
Proof.
  split; [apply stub_responsive|]. split; [lia|]. split; [reflexivity|].
  intros (gas & txs & Hrun & _). vm_compute in Hrun. discriminate.
Qed.

Lemma pipeliner_outputs_in_order_witness :
  let run := GasBench1.call_deposit_many_multiacct (External0 := Stub.success) 1
               Stub.c0 "deposit" Stub.leaf Stub.pool2 5 in
  Responsive Stub.success ∧ Stub.pool2 ≠ [] ∧ 1 ≤ 5 ∧
  ∃ gas txs,
    (run Stub.w0).1 = Return (gas, txs) ∧
    length gas = Z.to_nat 5 ∧ length txs = Z.to_nat 5 ∧
    ∀ i, (i < Z.to_nat 5)%nat →
      ∃ s h r,
        sends (trace run Stub.w0) !! i = Some (s, h) ∧
        tx_call (raw_transaction s) = FnCall Stub.c0 "deposit" (Stub.leaf (Z.of_nat i)) ∧
        receipts (trace run Stub.w0) !! i = Some (h, r) ∧
        txs !! i = Some (hex h) ∧
        gas !! i = Some (gasUsed r).
Proof.
  split; [apply stub_responsive|]. split; [discriminate|]. split; [lia|].
  apply (PipelinerClaims.pipeliner_outputs_in_order (External0 := Stub.success));
    [apply stub_responsive|discriminate|lia].
Defined.

Lemma round_robin_assignment_witness :
  let run := GasBench1.call_deposit_many_multiacct (External0 := Stub.success) 1
               Stub.c0 "deposit" Stub.leaf Stub.pool2 5 in
  (∃ s h, sends (trace run Stub.w0) !! 2%nat = Some (s, h) ∧
          Stub.pool2 !! (2 `mod` length Stub.pool2)%nat = Some (signer s) ∧
          signer s = Stub.acct "A") ∧
  ((λ sh, signer sh.1) <$> sends (trace run Stub.w0)
     = [Stub.acct "A"; Stub.acct "BB"; Stub.acct "A"; Stub.acct "BB"; Stub.acct "A"] ∧
   ∃ txs, (run Stub.w0).1 = Return ([21000; 21000; 21000; 21000; 21000], txs)).
Proof.
  pose proof (PipelinerClaims.round_robin_assignment (External0 := Stub.success) 1
                Stub.c0 "deposit" Stub.leaf Stub.pool2 5 Stub.w0) as [Hrule Hscenario].
  split.
  - eexists _, _. split; [vm_compute; reflexivity|].
    split; [|reflexivity]. eapply Hrule. vm_compute. reflexivity.
  - apply Hscenario; [apply stub_responsive| |reflexivity|reflexivity].
    intros h s r s' [= <- _]. split; reflexivity.
Defined.

Lemma nonces_gapless_witness :
  let run := GasBench1.call_deposit_many_multiacct (External0 := Stub.success) 1
               Stub.c0 "deposit" Stub.leaf Stub.pool2 5 in
  queried_count "A" (trace run Stub.w0) = Some 1 ∧
  nonces_of "A" (take 4 (sends (trace run Stub.w0))) = [1; 2] ∧
  nonces_of "A" (take 4 (sends (trace run Stub.w0))) = seqZ 1 2.
Proof.
  split; [reflexivity|]. split; [reflexivity|].
  exact (proj1 (PipelinerClaims.nonces_gapless (External0 := Stub.success) 1
                  Stub.c0 "deposit" Stub.leaf Stub.pool2 5 Stub.w0 "A" 1 4 eq_refl)).
Defined.

Lemma pipeliner_zero_calls_witness :
  (∀ a s, answers (web3_get_transaction_count (External := Stub.success) a s).1) ∧
  ∃ loc,
    (GasBench1.call_deposit_many_multiacct_locals (External0 := Stub.success) 1
       Stub.c0 "deposit" Stub.leaf Stub.pool2 0 Stub.w0).1 = Return loc ∧
    GasBench1.base_nonces loc !! "BB" = Some 2 ∧
    GasBench1.tx_hashes loc = [] ∧ GasBench1.gas_used loc = [].
Proof.
  split; [intros; exact I|].
  destruct (PipelinerClaims.pipeliner_zero_calls (External0 := Stub.success) 1
              Stub.c0 "deposit" Stub.leaf Stub.pool2 Stub.w0 (λ _ _, I))
    as (loc & Hloc & _ & _ & Hh & Hg & _).
  exists loc. split; [exact Hloc|]. split; [|split; [exact Hh|exact Hg]].
  vm_compute in Hloc. injection Hloc as <-. reflexivity.
Defined.

Lemma stepper_rows_witness :
  Responsive Stub.success ∧ AllSucceed Stub.success ∧
  ∃ gas hashes w',
    GasBench2.call_deposit_after_precounts (External0 := Stub.success) 1 Stub.c0
      "deposit" Stub.leaf (Stub.acct "A") 3 Stub.w0 = (Return (gas, hashes), w') ∧
    length gas = 3%nat ∧ length hashes = 3%nat.
Proof.
  split; [apply stub_responsive|]. split; [apply stub_all_succeed|].
  destruct (StepperClaims.stepper_rows (External0 := Stub.success) 1 Stub.c0 "deposit"
              Stub.leaf (Stub.acct "A") 3 Stub.w0 (stub_responsive _) stub_all_succeed)
    as (gas & hashes & w' & cps & Hrun & Hg & Hh & _).
  exists gas, hashes, w'. split; [exact Hrun|]. split; [exact Hg|exact Hh].
Defined.

(** The chain reports failure once five transactions are accepted: the
    call that sets the counter at checkpoint 3 is the fifth. *)
Lemma stepper_fail_fast_witness :
  let res := GasBench2.call_deposit_after_precounts_locals
               (External0 := Stub.failing_from 5) 1 Stub.c0 "deposit" Stub.leaf
               (Stub.acct "A") 4 Stub.w0 in
  let r := {| gasUsed := 21000; status := 0; contractAddress := Some "0xC0" |} in
  events_since Stub.w0 res.2 !! 14%nat = Some (EvReceipt (Stub.h_of 4) r) ∧
  status r ≠ 1 ∧
  ∃ k w1, 1 ≤ k ≤ 4 ∧
    GasBench2.call_deposit_after_precounts_locals (External0 := Stub.failing_from 5) 1
      Stub.c0 "deposit" Stub.leaf (Stub.acct "A") (k - 1) Stub.w0
      = (Return tt, res.1.2, w1) ∧
    length res.1.2.1 = Z.to_nat (k - 1) ∧
    stdout res.2 = stdout w1 ∧
    last (rpc_log res.2) = Some (EvReceipt (Stub.h_of 4) r).
Proof.
  intros res r. split; [reflexivity|]. split; [discriminate|].
  destruct (StepperClaims.stepper_fail_fast (External0 := Stub.failing_from 5) 1
              Stub.c0 "deposit" Stub.leaf (Stub.acct "A") 4 Stub.w0 (Stub.h_of 4) r)
    as (k & w1 & Hk & Hpre & Hl1 & _ & Hout & Hlast & _).
  - apply (list_elem_of_lookup_2 _ 14%nat). reflexivity.
  - discriminate.
  - exists k, w1. split; [exact Hk|]. split; [exact Hpre|]. split; [exact Hl1|].
    split; [exact Hout|exact Hlast].
Defined.

Lemma block_time_is_ignored_witness :
  py_int "12" = Some 12 ∧
  GasBench1.script (External0 := Stub.success) {["BLOCK_TIME" := "12"]} Stub.w0
  = GasBench1.script (External0 := Stub.success) (delete "BLOCK_TIME" ∅) Stub.w0.
Proof.
  split; [reflexivity|].
  destruct (block_time_is_ignored (External0 := Stub.success) ∅ "12" 12 Stub.w0 eq_refl)
    as (_ & _ & Hsame & _).
  exact Hsame.
Defined.

Lemma csv_report_rows_witness :
  (GasBench1.main (External0 := Stub.success) Stub.small_config Stub.w0).1 = Return tt ∧
  report_ok "gas_out/gas_report1.csv" 3
    (files (GasBench1.main (External0 := Stub.success) Stub.small_config Stub.w0).2) ∧
  (GasBench2.main (External0 := Stub.success) Stub.config2 Stub.w0).1 = Return tt ∧
  report_ok "gas_out/gas_report2.csv" 28
    (files (GasBench2.main (External0 := Stub.success) Stub.config2 Stub.w0).2).
Proof.
  pose proof (ReportClaims.csv_report_rows (External0 := Stub.success) Stub.small_config
                Stub.config2 Stub.w0) as [H1 H2].
  split; [vm_compute; reflexivity|]. split; [apply H1; vm_compute; reflexivity|].
  split; [vm_compute; reflexivity|]. apply H2. vm_compute. reflexivity.
Defined.

Lemma chain_subprocess_stopped_witness :
  child Stub.w0 = NoProc ∧
  child (GasBench1.main (External0 := Stub.success) Stub.small_config Stub.w0).2 ≠ Alive ∧
  child (GasBench2.main (External0 := Stub.failing) Stub.config2 Stub.w0).2 ≠ Alive.
Proof.
  split; [reflexivity|].
  split.
  - exact (proj1 (chain_subprocess_stopped (External0 := Stub.success) Stub.small_config
                    Stub.config2 Stub.w0 eq_refl)).
  - exact (proj2 (chain_subprocess_stopped (External0 := Stub.failing) Stub.small_config
                    Stub.config2 Stub.w0 eq_refl)).
Defined.
End StubRuns.

(** * The preparation of the accounts *)

Module AccountsFacts.
Import Common GasBench1.

Section Accounts.
Context {σ : Type} `{!External σ}.
Variable GAS_PRICE_GWEI : Z.

Local Abbreviation fund_tx := (funding_tx GAS_PRICE_GWEI).
Local Abbreviation fund_sends := (funding_sends GAS_PRICE_GWEI).

Lemma funding_sends_snoc c funded to h :
  fund_sends c (funded ++ [(to, h)])
  = fund_sends c funded ++ [(fund_tx to (c + Z.of_nat (length funded)), h)].
Proof.
  unfold funding_sends. rewrite length_app. simpl.
  rewrite Nat2Z.inj_add, seqZ_app by lia. simpl.
  rewrite zip_with_app by (by rewrite length_seqZ, Nat2Z.id).
  by rewrite fmap_app.
Qed.

(** What the funding loop has done after the accounts [done]. *)
Local Abbreviation funding_state :=
  (λ (w : World σ) (c : Z) (done : list Account) (funded : list (Account * string))
     (w' : World σ),
     rpc_log w' = rpc_log w ++ (uncurry EvSend <$> fund_sends c funded) ∧
     funded.*1 `sublist_of` done ∧
     stdout w' = stdout w ∧ child w' = child w ∧ files w' = files w ∧
     ((∀ a s, (web3_get_balance a s).1 = Reply 0) → funded.*1 = done) ∧
     ((∀ a s, (web3_get_balance a s).1 ≠ Reply 0) → funded = [])).

Lemma funding_loop_run (extras : list Account) c w :
  let body := λ (acct : Account) (nonce : Z),
    balance ← ask (web3_get_balance (address acct));
    if decide (balance = 0) then
      let tx := {| tx_call := Transfer (address acct) (100 * 10 ^ 18);
                   tx_from := None; tx_nonce := nonce; tx_gas := 21000;
                   tx_gasPrice := to_wei_gwei GAS_PRICE_GWEI |} in
      let signed := sign_transaction (from_key ANVIL_PRIVKEY) tx in
      send_raw_transaction signed;;
      mret (nonce + 1)
    else mret nonce in
  match for_each body extras c w with
  | (Return nonce, w') =>
      ∃ funded, funding_state w c extras funded w' ∧
                nonce = c + Z.of_nat (length funded)
  | (Raise e, w') =>
      ∃ done funded nm, funding_state w c done funded w' ∧
                        done `prefix_of` extras ∧
                        e = LibraryError nm ∧ ¬ FundingAnswers _
  end.
Proof.
  intros body.
  opose proof (for_each_inv
    (λ done (nonce : Z) w',
       ∃ funded, funding_state w c done funded w' ∧
                 nonce = c + Z.of_nat (length funded))
    (λ done e w', ∃ funded nm, funding_state w c done funded w' ∧
                               done `prefix_of` extras ∧
                               e = LibraryError nm ∧ ¬ FundingAnswers _)
    body extras c w _ _) as Hfe.
  - exists []. simpl. rewrite app_nil_r. split_and!; try done. lia.
  - intros done acct rest nonce w1 Hl
      (funded & (Hlog & Hsub & Hout & Hch & Hfs & Hall & Hnone) & ->).
    assert (Hpre : done `prefix_of` extras) by (by exists (acct :: rest)).
    unfold body. rewrite bind_run, ask_run.
    destruct (web3_get_balance (address acct) (outside w1)) as [[b|nm] s] eqn:Hb.
    2:{ exists funded, nm. split_and!; try done.
        intros [_ Hr _ _ _]. specialize (Hr (address acct) (outside w1)).
        by rewrite Hb in Hr. }
    cbv beta iota. destruct (decide (b = 0)) as [->|Hnz].
    + rewrite bind_run, send_raw_transaction_run.
      cbn [set_outside outside rpc_log stdout child files].
      destruct (web3_send_raw_transaction _ s) as [[h|nm] s2] eqn:Hsend.
      2:{ exists funded, nm. split_and!; try done.
          intros [_ _ Hr _ _].
          match type of Hsend with web3_send_raw_transaction ?t _ = _ =>
            specialize (Hr t s) end.
          by rewrite Hsend in Hr. }
      rewrite ret_run. exists (funded ++ [(acct, h)]).
      cbn [log_event set_outside outside rpc_log stdout child files].
      rewrite funding_sends_snoc, !fmap_app, length_app, Hlog, <-app_assoc.
      split_and!; try done.
      * by apply sublist_app.
      * intros H0. by rewrite Hall.
      * intros Hne. exfalso. apply (Hne (address acct) (outside w1)). by rewrite Hb.
      * simpl. lia.
    + rewrite ret_run. exists funded.
      cbn [set_outside outside rpc_log stdout child files].
      split_and!; try done.
      * apply sublist_inserts_r. done.
      * intros H0. exfalso. specialize (H0 (address acct) (outside w1)).
        rewrite Hb in H0. simpl in H0. congruence.
  - destruct (for_each body extras c w) as [[nonce|e] w']; [done|].
    destruct Hfe as (done & funded & nm & ?). by exists done, funded, nm.
Qed.

(** Everything [prepare_accounts] does once the chain has reported the
    count [c] of the base account: the transfers to the accounts
    [funded], then at most one receipt. *)
Lemma prepare_accounts_run n w c s :
  web3_get_transaction_count (address base_account) (outside w) = (Reply c, s) →
  ∃ done funded tail,
    let r := prepare_accounts GAS_PRICE_GWEI n w in
    rpc_log r.2 = rpc_log w ++ EvGetCount (address base_account) c
                    :: (uncurry EvSend <$> fund_sends c funded) ++ tail ∧
    funded.*1 `sublist_of` done ∧
    done `prefix_of` (extra_account <$> range 0 (n - 1)) ∧
    stdout r.2 = stdout w ∧ child r.2 = child w ∧ files r.2 = files w ∧
    ((∀ a s, (web3_get_balance a s).1 = Reply 0) → funded.*1 = done) ∧
    ((∀ a s, (web3_get_balance a s).1 ≠ Reply 0) → funded = []) ∧
    match r.1 with
    | Return accounts =>
        accounts = pool n ∧ done = extra_account <$> range 0 (n - 1) ∧
        if decide (n > 1)
        then ∃ s1 txs h rc, (web3_latest_block_transactions s1).1 = Reply txs ∧
                            last txs = Some h ∧ tail = [EvReceipt h rc]
        else tail = []
    | Raise e =>
        tail = [] ∧
        ((e = IndexError ∧ n > 1 ∧ done = extra_account <$> range 0 (n - 1) ∧
          ∃ s1, (web3_latest_block_transactions s1).1 = Reply []) ∨
         ∃ nm, e = LibraryError nm ∧ ¬ FundingAnswers _)
    end.
Proof.
  intros Hc. unfold prepare_accounts. cbv zeta.
  rewrite bind_run, get_transaction_count_run. fold base_account. rewrite Hc.
  change (drop 1 ([base_account] ++ ?l)) with l.
  set (w1 := log_event _ (set_outside w s)).
  rewrite bind_run.
  match goal with |- context [for_each ?b ?l c w1] =>
    pose proof (funding_loop_run l c w1) as Hloop; cbv zeta in Hloop;
    change (for_each _ l c w1) with (for_each b l c w1) in Hloop;
    destruct (for_each b l c w1) as [[nonce|e] w2]
  end.
  2:{ destruct Hloop as (done & funded & nm & (Hlog & Hsub & Hout & Hch & Hfs & H0 & Hn)
                         & Hpre & -> & Hna).
      exists done, funded, []. cbn [fst snd]. rewrite Hlog, app_nil_r.
      subst w1. cbn [log_event set_outside outside rpc_log stdout child files] in *.
      rewrite <-app_assoc. split_and!; try done. right. by exists nm. }
  destruct Hloop as (funded & (Hlog & Hsub & Hout & Hch & Hfs & H0 & Hn) & ->).
  subst w1. cbn [log_event set_outside outside rpc_log stdout child files] in *.
  rewrite bind_run. destruct (decide (n > 1)) as [Hgt|Hle].
  - rewrite bind_run, ask_run.
    destruct (web3_latest_block_transactions (outside w2)) as [[txs|nm] s2] eqn:Hblk.
    2:{ exists (extra_account <$> range 0 (n - 1)), funded, []. cbn [fst snd raise set_outside outside rpc_log stdout child files].
        rewrite Hlog, app_nil_r, <-app_assoc. split_and!; try done.
        right. exists nm. split; [done|]. intros [_ _ _ Hr _].
        specialize (Hr (outside w2)). by rewrite Hblk in Hr. }
    destruct (last txs) as [h|] eqn:Hlast.
    2:{ exists (extra_account <$> range 0 (n - 1)), funded, []. cbn [fst snd raise set_outside outside rpc_log stdout child files].
        rewrite Hlog, app_nil_r, <-app_assoc. split_and!; try done.
        left. split_and!; try done. exists (outside w2). rewrite Hblk. simpl.
        f_equal. by apply last_None. }
    rewrite bind_run, wait_for_transaction_receipt_run.
    cbn [set_outside outside rpc_log stdout child files].
    destruct (web3_wait_for_transaction_receipt h s2) as [[rc|nm] s3] eqn:Hwait.
    2:{ exists (extra_account <$> range 0 (n - 1)), funded, []. cbn [fst snd raise set_outside outside rpc_log stdout child files].
        rewrite Hlog, app_nil_r, <-app_assoc. split_and!; try done.
        right. exists nm. split; [done|]. intros [_ _ _ _ Hr].
        specialize (Hr h s2). by rewrite Hwait in Hr. }
    rewrite !ret_run. exists (extra_account <$> range 0 (n - 1)), funded, [EvReceipt h rc].
    cbn [fst snd log_event set_outside outside rpc_log stdout child files].
    rewrite Hlog, <-!app_assoc. split_and!; try done.
    exists (outside w2), txs, h, rc. by rewrite Hblk.
  - rewrite !ret_run. exists (extra_account <$> range 0 (n - 1)), funded, [].
    cbn [fst snd]. rewrite Hlog, app_nil_r, <-app_assoc. split_and!; done.
Qed.

End Accounts.
End AccountsFacts.

Module AccountsProps.
Import Common GasBench1 AccountsFacts.

Section Props.
Context {σ : Type} `{!External σ}.
Variable GAS_PRICE_GWEI : Z.

Local Abbreviation fund_sends := (funding_sends GAS_PRICE_GWEI).
Local Abbreviation prepare := (prepare_accounts GAS_PRICE_GWEI).

Lemma trace_prepare n w c funded tail :
  rpc_log (prepare n w).2
    = rpc_log w ++ EvGetCount (address base_account) c
        :: (uncurry EvSend <$> fund_sends c funded) ++ tail →
  trace (prepare n) w
    = phases [(address base_account, c)] (fund_sends c funded) [] ++ tail.
Proof.
  intros Hlog. rewrite (trace_app _ _ _ Hlog). unfold phases. simpl.
  by rewrite app_nil_r.
Qed.

Lemma funding_sends_length c funded :
  length (fund_sends c funded) = length funded.
Proof.
  unfold funding_sends. rewrite length_fmap, length_zip, length_seqZ. lia.
Qed.

Lemma funding_sends_nonces c funded :
  (λ sh, tx_nonce (raw_transaction sh.1)) <$> fund_sends c funded
  = seqZ c (Z.of_nat (length funded)).
Proof.
  unfold funding_sends. rewrite <-list_fmap_compose.
  rewrite <-(fst_zip (seqZ c (Z.of_nat (length funded))) funded) at 2
    by (rewrite length_seqZ; lia).
  apply list_fmap_ext. by intros i [nonce [to h]] _.
Qed.

Lemma funding_sends_shape c funded s h :
  (s, h) ∈ fund_sends c funded →
  ∃ to nonce, (to, h) ∈ funded ∧ s = funding_tx GAS_PRICE_GWEI to nonce.
Proof.
  unfold funding_sends.
  intros ([nonce [to h']] & [= -> ->] & Hin)%list_elem_of_fmap.
  exists to, nonce. split; [|done]. by apply elem_of_zip_r in Hin.
Qed.

(** X1.  On a chain that answers and whose latest block holds a transaction,
    [prepare_accounts] returns a pool of [max(1, num_accounts)]
    accounts, whatever [num_accounts] is: the account of the Anvil key
    first, then the accounts of the keys [keccak("extra-0")],
    [keccak("extra-1")], ...  The pool is never empty and does not
    depend on the state of the chain. *)
Theorem prepare_accounts_pool n w :
  Fundable _ →
  ∃ accounts,
    (prepare n w).1 = Return accounts ∧
    length accounts = Z.to_nat (Z.max 1 n) ∧
    accounts !! 0%nat = Some (from_key ANVIL_PRIVKEY) ∧
    (∀ i, 0 ≤ i < n - 1 →
       accounts !! S (Z.to_nat i)
         = Some (from_key (keccak_text ("extra-" +:+ str_of_Z i)))) ∧
    child (prepare n w).2 = child w ∧ stdout (prepare n w).2 = stdout w.
Proof.
  intros [Hans Hblock].
  destruct (web3_get_transaction_count (address base_account) (outside w))
    as [[c|nm] s] eqn:Hc.
  2:{ pose proof (funding_count Hans (address base_account) (outside w)) as Ha.
      by rewrite Hc in Ha. }
  destruct (prepare_accounts_run GAS_PRICE_GWEI n w c s Hc)
    as (done & funded & tail & _ & _ & _ & Hout & Hch & _ & _ & _ & Hres).
  destruct (prepare n w).1 as [accounts|e].
  - destruct Hres as (-> & _ & _). exists (pool n). split; [done|].
    split_and!; try done.
    + unfold pool, range. cbn [length]. rewrite length_fmap, length_seqZ. lia.
    + intros i Hi. unfold pool, range.
      change ((?x :: ?l) !! S ?k) with (l !! k).
      rewrite list_lookup_fmap, (lookup_seqZ_lt _ _ (Z.to_nat i)) by lia.
      replace (0 + Z.of_nat (Z.to_nat i)) with i by lia. done.
  - exfalso. destruct Hres as (_ & [(_ & _ & _ & s1 & Hempty)|(nm & _ & Hna)]).
    + by apply (Hblock s1 [] Hempty).
    + by apply Hna.
Qed.

(** X2.  On any chain, once the count [c] of the base account is known: the
    count is asked for only once; every transaction submitted is a
    transfer of 100 ether (10^20 wei) with gas limit 21000 and the
    configured gas price, signed by the base account, to one of the
    extra accounts; the recipients come in the order of the pool, each
    at most once per place in it; and the nonces are
    [c, c+1, c+2, ...] in the order of submission.  This holds whether
    the function returns or raises. *)
Theorem funding_transfers n w c s :
  web3_get_transaction_count (address base_account) (outside w) = (Reply c, s) →
  let evs := trace (prepare n) w in
  ∃ funded,
    queries evs = [(address base_account, c)] ∧
    sends evs = fund_sends c funded ∧
    funded.*1 `sublist_of` (extra_account <$> range 0 (n - 1)) ∧
    (λ sh, tx_nonce (raw_transaction sh.1)) <$> sends evs
      = seqZ c (Z.of_nat (length (sends evs))) ∧
    ∀ t h, (t, h) ∈ sends evs →
      signer t = from_key ANVIL_PRIVKEY ∧
      tx_gas (raw_transaction t) = 21000 ∧
      tx_gasPrice (raw_transaction t) = GAS_PRICE_GWEI * 1000000000 ∧
      ∃ to, (to, h) ∈ funded ∧
            tx_call (raw_transaction t) = Transfer (address to) 100000000000000000000.
Proof.
  intros Hc evs.
  destruct (prepare_accounts_run GAS_PRICE_GWEI n w c s Hc)
    as (done & funded & tail & Hlog & Hsub & Hpre & _ & _ & _ & _ & _ & Hres).
  cbv zeta in Hlog, Hres.
  assert (Htail : queries tail = [] ∧ sends tail = []).
  { destruct (prepare n w).1 as [accounts|e].
    - destruct Hres as (_ & _ & Htl).
      case_decide; [destruct Htl as (? & ? & ? & ? & _ & _ & ->)|subst tail]; done.
    - by destruct Hres as (-> & _). }
  destruct Htail as [Hq Hs].
  assert (Hsends : sends evs = fund_sends c funded).
  { unfold evs. rewrite (trace_prepare _ _ _ _ _ Hlog), sends_app, sends_phases, Hs.
    by rewrite app_nil_r. }
  exists funded. rewrite Hsends, funding_sends_length. split_and!.
  - unfold evs. rewrite (trace_prepare _ _ _ _ _ Hlog), queries_app, queries_phases, Hq.
    done.
  - done.
  - destruct Hpre as [rest ->]. by apply sublist_inserts_r.
  - apply funding_sends_nonces.
  - intros t h (to & nonce & Hin & ->)%funding_sends_shape.
    split_and!; try done. by exists to.
Qed.

(** X3.  On such a chain where every account asked about has no funds, each
    extra account gets its transfer: [num_accounts - 1] transfers, to
    the extra accounts in the order of the pool, and then the function
    waits for one receipt if the pool has more than one account. *)
Theorem fresh_accounts_all_funded n w :
  Fundable _ → (∀ a s, (web3_get_balance a s).1 = Reply 0) →
  let evs := trace (prepare n) w in
  ∃ c hashes,
    queried_count (address base_account) evs = Some c ∧
    length hashes = Z.to_nat (n - 1) ∧
    sends evs = fund_sends c (zip (extra_account <$> range 0 (n - 1)) hashes) ∧
    length (receipts evs) = if decide (n > 1) then 1%nat else 0%nat.
Proof.
  intros [Hans Hblock] Hzero evs.
  destruct (web3_get_transaction_count (address base_account) (outside w))
    as [[c|nm] s] eqn:Hc.
  2:{ pose proof (funding_count Hans (address base_account) (outside w)) as Ha.
      by rewrite Hc in Ha. }
  destruct (prepare_accounts_run GAS_PRICE_GWEI n w c s Hc)
    as (done & funded & tail & Hlog & _ & _ & _ & _ & _ & Hall & _ & Hres).
  cbv zeta in Hlog, Hres. specialize (Hall Hzero).
  unfold evs. rewrite (trace_prepare _ _ _ _ _ Hlog).
  destruct (prepare n w).1 as [accounts|e].
  2:{ exfalso. destruct Hres as (_ & [(_ & _ & _ & s1 & Hempty)|(nm & _ & Hna)]).
      - by apply (Hblock s1 [] Hempty).
      - by apply Hna. }
  destruct Hres as (_ & -> & Htl). exists c, funded.*2.
  unfold queried_count.
  rewrite queries_app, sends_app, receipts_app, queries_phases, sends_phases,
    receipts_phases.
  assert (Ht : queries tail = [] ∧ sends tail = [] ∧
               length (receipts tail) = if decide (n > 1) then 1%nat else 0%nat).
  { case_decide; [destruct Htl as (? & ? & ? & ? & _ & _ & ->)|subst tail]; done. }
  destruct Ht as (-> & -> & Hrc). rewrite !app_nil_r. split_and!; [| | |exact Hrc].
  - change [(address base_account, c)] with ([] ++ [(address base_account, c)]).
    by rewrite PipelinerFacts.last_query_snoc, decide_True.
  - rewrite length_fmap, <-(length_fmap fst funded), Hall, length_fmap.
    unfold range. rewrite length_seqZ. lia.
  - by rewrite <-Hall, zip_fst_snd.
Qed.

(** X4.  When every extra account holds funds already, nothing is sent; if
    the latest block is then empty, [prepare_accounts] raises
    [IndexError] for any pool of more than one account: it looks for
    the last transaction of that block to wait for. *)
Theorem funded_accounts_idle_chain n w :
  1 < n → FundingAnswers _ →
  (∀ a s, (web3_get_balance a s).1 ≠ Reply 0) →
  (∀ s, (web3_latest_block_transactions s).1 = Reply []) →
  (prepare n w).1 = Raise IndexError ∧
  sends (trace (prepare n) w) = [] ∧
  receipts (trace (prepare n) w) = [].
Proof.
  intros Hn Hans Hrich Hidle.
  destruct (web3_get_transaction_count (address base_account) (outside w))
    as [[c|nm] s] eqn:Hc.
  2:{ pose proof (funding_count Hans (address base_account) (outside w)) as Ha.
      by rewrite Hc in Ha. }
  destruct (prepare_accounts_run GAS_PRICE_GWEI n w c s Hc)
    as (done & funded & tail & Hlog & _ & _ & _ & _ & _ & _ & Hnone & Hres).
  cbv zeta in Hlog, Hres. rewrite (Hnone Hrich) in Hlog.
  rewrite (trace_prepare _ _ _ _ _ Hlog).
  destruct (prepare n w).1 as [accounts|e].
  - exfalso. destruct Hres as (_ & _ & Htl). rewrite decide_True in Htl by lia.
    destruct Htl as (s1 & txs & h & rc & Hblk & Hlast & _).
    rewrite Hidle in Hblk. by injection Hblk as <-.
  - destruct Hres as (-> & [(-> & _)|(nm & _ & Hna)]); [done|by destruct Hna].
Qed.

(** X5.  For [num_accounts <= 1], zero and negative numbers included, the
    pool is the base account alone: the function asks for its
    transaction count and does nothing else. *)
Theorem single_account_pool n w c s :
  n ≤ 1 →
  web3_get_transaction_count (address (from_key ANVIL_PRIVKEY)) (outside w)
    = (Reply c, s) →
  prepare n w
  = (Return [from_key ANVIL_PRIVKEY],
     log_event (EvGetCount (address (from_key ANVIL_PRIVKEY)) c) (set_outside w s)).
Proof.
  intros Hn Hc. unfold prepare_accounts. cbv zeta.
  rewrite bind_run, get_transaction_count_run, Hc.
  unfold range, seqZ. replace (Z.to_nat (n - 1 - 0)) with 0%nat by lia.
  cbn [seq fmap list_fmap app drop for_each].
  rewrite bind_run, ret_run, bind_run, decide_False by lia. done.
Qed.
End Props.
End AccountsProps.

Section AccountsRuns.

Lemma stub_fundable : Fundable Stub.success.
Proof.
  split; [constructor; intros; exact I|]. by intros s txs [= <-].
Qed.

Lemma prepare_accounts_pool_witness :
  Fundable Stub.success ∧
  ∃ accounts,
    (GasBench1.prepare_accounts (External0 := Stub.success) 1 3 Stub.w0).1
      = Return accounts ∧
    length accounts = 3%nat.
Proof.
  split; [apply stub_fundable|].
  destruct (AccountsProps.prepare_accounts_pool (External0 := Stub.success) 1 3 Stub.w0
              stub_fundable) as (accounts & Hrun & Hlen & _).
  exists accounts. split; [exact Hrun|exact Hlen].
Defined.

Lemma funding_transfers_witness :
  let evs := trace (GasBench1.prepare_accounts (External0 := Stub.success) 1 3) Stub.w0 in
  web3_get_transaction_count (External := Stub.success)
    (address (base_account (External0 := Stub.success))) (outside Stub.w0)
    = (Reply 66, 0%nat) ∧
  (λ sh, tx_nonce (raw_transaction sh.1)) <$> sends evs = [66; 67] ∧
  (λ sh, tx_nonce (raw_transaction sh.1)) <$> sends evs
    = seqZ 66 (Z.of_nat (length (sends evs))).
Proof.
  split; [reflexivity|]. split; [reflexivity|].
  destruct (AccountsProps.funding_transfers (External0 := Stub.success) 1 3 Stub.w0
              66 0%nat eq_refl) as (funded & _ & _ & _ & Hnonces & _).
  exact Hnonces.
Defined.

Lemma fresh_accounts_all_funded_witness :
  let evs := trace (GasBench1.prepare_accounts (External0 := Stub.success) 1 3) Stub.w0 in
  Fundable Stub.success ∧
  (∀ a s, (web3_get_balance (External := Stub.success) a s).1 = Reply 0) ∧
  ∃ c (hashes : list string),
    queried_count (address (base_account (External0 := Stub.success))) evs = Some c ∧
    length hashes = 2%nat ∧ length (receipts evs) = 1%nat.
Proof.
  split; [apply stub_fundable|]. split; [reflexivity|].
  destruct (AccountsProps.fresh_accounts_all_funded (External0 := Stub.success) 1 3
              Stub.w0 stub_fundable (λ _ _, eq_refl)) as (c & hashes & Hc & Hl & _ & Hr).
  exists c, hashes. split; [exact Hc|]. split; [exact Hl|exact Hr].
Defined.

Lemma funded_accounts_idle_chain_witness :
  let E := Scenario.chain Scenario.funded_idle in
  1 < 3 ∧ FundingAnswers E ∧
  (∀ a s, (web3_get_balance (External := E) a s).1 ≠ Reply 0) ∧
  (∀ s, (web3_latest_block_transactions (External := E) s).1 = Reply []) ∧
  (GasBench1.prepare_accounts (External0 := E) 1 3 Stub.w0).1 = Raise IndexError.
Proof.
  intros E.
  assert (Hans : FundingAnswers E) by (constructor; intros; exact I).
  assert (Hrich : ∀ a s, (web3_get_balance (External := E) a s).1 ≠ Reply 0)
    by (intros a s; discriminate).
  split; [lia|]. split; [exact Hans|]. split; [exact Hrich|]. split; [reflexivity|].
  exact (proj1 (AccountsProps.funded_accounts_idle_chain (External0 := E) 1 3 Stub.w0
                  ltac:(lia) Hans Hrich (λ _, eq_refl))).
Defined.

Lemma single_account_pool_witness :
  0 ≤ 1 ∧
  web3_get_transaction_count (External := Stub.success)
    (address (from_key (External0 := Stub.success) Common.ANVIL_PRIVKEY))
    (outside Stub.w0) = (Reply 66, 0%nat) ∧
  (GasBench1.prepare_accounts (External0 := Stub.success) 1 0 Stub.w0).1
    = Return [from_key (External0 := Stub.success) Common.ANVIL_PRIVKEY].
Proof.
  split; [lia|]. split; [reflexivity|].
  exact (f_equal fst (AccountsProps.single_account_pool (External0 := Stub.success) 1 0
                        Stub.w0 66 0%nat ltac:(lia) eq_refl)).
Defined.
End AccountsRuns.

(** * Deployment *)

Module DeployFacts.
Import Common.

Section Deploy.
Context {σ : Type} `{!External σ}.
Variable GAS_PRICE_GWEI : Z.

(** [deploy] from the nonce query on, once [abi] and [bytecode] are
    chosen. *)
Local Abbreviation deploy_chain := (λ (abi bytecode : json) (acct : Account),
  nonce ← get_transaction_count (address acct);
  tx ← build_transaction (Constructor abi bytecode)
         {| p_from := address acct; p_nonce := nonce; p_gas := Some 5000000;
            p_gasPrice := to_wei_gwei GAS_PRICE_GWEI |};
  tx_hash ← send_raw_transaction (sign_transaction acct tx);
  receipt ← wait_for_transaction_receipt tx_hash;
  mret {| contract_address := contractAddress receipt; contract_abi := abi |}).

Lemma deploy_chain_run abi bytecode acct (w : World σ) :
  match deploy_chain abi bytecode acct w with
  | (Return c, w') =>
      ∃ n h r,
        rpc_log w' = rpc_log w ++
          [EvGetCount (address acct) n;
           EvSend (deploy_tx GAS_PRICE_GWEI abi bytecode acct n) h;
           EvReceipt h r] ∧
        c = {| contract_address := contractAddress r; contract_abi := abi |} ∧
        stdout w' = stdout w ∧ child w' = child w ∧ files w' = files w
  | (Raise e, w') =>
      (∃ nm, e = LibraryError nm) ∧ ¬ Responsive _ ∧
      stdout w' = stdout w ∧ child w' = child w ∧ files w' = files w ∧
      receipts (events_since w w') = []
  end.
Proof.
  cbv beta. rewrite bind_run, get_transaction_count_run.
  destruct (web3_get_transaction_count _ (outside w)) as [[n|nm] s] eqn:Hq.
  2:{ unfold events_since. cbn [log_event set_outside outside rpc_log stdout child files].
      rewrite drop_all. split_and!; try done; [by exists nm|].
      intros [Hr _ _ _]. specialize (Hr (address acct) (outside w)). by rewrite Hq in Hr. }
  rewrite bind_run, build_transaction_run.
  cbn [log_event set_outside outside rpc_log stdout child files].
  destruct (web3_fill_defaults _ _ s) as [[g|nm] s1] eqn:Hfill.
  2:{ unfold events_since. cbn [log_event set_outside outside rpc_log stdout child files].
      rewrite drop_app_length. split_and!; try done; [by exists nm|].
      intros [_ Hr _ _].
      match type of Hfill with web3_fill_defaults ?c ?p _ = _ => specialize (Hr c p s) end.
      by rewrite Hfill in Hr. }
  rewrite bind_run, send_raw_transaction_run.
  cbn [log_event set_outside outside rpc_log stdout child files].
  destruct (web3_send_raw_transaction _ s1) as [[h|nm] s2] eqn:Hsend.
  2:{ unfold events_since. cbn [log_event set_outside outside rpc_log stdout child files].
      rewrite drop_app_length. split_and!; try done; [by exists nm|].
      intros [_ _ Hr _].
      match type of Hsend with web3_send_raw_transaction ?t _ = _ => specialize (Hr t s1) end.
      by rewrite Hsend in Hr. }
  rewrite bind_run, wait_for_transaction_receipt_run.
  cbn [log_event set_outside outside rpc_log stdout child files].
  destruct (web3_wait_for_transaction_receipt h s2) as [[r|nm] s3] eqn:Hwait.
  2:{ unfold events_since. cbn [log_event set_outside outside rpc_log stdout child files].
      rewrite <-app_assoc, drop_app_length. split_and!; try done; [by exists nm|].
      intros [_ _ _ Hr]. specialize (Hr h s2). by rewrite Hwait in Hr. }
  rewrite ret_run. exists n, h, r.
  cbn [log_event set_outside outside rpc_log stdout child files].
  rewrite <-!app_assoc. done.
Qed.

Lemma getitem_inv j k v :
  json_getitem j k = Return v → ∃ kvs, j = JObj kvs ∧ assoc k kvs = Some v.
Proof.
  destruct j as [| |kvs|]; try done. simpl.
  destruct (assoc k kvs) as [v'|] eqn:Hk; [|done]. intros [= ->]. by exists kvs.
Qed.

Lemma lift_bind {A B} (o : outcome A) (f : A → M σ B) (w : World σ) :
  (lift o ≫= f) w = match o with Return a => f a w | Raise e => (Raise e, w) end.
Proof. rewrite bind_run. unfold lift. by destruct o. Qed.

(** The three ways in which [deploy] finds the bytecode. *)
Lemma deploy_object artifact abi b code acct (w : World σ) :
  json_getitem artifact "abi" = Return abi →
  json_getitem artifact "bytecode" = Return b →
  json_getitem b "object" = Return code →
  json_truthy code = true →
  deploy GAS_PRICE_GWEI artifact acct w = deploy_chain abi code acct w.
Proof.
  intros (kvs & -> & Habi)%getitem_inv (? & [= <-] & Hb)%getitem_inv
    (okvs & -> & Hcode)%getitem_inv Ht.
  unfold deploy. rewrite lift_bind. cbn [json_getitem]. rewrite Habi.
  rewrite lift_bind. cbn [json_get]. rewrite Hb. cbn [default from_option id].
  rewrite lift_bind. cbn [json_get]. rewrite Hcode. cbn [default from_option id].
  rewrite bind_run, Ht, ret_run. done.
Qed.

Lemma deploy_whole_entry artifact abi b o acct (w : World σ) :
  json_getitem artifact "abi" = Return abi →
  json_getitem artifact "bytecode" = Return b →
  json_get b "object" JNull = Return o →
  json_truthy o = false → json_truthy b = true →
  deploy GAS_PRICE_GWEI artifact acct w = deploy_chain abi b acct w.
Proof.
  intros (kvs & -> & Habi)%getitem_inv (? & [= <-] & Hb)%getitem_inv Ho Hf Ht.
  unfold deploy. rewrite lift_bind. cbn [json_getitem]. rewrite Habi.
  rewrite lift_bind. cbn [json_get]. rewrite Hb. cbn [default from_option id].
  rewrite lift_bind, Ho.
  rewrite bind_run, Hf, lift_bind, Ht, ret_run. done.
Qed.

Lemma deploy_evm artifact abi e eb code acct (w : World σ) :
  json_getitem artifact "abi" = Return abi →
  json_getitem artifact "bytecode" = Raise (KeyError "bytecode") →
  json_getitem artifact "evm" = Return e →
  json_getitem e "bytecode" = Return eb →
  json_getitem eb "object" = Return code →
  deploy GAS_PRICE_GWEI artifact acct w = deploy_chain abi code acct w.
Proof.
  intros (kvs & -> & Habi)%getitem_inv Hb He Heb Hcode.
  assert (Hnone : assoc "bytecode" kvs = None).
  { simpl in Hb. by destruct (assoc "bytecode" kvs). }
  unfold deploy. rewrite lift_bind. cbn [json_getitem]. rewrite Habi.
  rewrite lift_bind. cbn [json_get]. rewrite Hnone. cbn [default from_option id].
  rewrite lift_bind. cbn [json_get assoc default from_option id].
  rewrite bind_run. cbn [json_truthy].
  rewrite lift_bind. cbn [json_truthy].
  cbn [json_getitem] in He. rewrite lift_bind.
  destruct (assoc "evm" kvs) as [e'|]; [|done]. injection He as ->.
  rewrite lift_bind, Heb. unfold lift. by rewrite Hcode.
Qed.

Lemma getitem_error j k e : json_getitem j k = Raise e → document_error e.
Proof.
  destruct j as [| |kvs|]; simpl; try (intros [= <-]; right; by left).
  destruct (assoc k kvs); [done|]. intros [= <-]. left. by exists k.
Qed.

Lemma get_error j k d e : json_get j k d = Raise e → document_error e.
Proof. destruct j; simpl; try done; intros [= <-]; right; by right. Qed.

(** Looking into the artifact does not touch the world. *)
Lemma deploy_split artifact acct (w : World σ) :
  (∃ e, document_error e ∧ deploy GAS_PRICE_GWEI artifact acct w = (Raise e, w)) ∨
  (∃ abi bytecode, json_getitem artifact "abi" = Return abi ∧
     deploy GAS_PRICE_GWEI artifact acct w = deploy_chain abi bytecode acct w).
Proof.
  unfold deploy. rewrite lift_bind.
  destruct (json_getitem artifact "abi") as [abi|e] eqn:Habi.
  2:{ left. exists e. split; [by eapply getitem_error|done]. }
  rewrite lift_bind.
  destruct (json_get artifact "bytecode" (JObj [])) as [b0|e] eqn:Hb0.
  2:{ left. exists e. split; [by eapply get_error|done]. }
  rewrite lift_bind.
  destruct (json_get b0 "object" JNull) as [b1|e] eqn:Hb1.
  2:{ left. exists e. split; [by eapply get_error|done]. }
  rewrite bind_run. destruct (json_truthy b1).
  { rewrite ret_run. right. by exists abi, b1. }
  rewrite lift_bind.
  destruct (json_get artifact "bytecode" JNull) as [b2|e] eqn:Hb2.
  2:{ left. exists e. split; [by eapply get_error|done]. }
  destruct (json_truthy b2).
  { rewrite ret_run. right. by exists abi, b2. }
  rewrite lift_bind.
  destruct (json_getitem artifact "evm") as [ev|e] eqn:Hev.
  2:{ left. exists e. split; [by eapply getitem_error|done]. }
  rewrite lift_bind.
  destruct (json_getitem ev "bytecode") as [eb|e] eqn:Heb.
  2:{ left. exists e. split; [by eapply getitem_error|done]. }
  unfold lift.
  destruct (json_getitem eb "object") as [code|e] eqn:Hcode.
  2:{ left. exists e. split; [by eapply getitem_error|done]. }
  right. by exists abi, code.
Qed.

(** A deployment on a chain that answers. *)
Lemma deploy_chain_returns abi bytecode acct (w : World σ) :
  Responsive _ →
  ∃ n h r w',
    deploy_chain abi bytecode acct w
      = (Return {| contract_address := contractAddress r; contract_abi := abi |}, w') ∧
    events_since w w'
      = [EvGetCount (address acct) n;
         EvSend (deploy_tx GAS_PRICE_GWEI abi bytecode acct n) h;
         EvReceipt h r].
Proof.
  intros Hresp. pose proof (deploy_chain_run abi bytecode acct w) as Hrun.
  destruct (deploy_chain abi bytecode acct w) as [[c|e] w'].
  - destruct Hrun as (n & h & r & Hlog & -> & _). exists n, h, r, w'.
    split; [done|]. unfold events_since. by rewrite Hlog, drop_app_length.
  - by destruct Hrun as (_ & Hnr & _).
Qed.

End Deploy.
End DeployFacts.

Module DeployProps.
Import Common DeployFacts.

Section Props.
Context {σ : Type} `{!External σ}.
Variable GAS_PRICE_GWEI : Z.

Local Abbreviation deploy_tx := (deploy_tx GAS_PRICE_GWEI).

(** X6.  A Foundry artifact, whose bytecode is the non-empty entry
    [artifact["bytecode"]["object"]]: on a chain that answers, [deploy]
    asks for the transaction count [n] of the account, submits one
    construction transaction with that bytecode, nonce [n] and gas
    limit 5000000, waits for its receipt and returns a handle on the
    address the receipt names, whatever status the receipt reports. *)
Theorem deploy_foundry_artifact artifact abi b code acct (w : World σ) :
  Responsive _ →
  json_getitem artifact "abi" = Return abi →
  json_getitem artifact "bytecode" = Return b →
  json_getitem b "object" = Return code →
  json_truthy code = true →
  ∃ n h r w',
    deploy GAS_PRICE_GWEI artifact acct w
      = (Return {| contract_address := contractAddress r; contract_abi := abi |}, w') ∧
    events_since w w'
      = [EvGetCount (address acct) n; EvSend (deploy_tx abi code acct n) h;
         EvReceipt h r].
Proof.
  intros Hresp Habi Hb Hcode Ht.
  rewrite (deploy_object GAS_PRICE_GWEI _ _ _ _ acct w Habi Hb Hcode Ht).
  by apply deploy_chain_returns.
Qed.

(** X7.  An artifact whose ["bytecode"] entry is an object without a
    usable ["object"] (absent, null or empty): when the entry is not
    empty, [deploy] hands the entry itself, a dictionary, to the
    library as the bytecode, and goes on with whatever the library
    makes of it.  The third place,
    [artifact["evm"]["bytecode"]["object"]], is not looked at. *)
Theorem deploy_entry_without_object artifact abi b o acct (w : World σ) :
  Responsive _ →
  json_getitem artifact "abi" = Return abi →
  json_getitem artifact "bytecode" = Return b →
  json_get b "object" JNull = Return o →
  json_truthy o = false → json_truthy b = true →
  ∃ n h r w',
    deploy GAS_PRICE_GWEI artifact acct w
      = (Return {| contract_address := contractAddress r; contract_abi := abi |}, w') ∧
    events_since w w'
      = [EvGetCount (address acct) n; EvSend (deploy_tx abi b acct n) h;
         EvReceipt h r].
Proof.
  intros Hresp Habi Hb Ho Hf Ht.
  rewrite (deploy_whole_entry GAS_PRICE_GWEI _ _ _ _ acct w Habi Hb Ho Hf Ht).
  by apply deploy_chain_returns.
Qed.

(** X8.  An artifact without a ["bytecode"] entry: the bytecode is
    [artifact["evm"]["bytecode"]["object"]], taken as it is. *)
Theorem deploy_evm_fallback artifact abi e eb code acct (w : World σ) :
  Responsive _ →
  json_getitem artifact "abi" = Return abi →
  json_getitem artifact "bytecode" = Raise (KeyError "bytecode") →
  json_getitem artifact "evm" = Return e →
  json_getitem e "bytecode" = Return eb →
  json_getitem eb "object" = Return code →
  ∃ n h r w',
    deploy GAS_PRICE_GWEI artifact acct w
      = (Return {| contract_address := contractAddress r; contract_abi := abi |}, w') ∧
    events_since w w'
      = [EvGetCount (address acct) n; EvSend (deploy_tx abi code acct n) h;
         EvReceipt h r].
Proof.
  intros Hresp Habi Hb He Heb Hcode.
  rewrite (deploy_evm GAS_PRICE_GWEI _ _ _ _ _ acct w Habi Hb He Heb Hcode).
  by apply deploy_chain_returns.
Qed.

(** X9.  An artifact whose ["bytecode"] entry is not an object, a plain
    string of hexadecimal digits for instance: [deploy] raises
    [AttributeError] and nothing reaches the chain. *)
Theorem deploy_flat_bytecode_raises artifact abi b acct (w : World σ) :
  json_getitem artifact "abi" = Return abi →
  json_getitem artifact "bytecode" = Return b →
  (∀ kvs, b ≠ JObj kvs) →
  deploy GAS_PRICE_GWEI artifact acct w = (Raise AttributeError, w).
Proof.
  intros (kvs & -> & Habi)%getitem_inv (? & [= <-] & Hb)%getitem_inv Hflat.
  unfold deploy. rewrite lift_bind. cbn [json_getitem]. rewrite Habi.
  rewrite lift_bind. cbn [json_get]. rewrite Hb. cbn [default from_option id].
  rewrite lift_bind. destruct b as [| |okvs|]; try done. by destruct (Hflat okvs).
Qed.

(** X10.  The ways in which [deploy] fails: an error about the artifact is
    raised before the chain is contacted and leaves the world as it
    was; any other error is one the library raised.  [deploy] raises no
    error of its own about the receipt. *)
Theorem deploy_failures artifact acct (w : World σ) e :
  (deploy GAS_PRICE_GWEI artifact acct w).1 = Raise e →
  (document_error e ∧ (deploy GAS_PRICE_GWEI artifact acct w).2 = w) ∨
  ((∃ nm, e = LibraryError nm) ∧ ¬ Responsive _ ∧
   receipts (trace (deploy GAS_PRICE_GWEI artifact acct) w) = []).
Proof.
  intros Hraise. unfold trace.
  destruct (deploy_split GAS_PRICE_GWEI artifact acct w)
    as [(e' & Hdoc & Hrun)|(abi & bytecode & _ & Hrun)].
  - rewrite Hrun in Hraise |- *. left. by injection Hraise as <-.
  - right. pose proof (deploy_chain_run GAS_PRICE_GWEI abi bytecode acct w) as Hc.
    cbv beta in Hc, Hrun. rewrite <-Hrun in Hc.
    destruct (deploy GAS_PRICE_GWEI artifact acct w) as [[c|e'] w']; [done|].
    injection Hraise as <-. by destruct Hc as (? & ? & _ & _ & _ & ?).
Qed.

End Props.
End DeployProps.

Section DeployRuns.

Lemma deploy_foundry_artifact_witness :
  Responsive Stub.success ∧
  json_getitem Stub.artifact_json "abi" = Return (JOther true) ∧
  json_getitem Stub.artifact_json "bytecode" = Return (JObj [("object", JStr "0x00")]) ∧
  json_getitem (JObj [("object", JStr "0x00")]) "object" = Return (JStr "0x00") ∧
  json_truthy (JStr "0x00") = true ∧
  ∃ n h r w',
    Common.deploy (External0 := Stub.success) 1 Stub.artifact_json (Stub.acct "A") Stub.w0
      = (Return {| contract_address := contractAddress r;
                   contract_abi := JOther true |}, w') ∧
    events_since Stub.w0 w'
      = [EvGetCount "A" n;
         EvSend (deploy_tx 1 (JOther true) (JStr "0x00") (Stub.acct "A") n) h;
         EvReceipt h r].
Proof.
  split; [apply (stub_responsive _)|]. do 4 (split; [reflexivity|]).
  exact (DeployProps.deploy_foundry_artifact (External0 := Stub.success) 1
           Stub.artifact_json (JOther true) (JObj [("object", JStr "0x00")])
           (JStr "0x00") (Stub.acct "A") Stub.w0 (stub_responsive _)
           eq_refl eq_refl eq_refl eq_refl).
Defined.

Lemma deploy_entry_without_object_witness :
  let entry := JObj [("sourceMap", JStr "1:2:3")] in
  Responsive Stub.success ∧
  json_getitem Scenario.artifact_without_object "abi" = Return (JOther true) ∧
  json_getitem Scenario.artifact_without_object "bytecode" = Return entry ∧
  json_get entry "object" JNull = Return JNull ∧
  json_truthy JNull = false ∧ json_truthy entry = true ∧
  ∃ n h r w',
    Common.deploy (External0 := Stub.success) 1 Scenario.artifact_without_object
      (Stub.acct "A") Stub.w0
      = (Return {| contract_address := contractAddress r;
                   contract_abi := JOther true |}, w') ∧
    events_since Stub.w0 w'
      = [EvGetCount "A" n;
         EvSend (deploy_tx 1 (JOther true) entry (Stub.acct "A") n) h;
         EvReceipt h r].
Proof.
  intros entry.
  split; [apply (stub_responsive _)|]. do 5 (split; [reflexivity|]).
  exact (DeployProps.deploy_entry_without_object (External0 := Stub.success) 1
           Scenario.artifact_without_object (JOther true) entry JNull
           (Stub.acct "A") Stub.w0 (stub_responsive _)
           eq_refl eq_refl eq_refl eq_refl eq_refl).
Defined.

Lemma deploy_evm_fallback_witness :
  let eb := JObj [("object", JStr "6080")] in
  let e := JObj [("bytecode", eb)] in
  Responsive Stub.success ∧
  json_getitem Scenario.artifact_evm "abi" = Return (JOther true) ∧
  json_getitem Scenario.artifact_evm "bytecode" = Raise (KeyError "bytecode") ∧
  json_getitem Scenario.artifact_evm "evm" = Return e ∧
  json_getitem e "bytecode" = Return eb ∧
  json_getitem eb "object" = Return (JStr "6080") ∧
  ∃ n h r w',
    Common.deploy (External0 := Stub.success) 1 Scenario.artifact_evm
      (Stub.acct "A") Stub.w0
      = (Return {| contract_address := contractAddress r;
                   contract_abi := JOther true |}, w') ∧
    events_since Stub.w0 w'
      = [EvGetCount "A" n;
         EvSend (deploy_tx 1 (JOther true) (JStr "6080") (Stub.acct "A") n) h;
         EvReceipt h r].
Proof.
  intros eb e.
  split; [apply (stub_responsive _)|]. do 5 (split; [reflexivity|]).
  exact (DeployProps.deploy_evm_fallback (External0 := Stub.success) 1
           Scenario.artifact_evm (JOther true) e eb (JStr "6080")
           (Stub.acct "A") Stub.w0 (stub_responsive _)
           eq_refl eq_refl eq_refl eq_refl eq_refl).
Defined.

Lemma deploy_flat_bytecode_raises_witness :
  json_getitem Scenario.flat_artifact "abi" = Return (JOther true) ∧
  json_getitem Scenario.flat_artifact "bytecode" = Return (JStr "0x6080") ∧
  (∀ kvs, JStr "0x6080" ≠ JObj kvs) ∧
  Common.deploy (External0 := Stub.success) 1 Scenario.flat_artifact (Stub.acct "A")
    Stub.w0 = (Raise AttributeError, Stub.w0).
Proof.
  do 2 (split; [reflexivity|]). split; [discriminate|].
  exact (DeployProps.deploy_flat_bytecode_raises (External0 := Stub.success) 1
           Scenario.flat_artifact (JOther true) (JStr "0x6080") (Stub.acct "A") Stub.w0
           eq_refl eq_refl ltac:(discriminate)).
Defined.

Lemma deploy_failures_witness :
  let run := Common.deploy (External0 := Stub.success) 1 (JObj []) (Stub.acct "A") in
  (run Stub.w0).1 = Raise (KeyError "abi") ∧
  ((document_error (KeyError "abi") ∧ (run Stub.w0).2 = Stub.w0) ∨
   ((∃ nm, KeyError "abi" = LibraryError nm) ∧ ¬ Responsive Stub.success ∧
    receipts (trace run Stub.w0) = [])).
Proof.
  intros run. split; [reflexivity|].
  exact (DeployProps.deploy_failures (External0 := Stub.success) 1 (JObj [])
           (Stub.acct "A") Stub.w0 (KeyError "abi") eq_refl).
Defined.
End DeployRuns.

(** * Starting and stopping *)

Module LifecycleFacts.
Import Common CleanupFacts.

Section Lifecycle.
Context {σ : Type} `{!External σ}.

(** The three ways through [main]: the build fails, Anvil does not
    start, or the body of the [try] runs and Anvil is stopped. *)
Lemma guarded_main_run (body : M σ unit) (w : World σ) :
  let main := print "📦 Compiling with forge...";; run BUILD_CMD;;
              try_finally_var start_anvil (λ _, body) stop_process in
  let out := stdout w ++ ["📦 Compiling with forge..."; "$ forge build"] in
  match os_run BUILD_CMD (outside w) with
  | (Fault nm, s) =>
      main w = (Raise (LibraryError nm),
                mkWorld s (rpc_log w) out (child w) (files w))
  | (Reply _, s1) =>
      match os_popen ANVIL_CMD s1 with
      | (Fault nm, s2) =>
          main w = (Raise (LibraryError nm),
                    mkWorld s2 (rpc_log w) (out ++ ["🚀 Starting Anvil..."])
                      (child w) (files w))
      | (Reply _, s2) =>
          let w1 := mkWorld s2 (rpc_log w) (out ++ ["🚀 Starting Anvil..."])
                      Alive (files w) in
          main w = ((body w1).1, (stop_process (Some tt) (body w1).2).2)
      end
  end.
Proof.
  intros main out. unfold main, out. rewrite bind_run. cbn [print modify].
  rewrite bind_run, run_run. cbn [outside rpc_log stdout child files].
  destruct (os_run BUILD_CMD (outside w)) as [[[]|nm] s].
  2:{ cbn. rewrite <-?app_assoc. reflexivity. }
  cbv beta iota zeta. unfold try_finally_var. rewrite start_anvil_run.
  cbn [outside rpc_log stdout child files].
  destruct (os_popen ANVIL_CMD s) as [[[]|nm] s1].
  2:{ cbn. rewrite <-?app_assoc. reflexivity. }
  cbv beta iota zeta. unfold try_finally.
  match goal with |- _ = ((body ?wr).1, _) => set (w1 := wr) end.
  match goal with |- context [body ?w0] =>
    replace w0 with w1 by (unfold w1; f_equal; rewrite <-?app_assoc; reflexivity)
  end.
  destruct (body w1) as [o w2].
  pose proof (stop_process_returns (Some tt) w2) as Hs. cbn [fst snd].
  destruct (stop_process (Some tt) w2) as [[[]|e] w3]; [done|]. simpl in Hs. done.
Qed.

Lemma stop_process_quiet (w : World σ) :
  rpc_log (stop_process (Some tt) w).2 = rpc_log w ∧
  files (stop_process (Some tt) w).2 = files w ∧
  (child w = Alive → child (stop_process (Some tt) w).2 = Dead).
Proof.
  rewrite stop_process_run. destruct (child w); try done.
  destruct (os_exited_meanwhile (outside w)) as [[] s]; [done|].
  by destruct (os_exits_in_time s) as [? s'].
Qed.

(** When [main] returns, the body of its [try] returned, and the log
    is as the body left it. *)
Lemma guarded_main_returns_log (body : M σ unit) (w : World σ) :
  ((print "📦 Compiling with forge...";; run BUILD_CMD;;
    try_finally_var start_anvil (λ _, body) stop_process) w).1 = Return tt →
  ∃ w1 w2, body w1 = (Return tt, w2) ∧ rpc_log w1 = rpc_log w ∧
           rpc_log ((print "📦 Compiling with forge...";; run BUILD_CMD;;
                     try_finally_var start_anvil (λ _, body) stop_process) w).2
           = rpc_log w2.
Proof.
  pose proof (guarded_main_run body w) as Hm. cbv zeta in Hm.
  destruct (os_run BUILD_CMD (outside w)) as [[[]|nm] s1]; [|by rewrite Hm].
  destruct (os_popen ANVIL_CMD s1) as [[[]|nm] s2]; [|by rewrite Hm].
  rewrite Hm. cbn [fst snd].
  match goal with |- (body ?w1).1 = _ → _ =>
    destruct (body w1) as [o w2] eqn:Hb; intros Ho; exists w1, w2
  end. simpl in Ho. subst o. destruct (stop_process_quiet w2) as (Hl & _). done.
Qed.

End Lifecycle.
End LifecycleFacts.

Module LifecycleProps.
Import Common CleanupFacts LifecycleFacts.

Section Props.
Context {σ : Type} `{!External σ}.

(** X11.  [stop_process] never raises and changes neither the log nor the
    files.  It prints its line at most once, leaves a child that was
    running stopped, and does nothing at all without a process handle
    or when the child is not running; a second call does nothing. *)
Theorem stop_process_settles (p : option unit) (w : World σ) :
  let w' := (stop_process p w).2 in
  (stop_process p w).1 = Return tt ∧
  stop_process p w' = (Return tt, w') ∧
  stop_process None w = (Return tt, w) ∧
  rpc_log w' = rpc_log w ∧ files w' = files w ∧
  (stdout w' = stdout w ∨ stdout w' = stdout w ++ ["🛑 Stopping Anvil..."]) ∧
  match p, child w with
  | Some _, Alive => child w' = Dead
  | _, _ => w' = w
  end.
Proof.
  destruct p as [[]|]; [|by cbn; split_and!; auto]. cbv zeta.
  rewrite !stop_process_run.
  destruct (child w) eqn:Hc; cbn [fst snd]; rewrite ?Hc;
    try (by split_and!; auto).
  destruct (os_exited_meanwhile (outside w)) as [[] s]; cbn;
    [by split_and!; auto|].
  destruct (os_exits_in_time s) as [? s']; cbn. by split_and!; auto.
Qed.

(** X12.  When [forge build] fails, [main] of either script raises that
    error at once: two lines are printed, Anvil is not started, and the
    [finally] clause is not reached. *)
Theorem build_failure_stops_main (cfg1 : GasBench1.Config) (cfg2 : GasBench2.Config)
    (w : World σ) nm s :
  os_run BUILD_CMD (outside w) = (Fault nm, s) →
  let w' := mkWorld s (rpc_log w)
              (stdout w ++ ["📦 Compiling with forge..."; "$ forge build"])
              (child w) (files w) in
  GasBench1.main cfg1 w = (Raise (LibraryError nm), w') ∧
  GasBench2.main cfg2 w = (Raise (LibraryError nm), w').
Proof.
  intros Hrun w'.
  pose proof (guarded_main_run (GasBench1.main_try cfg1) w) as H1.
  pose proof (guarded_main_run (GasBench2.main_try cfg2) w) as H2.
  cbv zeta in H1, H2. rewrite Hrun in H1, H2. by split.
Qed.

(** X13.  When Anvil cannot be started, [main] of either script raises that
    error; the [finally] clause finds no process to stop and prints
    nothing. *)
Theorem anvil_failure_stops_main (cfg1 : GasBench1.Config) (cfg2 : GasBench2.Config)
    (w : World σ) s1 nm s2 :
  os_run BUILD_CMD (outside w) = (Reply tt, s1) →
  os_popen ANVIL_CMD s1 = (Fault nm, s2) →
  let w' := mkWorld s2 (rpc_log w)
              (stdout w ++ ["📦 Compiling with forge..."; "$ forge build";
                            "🚀 Starting Anvil..."])
              (child w) (files w) in
  GasBench1.main cfg1 w = (Raise (LibraryError nm), w') ∧
  GasBench2.main cfg2 w = (Raise (LibraryError nm), w').
Proof.
  intros Hrun Hpopen w'.
  pose proof (guarded_main_run (GasBench1.main_try cfg1) w) as H1.
  pose proof (guarded_main_run (GasBench2.main_try cfg2) w) as H2.
  cbv zeta in H1, H2. rewrite Hrun, Hpopen in H1, H2.
  rewrite <-app_assoc in H1, H2. by split.
Qed.

(** X14.  Once Anvil runs, [main] ends the way the body of its [try] ends:
    with the same result or the same exception, the same log and the
    same files.  Stopping Anvil never replaces the error of the run. *)
Theorem cleanup_keeps_outcome (cfg1 : GasBench1.Config) (cfg2 : GasBench2.Config)
    (w : World σ) s1 s2 :
  os_run BUILD_CMD (outside w) = (Reply tt, s1) →
  os_popen ANVIL_CMD s1 = (Reply tt, s2) →
  let w1 := mkWorld s2 (rpc_log w)
              (stdout w ++ ["📦 Compiling with forge..."; "$ forge build";
                            "🚀 Starting Anvil..."])
              Alive (files w) in
  let same (main body : M σ unit) :=
    (main w).1 = (body w1).1 ∧
    rpc_log (main w).2 = rpc_log (body w1).2 ∧
    files (main w).2 = files (body w1).2 in
  same (GasBench1.main cfg1) (GasBench1.main_try cfg1) ∧
  same (GasBench2.main cfg2) (GasBench2.main_try cfg2).
Proof.
  intros Hrun Hpopen w1 same.
  pose proof (guarded_main_run (GasBench1.main_try cfg1) w) as H1.
  pose proof (guarded_main_run (GasBench2.main_try cfg2) w) as H2.
  cbv zeta in H1, H2. rewrite Hrun, Hpopen in H1, H2.
  rewrite <-app_assoc in H1, H2. fold w1 in H1, H2.
  unfold same. change (GasBench1.main cfg1 w) with
    ((print "📦 Compiling with forge...";; run BUILD_CMD;;
      try_finally_var start_anvil (λ _, GasBench1.main_try cfg1) stop_process) w).
  change (GasBench2.main cfg2 w) with
    ((print "📦 Compiling with forge...";; run BUILD_CMD;;
      try_finally_var start_anvil (λ _, GasBench2.main_try cfg2) stop_process) w).
  rewrite H1, H2. cbn [fst snd].
  split; (split; [done|]);
    match goal with |- context [stop_process (Some tt) ?w2] =>
      destruct (stop_process_quiet w2) as (Hl & Hf & _)
    end; by rewrite Hl, Hf.
Qed.

(** X15.  When the endpoint does not answer, [main] of either script raises
    [RuntimeError] before anything is asked of the chain: the log and
    the files are as they were, and Anvil has been stopped. *)
Theorem no_connection_is_fatal (cfg1 : GasBench1.Config) (cfg2 : GasBench2.Config)
    (w : World σ) s1 s2 s3 :
  os_run BUILD_CMD (outside w) = (Reply tt, s1) →
  os_popen ANVIL_CMD s1 = (Reply tt, s2) →
  web3_is_connected s2 = (false, s3) →
  let fatal (main : M σ unit) :=
    (main w).1 = Raise (RuntimeError "Could not connect to Anvil RPC at 127.0.0.1:8545") ∧
    rpc_log (main w).2 = rpc_log w ∧
    files (main w).2 = files w ∧
    child (main w).2 = Dead in
  fatal (GasBench1.main cfg1) ∧ fatal (GasBench2.main cfg2).
Proof.
  intros Hrun Hpopen Hconn fatal.
  pose proof (guarded_main_run (GasBench1.main_try cfg1) w) as H1.
  pose proof (guarded_main_run (GasBench2.main_try cfg2) w) as H2.
  cbv zeta in H1, H2. rewrite Hrun, Hpopen in H1, H2.
  unfold fatal. change (GasBench1.main cfg1 w) with
    ((print "📦 Compiling with forge...";; run BUILD_CMD;;
      try_finally_var start_anvil (λ _, GasBench1.main_try cfg1) stop_process) w).
  change (GasBench2.main cfg2 w) with
    ((print "📦 Compiling with forge...";; run BUILD_CMD;;
      try_finally_var start_anvil (λ _, GasBench2.main_try cfg2) stop_process) w).
  rewrite H1, H2. cbn [fst snd].
  unfold GasBench1.main_try, GasBench2.main_try. rewrite !bind_run.
  unfold connect_web3. rewrite !bind_run. unfold ask_bool.
  cbn [outside rpc_log stdout child files]. rewrite Hconn.
  cbn [set_outside raise fst snd outside rpc_log stdout child files].
  split; (split; [done|]);
    match goal with |- context [stop_process (Some tt) ?w2] =>
      destruct (stop_process_quiet w2) as (Hl & Hf & Hd)
    end; rewrite Hl, Hf; split_and!; try done; by apply Hd.
Qed.

End Props.
End LifecycleProps.

Section LifecycleRuns.

Lemma build_failure_stops_main_witness :
  let E := Scenario.chain Scenario.broken_build in
  os_run (External := E) Common.BUILD_CMD (outside Stub.w0)
    = (Fault "CalledProcessError", 0%nat) ∧
  (GasBench1.main (External0 := E) Stub.small_config Stub.w0).1
    = Raise (LibraryError "CalledProcessError") ∧
  child (GasBench2.main (External0 := E) Stub.config2 Stub.w0).2 = NoProc.
Proof.
  intros E. split; [reflexivity|].
  destruct (LifecycleProps.build_failure_stops_main (External0 := E) Stub.small_config
              Stub.config2 Stub.w0 "CalledProcessError" 0%nat eq_refl) as [H1 H2].
  split; [exact (f_equal fst H1)|exact (f_equal (λ r, child r.2) H2)].
Defined.

Lemma anvil_failure_stops_main_witness :
  let E := Scenario.chain Scenario.no_anvil in
  os_run (External := E) Common.BUILD_CMD (outside Stub.w0) = (Reply tt, 0%nat) ∧
  os_popen (External := E) Common.ANVIL_CMD 0%nat = (Fault "FileNotFoundError", 0%nat) ∧
  (GasBench1.main (External0 := E) Stub.small_config Stub.w0).1
    = Raise (LibraryError "FileNotFoundError") ∧
  stdout (GasBench2.main (External0 := E) Stub.config2 Stub.w0).2
    = ["📦 Compiling with forge..."; "$ forge build"; "🚀 Starting Anvil..."].
Proof.
  intros E. split; [reflexivity|]. split; [reflexivity|].
  destruct (LifecycleProps.anvil_failure_stops_main (External0 := E) Stub.small_config
              Stub.config2 Stub.w0 0%nat "FileNotFoundError" 0%nat eq_refl eq_refl)
    as [H1 H2].
  split; [exact (f_equal fst H1)|exact (f_equal (λ r, stdout r.2) H2)].
Defined.

Lemma cleanup_keeps_outcome_witness :
  let E := Scenario.chain Scenario.offline in
  let w1 := mkWorld 0%nat []
              ["📦 Compiling with forge..."; "$ forge build"; "🚀 Starting Anvil..."]
              Alive ∅ in
  os_run (External := E) Common.BUILD_CMD (outside Stub.w0) = (Reply tt, 0%nat) ∧
  os_popen (External := E) Common.ANVIL_CMD 0%nat = (Reply tt, 0%nat) ∧
  (GasBench1.main (External0 := E) Stub.small_config Stub.w0).1
    = (GasBench1.main_try (External0 := E) Stub.small_config w1).1 ∧
  (GasBench2.main (External0 := E) Stub.config2 Stub.w0).1
    = (GasBench2.main_try (External0 := E) Stub.config2 w1).1.
Proof.
  intros E w1. split; [reflexivity|]. split; [reflexivity|].
  destruct (LifecycleProps.cleanup_keeps_outcome (External0 := E) Stub.small_config
              Stub.config2 Stub.w0 0%nat 0%nat eq_refl eq_refl)
    as [(H1 & _) (H2 & _)].
  split; [exact H1|exact H2].
Defined.

Lemma no_connection_is_fatal_witness :
  let E := Scenario.chain Scenario.offline in
  os_run (External := E) Common.BUILD_CMD (outside Stub.w0) = (Reply tt, 0%nat) ∧
  os_popen (External := E) Common.ANVIL_CMD 0%nat = (Reply tt, 0%nat) ∧
  web3_is_connected (External := E) 0%nat = (false, 0%nat) ∧
  (GasBench1.main (External0 := E) Stub.small_config Stub.w0).1
    = Raise (RuntimeError "Could not connect to Anvil RPC at 127.0.0.1:8545") ∧
  child (GasBench2.main (External0 := E) Stub.config2 Stub.w0).2 = Dead.
Proof.
  intros E. do 3 (split; [reflexivity|]).
  destruct (LifecycleProps.no_connection_is_fatal (External0 := E) Stub.small_config
              Stub.config2 Stub.w0 0%nat 0%nat 0%nat eq_refl eq_refl eq_refl)
    as [(H1 & _) (_ & _ & _ & H2)].
  split; [exact H1|exact H2].
Defined.
End LifecycleRuns.

(** * The settings *)

Module ConfigFacts.

Lemma uint_val_pos d acc :
  uint_val d (Z.pos acc) = Z.pos (Pos.of_uint_acc d acc).
Proof.
  revert acc. induction d; intros acc; simpl Pos.of_uint_acc;
    cbn [uint_val]; rewrite <-?IHd; try done; f_equal; lia.
Qed.

Lemma uint_val_0 d : uint_val d 0 = Z.of_uint d.
Proof.
  unfold Z.of_uint. induction d; cbn [uint_val Pos.of_uint]; try done;
    change (10 * 0 + ?k) with k; rewrite ?uint_val_pos; done.
Qed.

Lemma parse_digits_uint d acc after :
  d ≠ Decimal.Nil ∨ after = true →
  parse_digits (String.list_ascii_of_string (NilEmpty.string_of_uint d)) acc after
  = Some (uint_val d acc).
Proof.
  revert acc after. induction d; intros acc after Hd;
    try (cbn [NilEmpty.string_of_uint String.list_ascii_of_string parse_digits uint_val];
         change (digit_of _) with (Some 0) || change (digit_of _) with (Some 1)
         || change (digit_of _) with (Some 2) || change (digit_of _) with (Some 3)
         || change (digit_of _) with (Some 4) || change (digit_of _) with (Some 5)
         || change (digit_of _) with (Some 6) || change (digit_of _) with (Some 7)
         || change (digit_of _) with (Some 8) || change (digit_of _) with (Some 9);
         apply IHd; by right).
  destruct Hd as [?| ->]; done.
Qed.

Lemma no_space_uint d :
  Forall (λ c, is_space c = false)
    (String.list_ascii_of_string (NilEmpty.string_of_uint d)).
Proof. induction d; simpl; constructor; done. Qed.

Lemma lstrip_no_space cs : Forall (λ c, is_space c = false) cs → lstrip cs = cs.
Proof. destruct 1 as [|c cs Hc _]; [done|]. simpl. by rewrite Hc. Qed.

Lemma strip_no_space cs : Forall (λ c, is_space c = false) cs → strip cs = cs.
Proof.
  intros Hcs. unfold strip. rewrite (lstrip_no_space cs Hcs).
  rewrite lstrip_no_space by (by apply Forall_reverse). apply reverse_involutive.
Qed.

Lemma py_int_uint d :
  d ≠ Decimal.Nil → py_int (NilEmpty.string_of_uint d) = Some (Z.of_uint d).
Proof.
  intros Hd. unfold py_int. rewrite strip_no_space by apply no_space_uint.
  rewrite <-uint_val_0, <-(parse_digits_uint d 0 false) by (by left).
  by destruct d.
Qed.

(** [int(str(n)) == n] *)
Lemma py_int_str_of_Z n : py_int (str_of_Z n) = Some n.
Proof.
  rewrite <-(DecimalZ.of_to n) at 2. unfold str_of_Z, Z.to_int.
  destruct n as [|p|p].
  - reflexivity.
  - unfold NilZero.string_of_int, NilZero.string_of_uint.
    pose proof (DecimalPos.Unsigned.to_uint_nonnil p) as Hp.
    destruct (Pos.to_uint p) eqn:Hu; try done; rewrite <-Hu in *;
      by rewrite py_int_uint.
  - unfold NilZero.string_of_int, NilZero.string_of_uint.
    pose proof (DecimalPos.Unsigned.to_uint_nonnil p) as Hp.
    assert (Hs : NilZero.string_of_uint (Pos.to_uint p)
                 = NilEmpty.string_of_uint (Pos.to_uint p)).
    { unfold NilZero.string_of_uint. by destruct (Pos.to_uint p). }
    fold (NilZero.string_of_uint (Pos.to_uint p)). rewrite Hs.
    unfold py_int. cbn [String.list_ascii_of_string].
    rewrite strip_no_space by (constructor; [done|apply no_space_uint]).
    rewrite parse_digits_uint by (by left). rewrite uint_val_0. done.
Qed.

Lemma env_int_set (env : gmap string string) name dflt n :
  env_int (<[name := str_of_Z n]> env) name dflt = Return n.
Proof. unfold env_int. rewrite lookup_insert_eq. simpl. by rewrite py_int_str_of_Z. Qed.

End ConfigFacts.

Module ConfigProps.
Import ConfigFacts.

Lemma env_int_raise (env : gmap string string) name dflt e :
  env_int env name dflt = Raise e → is_Some (py_int dflt) →
  ∃ v, env !! name = Some v ∧ py_int v = None ∧ e = ValueError v.
Proof.
  unfold env_int. destruct (env !! name) as [v|]; simpl.
  - destruct (py_int v) eqn:Hv; [done|]. intros [= <-] _. by exists v.
  - intros He [n Hn]. by rewrite Hn in He.
Qed.

Lemma env_int_bad (env : gmap string string) name dflt v :
  env !! name = Some v → py_int v = None → env_int env name dflt = Raise (ValueError v).
Proof. intros Hv Hbad. unfold env_int. rewrite Hv. simpl. by rewrite Hbad. Qed.

Lemma env_int_return (env : gmap string string) name dflt n v :
  env_int env name dflt = Return n → env !! name = Some v → py_int v = Some n.
Proof.
  unfold env_int. intros Hn Hv. rewrite Hv in Hn. simpl in Hn.
  by destruct (py_int v); simplify_eq.
Qed.

(** X16.  Whatever integers the four variables are set to, negative
    ones included, the settings of the scripts are these integers: the
    decimal text of an integer reads back as that integer.  The texts
    are to stay within the 4300 characters that [int()] reads. *)
Theorem settings_read_back (env : gmap string string) (b a n g : Z) :
  Forall (λ z, plain_text (str_of_Z z)) [b; a; n; g] →
  let env' := <["BLOCK_TIME" := str_of_Z b]> (<["NUM_ACCOUNTS" := str_of_Z a]>
                (<["N" := str_of_Z n]> (<["GAS_GWEI" := str_of_Z g]> env))) in
  GasBench1.load_config env'
  = Return {| GasBench1.BLOCK_TIME := b; GasBench1.NUM_ACCOUNTS := a;
              GasBench1.N := n; GasBench1.GAS_PRICE_GWEI := g |} ∧
  GasBench2.load_config env' = Return {| GasBench2.GAS_PRICE_GWEI := g |}.
Proof.
  intros _ env'. unfold GasBench1.load_config, GasBench2.load_config, env'.
  rewrite env_int_set.
  rewrite !(env_int_other _ "BLOCK_TIME") by done. rewrite env_int_set.
  rewrite !(env_int_other _ "NUM_ACCOUNTS") by done. rewrite env_int_set.
  rewrite !(env_int_other _ "N") by done. rewrite env_int_set. done.
Qed.

(** X17.  When one of the four variables holds text that [int()]
    rejects, [BLOCK_TIME] included, the first script raises
    [ValueError] while it is being loaded, for the first such variable
    in the order [BLOCK_TIME], [NUM_ACCOUNTS], [N], [GAS_GWEI]: nothing
    is printed, built or started. *)
Theorem bad_setting_aborts_import {σ : Type} `{!External σ}
    (env : gmap string string) (k v : string) (w : World σ) :
  (∀ k0 v0, k0 ∈ settings1 → env !! k0 = Some v0 → plain_text v0) →
  k ∈ settings1 → env !! k = Some v → py_int v = None →
  ∃ before k' after v',
    settings1 = before ++ k' :: after ∧
    (∀ k0 v0, k0 ∈ before → env !! k0 = Some v0 → is_Some (py_int v0)) ∧
    env !! k' = Some v' ∧ py_int v' = None ∧
    GasBench1.script env w = (Raise (ValueError v'), w).
Proof.
  intros _ Hk Hv Hbad. unfold GasBench1.script, GasBench1.load_config.
  destruct (env_int env "BLOCK_TIME" "0") as [n1|e] eqn:H1.
  2:{ apply env_int_raise in H1 as (v' & ? & ? & ->); [|by eexists].
      exists [], "BLOCK_TIME", ["NUM_ACCOUNTS"; "N"; "GAS_GWEI"], v'.
      split_and!; try done. intros k0 v0 Hk0. by apply elem_of_nil in Hk0. }
  destruct (env_int env "NUM_ACCOUNTS" "20") as [n2|e] eqn:H2.
  2:{ apply env_int_raise in H2 as (v' & ? & ? & ->); [|by eexists].
      exists ["BLOCK_TIME"], "NUM_ACCOUNTS", ["N"; "GAS_GWEI"], v'.
      split_and!; try done. intros k0 v0 Hk0 Hv0.
      rewrite ?elem_of_cons, ?elem_of_nil in Hk0.
      destruct Hk0 as [->|[]]. eexists; eapply env_int_return; [|exact Hv0]; eassumption. }
  destruct (env_int env "N" "25000") as [n3|e] eqn:H3.
  2:{ apply env_int_raise in H3 as (v' & ? & ? & ->); [|by eexists].
      exists ["BLOCK_TIME"; "NUM_ACCOUNTS"], "N", ["GAS_GWEI"], v'.
      split_and!; try done. intros k0 v0 Hk0 Hv0.
      rewrite ?elem_of_cons, ?elem_of_nil in Hk0.
      destruct Hk0 as [->|[->|[]]]; eexists; (eapply env_int_return; [|exact Hv0]); eassumption. }
  destruct (env_int env "GAS_GWEI" "1") as [n4|e] eqn:H4.
  2:{ apply env_int_raise in H4 as (v' & ? & ? & ->); [|by eexists].
      exists ["BLOCK_TIME"; "NUM_ACCOUNTS"; "N"], "GAS_GWEI", [], v'.
      split_and!; try done. intros k0 v0 Hk0 Hv0.
      rewrite ?elem_of_cons, ?elem_of_nil in Hk0.
      destruct Hk0 as [->|[->|[->|[]]]]; eexists; (eapply env_int_return; [|exact Hv0]); eassumption. }
  exfalso. unfold settings1 in Hk.
  repeat (apply elem_of_cons in Hk as [->|Hk];
          [by erewrite env_int_bad in * by done|]).
  by apply elem_of_nil in Hk.
Qed.

End ConfigProps.

Section ConfigRuns.

Lemma plain_text_many : plain_text "many".
Proof. split; [repeat constructor; simpl; lia|simpl; lia]. Qed.

Lemma settings_read_back_witness :
  Forall (λ z, plain_text (str_of_Z z)) [0; 3; -5; 2] ∧
  GasBench1.load_config
    (<["BLOCK_TIME" := "0"]> (<["NUM_ACCOUNTS" := "3"]>
       (<["N" := "-5"]> (<["GAS_GWEI" := "2"]> ∅))))
  = Return {| GasBench1.BLOCK_TIME := 0; GasBench1.NUM_ACCOUNTS := 3;
              GasBench1.N := -5; GasBench1.GAS_PRICE_GWEI := 2 |}.
Proof.
  assert (Hplain : Forall (λ z, plain_text (str_of_Z z)) [0; 3; -5; 2]).
  { repeat constructor; simpl; lia. }
  split; [exact Hplain|].
  exact (proj1 (ConfigProps.settings_read_back ∅ 0 3 (-5) 2 Hplain)).
Defined.

Lemma bad_setting_aborts_import_witness :
  let env : gmap string string := {["N" := "many"]} in
  (∀ k0 v0, k0 ∈ settings1 → env !! k0 = Some v0 → plain_text v0) ∧
  "N" ∈ settings1 ∧ env !! "N" = Some "many" ∧ py_int "many" = None ∧
  ∃ k' v', GasBench1.script (External0 := Stub.success) env Stub.w0
           = (Raise (ValueError v'), Stub.w0) ∧ env !! k' = Some v'.
Proof.
  intros env.
  assert (Hplain : ∀ k0 v0, k0 ∈ settings1 → env !! k0 = Some v0 → plain_text v0).
  { intros k0 v0 _ Hv0. apply lookup_singleton_Some in Hv0 as [_ <-].
    exact plain_text_many. }
  assert (Hin : "N" ∈ settings1).
  { unfold settings1. rewrite !elem_of_cons. tauto. }
  split; [exact Hplain|].
  split; [exact Hin|]. split; [reflexivity|]. split; [reflexivity|].
  destruct (ConfigProps.bad_setting_aborts_import (External0 := Stub.success) env "N"
              "many" Stub.w0 Hplain Hin eq_refl eq_refl)
    as (_ & k' & _ & v' & _ & _ & Hv & _ & Hrun).
  exists k', v'. split; [exact Hrun|exact Hv].
Defined.
End ConfigRuns.

(** * The progress lines of the pipeliner *)

Module ProgressFacts.

(** [i & (i - 1) == 0] singles out the powers of two. *)
Lemma land_pred_pow2 i :
  1 ≤ i → Z.land i (i - 1) = 0 ↔ ∃ k, 0 ≤ k ∧ i = 2 ^ k.
Proof.
  intros Hi. split.
  - intros Hland. exists (Z.log2 i). split; [apply Z.log2_nonneg|].
    destruct (Z.log2_spec i) as [Hlo Hhi]; [lia|].
    destruct (decide (i = 2 ^ Z.log2 i)) as [|Hne]; [done|exfalso].
    assert (Hpos : 0 < 2 ^ Z.log2 i)
      by (apply Z.pow_pos_nonneg; [lia|apply Z.log2_nonneg]).
    assert (Hlog : Z.log2 (i - 1) = Z.log2 i).
    { apply Z.log2_unique; [apply Z.log2_nonneg|].
      set (a := 2 ^ Z.log2 i) in *. set (b := 2 ^ Z.succ (Z.log2 i)) in *.
      clearbody a b. lia. }
    assert (Hb1 : Z.testbit i (Z.log2 i) = true) by (apply Z.bit_log2; lia).
    assert (Hb2 : Z.testbit (i - 1) (Z.log2 i) = true).
    { rewrite <-Hlog. apply Z.bit_log2. lia. }
    assert (Hb : Z.testbit (Z.land i (i - 1)) (Z.log2 i) = true)
      by (by rewrite Z.land_spec, Hb1, Hb2).
    rewrite Hland, Z.bits_0 in Hb. done.
  - intros (k & Hk & ->).
    replace (2 ^ k - 1) with (Z.ones k) by (rewrite Z.ones_equiv; lia).
    rewrite Z.land_ones by done. apply Z_mod_same_full.
Qed.

Lemma bolt_is_no_tick fn_name i gas j n : bolt_line fn_name i gas ≠ tick_line j n.
Proof. unfold bolt_line, tick_line. intros Heq. by injection Heq. Qed.

End ProgressFacts.

Module ProgressProps.
Import GasBench1 ProgressFacts.

Section Props.
Context {σ : Type} `{!External σ}.

(** X18.  What the pipeliner prints for receipt number [i >= 1] of a batch of
    [n_calls]: the line with the gas exactly when [i] is a power of two
    (1, 2, 4, 8, ...), the line that counts the receipts exactly when
    [i] is a multiple of [max(1, n_calls // 10)], and nothing else.
    Neither line changes what is recorded: the gas of the receipt is
    appended. *)
Theorem progress_lines fn_name n_calls i h gas (w : World σ) r s :
  1 ≤ i →
  web3_wait_for_transaction_receipt h (outside w) = (Reply r, s) →
  let res := collect_receipt fn_name n_calls (i, h) gas w in
  ∃ lines,
    res.1 = Return (gas ++ [gasUsed r]) ∧
    stdout res.2 = stdout w ++ lines ∧
    (bolt_line fn_name i (gasUsed r) ∈ lines ↔ ∃ k, 0 ≤ k ∧ i = 2 ^ k) ∧
    (tick_line i n_calls ∈ lines ↔ (Z.max 1 (n_calls `div` 10) | i)) ∧
    lines `sublist_of` [bolt_line fn_name i (gasUsed r); tick_line i n_calls].
Proof.
  intros Hi Hwait res. unfold res, collect_receipt.
  rewrite bind_run, wait_for_transaction_receipt_run, Hwait.
  pose proof (land_pred_pow2 i Hi) as Hpow.
  pose proof (Z.mod_divide i (Z.max 1 (n_calls `div` 10)) ltac:(lia)) as Hdiv.
  fold (bolt_line fn_name i (gasUsed r)). fold (tick_line i n_calls).
  pose proof (bolt_is_no_tick fn_name i (gasUsed r) i n_calls) as Hne.
  destruct (decide (Z.land i (i - 1) = 0)) as [Hp|Hp];
    destruct (decide (i `mod` Z.max 1 (n_calls `div` 10) = 0)) as [Hd|Hd];
    cbn [mbind M_bind mret M_ret print modify fst snd log_event set_outside
         outside rpc_log stdout child files].
  1: exists [bolt_line fn_name i (gasUsed r); tick_line i n_calls].
  2: exists [bolt_line fn_name i (gasUsed r)].
  3: exists [tick_line i n_calls].
  4: exists [].
  all: rewrite <-Hpow, <-Hdiv; simpl;
    (split_and!;
     [done
     |by rewrite <-?app_assoc, ?app_nil_r
     |rewrite ?elem_of_cons, ?elem_of_nil; intuition congruence
     |rewrite ?elem_of_cons, ?elem_of_nil; intuition congruence
     |repeat first [apply sublist_nil_l | apply sublist_skip | apply sublist_cons]]).
Qed.

End Props.
End ProgressProps.

Section ProgressRuns.

Lemma progress_lines_witness :
  let r := {| gasUsed := 21000; status := 1; contractAddress := Some "0xC0" |} in
  let res := GasBench1.collect_receipt (External0 := Stub.success) "deposit" 25
               (4, "h") [] Stub.w0 in
  1 ≤ 4 ∧
  web3_wait_for_transaction_receipt (External := Stub.success) "h" (outside Stub.w0)
    = (Reply r, 0%nat) ∧
  ∃ lines,
    res.1 = Return [21000] ∧
    stdout res.2 = lines ∧
    (bolt_line "deposit" 4 21000 ∈ lines ↔ ∃ k, 0 ≤ k ∧ 4 = 2 ^ k) ∧
    (tick_line 4 25 ∈ lines ↔ (Z.max 1 (25 `div` 10) | 4)).
Proof.
  intros r res. split; [lia|]. split; [reflexivity|].
  destruct (ProgressProps.progress_lines (External0 := Stub.success) "deposit" 25 4 "h"
              [] Stub.w0 r 0%nat ltac:(lia) eq_refl)
    as (lines & Hres & Hout & Hbolt & Htick & _).
  exists lines. split; [exact Hres|]. split; [exact Hout|]. split; [exact Hbolt|exact Htick].
Defined.
End ProgressRuns.

(** * Writing the report *)

Module SaveFacts.
Import Common.

Section Save.
Context {σ : Type} `{!External σ}.

Local Abbreviation with_files := (λ (w : World σ) (fs : gmap string (list string)),
  mkWorld (outside w) (rpc_log w) (stdout w) (child w) fs).

Lemma write_exact path text (w : World σ) l m :
  files w = <[path := l]> m →
  write path text w = (Return tt, with_files w (<[path := l ++ [text]]> m)).
Proof.
  intros Hf. unfold write, modify. rewrite Hf.
  by rewrite lookup_total_insert_eq, insert_insert_eq.
Qed.

Lemma write_rows_exact path name rows (w : World σ) l m :
  files w = <[path := l]> m →
  for_each (λ row (_ : unit), write path (csv_line name row)) rows tt w
  = (Return tt, with_files w (<[path := l ++ (csv_line name <$> rows)]> m)).
Proof.
  revert w l. induction rows as [|row rows IH]; intros w l Hf; simpl.
  { rewrite app_nil_r, <-Hf. by destruct w. }
  rewrite bind_run, (write_exact _ _ _ l m Hf), (IH _ (l ++ [csv_line name row])) by done.
  by rewrite <-app_assoc.
Qed.

Lemma write_all_exact path all_results (w : World σ) l m :
  files w = <[path := l]> m →
  for_each (λ '(name, rows) (_ : unit),
              for_each (λ row (_ : unit), write path (csv_line name row)) rows tt)
    all_results tt w
  = (Return tt, with_files w (<[path := l ++ report_lines all_results]> m)).
Proof.
  revert w l. induction all_results as [|[name rows] res IH]; intros w l Hf; simpl.
  { unfold report_lines. simpl. rewrite app_nil_r, <-Hf. by destruct w. }
  rewrite bind_run, (write_rows_exact _ _ _ _ l m Hf), (IH _ (l ++ (csv_line name <$> rows)))
    by done.
  rewrite <-app_assoc. reflexivity.
Qed.

Lemma save_csv_exact report all_results (w : World σ) :
  let out := OUT_DIR +:+ "/" +:+ report in
  match os_open_w out (outside w) with
  | (Reply _, s) =>
      save_csv report all_results w
      = (Return tt,
         mkWorld s (rpc_log w) (stdout w ++ ["💾 Saved CSV: " +:+ out]) (child w)
           (<[out := ("contract,i,gas,txhash" +:+ nl) :: report_lines all_results]>
              (files w)))
  | (Fault nm, s) =>
      save_csv report all_results w = (Raise (LibraryError nm), set_outside w s)
  end.
Proof.
  intros out. unfold save_csv. fold out. rewrite bind_run. unfold open_w.
  rewrite bind_run, ask_run.
  destruct (os_open_w out (outside w)) as [[[]|nm] s]; [|done].
  cbn [modify set_outside outside rpc_log stdout child files].
  rewrite bind_run, (write_exact out _ _ [] (files w)) by done.
  rewrite bind_run, (write_all_exact out _ _ _ (files w)) by done.
  reflexivity.
Qed.

End Save.

Lemma commas_app a b : commas (a +:+ b) = (commas a + commas b)%nat.
Proof.
  induction a as [|c a IH]; [done|]. rewrite append_cons. simpl. rewrite IH. lia.
Qed.

Lemma commas_comma_free a : comma_free a → commas a = 0%nat.
Proof.
  induction a as [|c a IH]; [done|]. simpl.
  destruct (Ascii.eqb c ","); [done|]. simpl. exact IH.
Qed.

Lemma split_on_length a : length (split_on "," a) = S (commas a).
Proof.
  induction a as [|c a IH]; [done|]. simpl.
  destruct (Ascii.eqb c ","); simpl; [by rewrite IH|].
  destruct (split_on "," a); simpl in *; lia.
Qed.

End SaveFacts.

Module SaveProps.
Import Common SaveFacts.

Section Props.
Context {σ : Type} `{!External σ}.

(** X19.  [save_csv] replaces the report file: whatever the file held, it
    holds afterwards the header and one line per row of [all_results], in
    the order of the dictionary, and only the header when there are no
    results.  No other file changes, nothing is asked of the chain, and
    one line is printed.  When the file cannot be opened nothing is
    written. *)
Theorem save_csv_replaces_report report all_results (w : World σ) :
  let out := OUT_DIR +:+ "/" +:+ report in
  match os_open_w out (outside w) with
  | (Reply _, s) =>
      save_csv report all_results w
      = (Return tt,
         mkWorld s (rpc_log w) (stdout w ++ ["💾 Saved CSV: " +:+ out]) (child w)
           (<[out := ("contract,i,gas,txhash" +:+ nl) :: report_lines all_results]>
              (files w)))
  | (Fault nm, s) =>
      save_csv report all_results w = (Raise (LibraryError nm), set_outside w s)
  end.
Proof. exact (save_csv_exact report all_results w). Qed.

(** X20.  A line of the report has four fields and one more for every comma
    in the contract name or in the transaction identifier: [save_csv]
    writes both as they are, without quoting. *)
Theorem csv_line_fields name i gas txh :
  length (csv_fields (csv_line name (i, gas, txh)))
  = (4 + commas name + commas txh)%nat.
Proof.
  unfold csv_fields, csv_line.
  replace (name +:+ "," +:+ str_of_Z i +:+ "," +:+ str_of_Z gas +:+ "," +:+ txh +:+ nl)
    with ((name +:+ "," +:+ str_of_Z i +:+ "," +:+ str_of_Z gas +:+ "," +:+ txh) +:+ nl)
    by (by rewrite !append_assoc).
  rewrite chomp_line, split_on_length, !commas_app.
  rewrite !(commas_comma_free (str_of_Z _)) by apply comma_free_str_of_Z.
  simpl. lia.
Qed.

End Props.
End SaveProps.

(** * More on the pipeliner *)

Module PipelinerProps.
Import Common GasBench1 PipelinerFacts.

Section Props.
Context {σ : Type} `{!External σ}.
Variable GAS_PRICE_GWEI : Z.
Variables (contract : Contract) (fn_name : string) (args_factory : Z → list Value).
Variable accounts : list Account.
Variable n_calls : Z.

Local Abbreviation locals :=
  (call_deposit_many_multiacct_locals GAS_PRICE_GWEI contract fn_name
     args_factory accounts n_calls).
Local Abbreviation run :=
  (call_deposit_many_multiacct GAS_PRICE_GWEI contract fn_name
     args_factory accounts n_calls).

Lemma trace_locals w : trace run w = trace locals w.
Proof.
  unfold trace.
  change (run w) with (match locals w with
                       | (Return loc, w') =>
                           (Return (gas_used loc, hex <$> tx_hashes loc), w')
                       | (Raise e, w') => (Raise e, w')
                       end).
  by destruct (locals w) as [[?|?] ?].
Qed.

(** The three phases of a batch, with what each phase has completed
    when the next one starts. *)
Lemma pipeliner_phases_run w :
  ∃ qs sent rs,
    trace locals w = phases qs sent rs ∧
    (sent ≠ [] → qs.*1 = address <$> accounts) ∧
    (rs ≠ [] → length sent = Z.to_nat n_calls) ∧
    rs.*1 `prefix_of` sent.*2 ∧
    match (locals w).1 with
    | Return loc =>
        qs.*1 = address <$> accounts ∧ length sent = Z.to_nat n_calls ∧
        rs.*1 = sent.*2 ∧
        ∀ a, base_nonces loc !! a
             = (λ c, c + Z.of_nat (length (nonces_of a sent))) <$> last_query a qs
    | Raise _ => True
    end.
Proof.
  pose proof (query_base_nonces_run accounts w) as H0.
  destruct (query_base_nonces accounts w) as [[d0|e] w0] eqn:Hq.
  2:{ assert (Hrun : locals w = (Raise e, w0)).
      { unfold call_deposit_many_multiacct_locals. by rewrite bind_run, Hq. }
      destruct H0 as (qs & nm & Hlog & _). exists qs, [], []. rewrite Hrun.
      split; [|split_and!; [by intros []|by intros []|apply prefix_nil|done]].
      apply trace_app. rewrite Hrun. unfold phases. simpl.
      by rewrite Hlog, app_nil_r. }
  destruct H0 as (qs & Hlog0 & Hqs & Hd0).
  assert (Hdom : ∀ acct, acct ∈ accounts → is_Some (d0 !! address acct)).
  { intros acct Hin. rewrite Hd0. apply last_query_is_Some. rewrite Hqs.
    by apply list_elem_of_fmap_2. }
  pose proof (sign_and_send_loop GAS_PRICE_GWEI contract fn_name args_factory accounts
                n_calls d0 w0 Hdom) as H1.
  destruct (for_each (sign_and_send _ _ _ _ _) _ _ w0) as [[[d hs]|e] w1] eqn:Hs.
  2:{ assert (Hrun : locals w = (Raise e, w1)).
      { unfold call_deposit_many_multiacct_locals. by rewrite bind_run, Hq, bind_run, Hs. }
      destruct H1 as (sent & Hlog1 & _). exists qs, sent, []. rewrite Hrun.
      split; [|split_and!; [done|by intros []|apply prefix_nil|done]].
      apply trace_app. rewrite Hrun. unfold phases. simpl.
      by rewrite Hlog1, Hlog0, app_nil_r, <-app_assoc. }
  destruct H1 as (sent & Hlog1 & Hlen & -> & _ & _ & Hd).
  pose proof (collect_receipt_loop fn_name n_calls sent.*2 w1) as H2.
  destruct (for_each (collect_receipt _ _) _ _ w1) as [[gas|e] w2] eqn:Hr.
  2:{ assert (Hrun : locals w = (Raise e, w2)).
      { unfold call_deposit_many_multiacct_locals.
        rewrite bind_run, Hq, bind_run, Hs. cbv beta iota. by rewrite bind_run, Hr. }
      destruct H2 as (rs & Hlog2 & _ & Hrs & _). exists qs, sent, rs. rewrite Hrun.
      split; [|split_and!; done].
      apply trace_app. rewrite Hrun. unfold phases. simpl.
      by rewrite Hlog2, Hlog1, Hlog0, <-!app_assoc. }
  assert (Hrun : locals w = (Return {| base_nonces := d; tx_hashes := sent.*2;
                                       gas_used := gas |}, w2)).
  { unfold call_deposit_many_multiacct_locals.
    rewrite bind_run, Hq, bind_run, Hs. cbv beta iota. by rewrite bind_run, Hr. }
  destruct H2 as (rs & Hlog2 & _ & Hrs & ->). exists qs, sent, rs. rewrite Hrun.
  split.
  { apply trace_app. rewrite Hrun. unfold phases. simpl.
    by rewrite Hlog2, Hlog1, Hlog0, <-!app_assoc. }
  simpl. split_and!; try done; [by rewrite Hrs|]. intros a. by rewrite Hd, Hd0.
Qed.

(** X21.  A batch on any chain, whether it returns or raises: first the
    transaction counts are asked for, then transactions are submitted,
    then receipts are waited for, and nothing else is exchanged with
    the chain.  No transaction is submitted before the count of every
    account of the pool is known, and no receipt is waited for before
    all [n_calls] transactions are submitted; the receipts are asked
    for in the order of submission.  When the batch returns there is
    one count per account, in the order of the pool, and one receipt
    per transaction. *)
Theorem pipeliner_two_phases w :
  ∃ qs sent rs,
    trace run w = phases qs sent rs ∧
    (sent ≠ [] → qs.*1 = address <$> accounts) ∧
    (rs ≠ [] → length sent = Z.to_nat n_calls) ∧
    rs.*1 `prefix_of` sent.*2 ∧
    ∀ gas txs, (run w).1 = Return (gas, txs) →
      qs.*1 = address <$> accounts ∧ length sent = Z.to_nat n_calls ∧
      rs.*1 = sent.*2.
Proof.
  destruct (pipeliner_phases_run w) as (qs & sent & rs & Htr & Hq & Hs & Hr & Hres).
  exists qs, sent, rs. rewrite trace_locals. split_and!; try done.
  intros gas txs.
  change (run w) with (match locals w with
                       | (Return loc, w') =>
                           (Return (gas_used loc, hex <$> tx_hashes loc), w')
                       | (Raise e, w') => (Raise e, w')
                       end).
  destruct (locals w) as [[loc|e] w']; [|done]. intros _.
  by destruct Hres as (? & ? & ? & _).
Qed.

(** X22.  When a batch is over, the local counter of every account is the
    transaction count that the chain reported for it at the start plus
    the number of transactions of the batch that it signed: the nonce
    its next transaction needs.  Addresses outside the pool have no
    counter. *)
Theorem final_nonce_counters w loc a :
  (locals w).1 = Return loc →
  base_nonces loc !! a
  = (λ c, c + Z.of_nat (length (nonces_of a (sends (trace locals w)))))
      <$> queried_count a (trace locals w).
Proof.
  intros Hloc.
  destruct (pipeliner_phases_run w) as (qs & sent & rs & Htr & _ & _ & _ & Hres).
  rewrite Hloc in Hres. destruct Hres as (_ & _ & _ & Hd).
  unfold queried_count. by rewrite Htr, sends_phases, queries_phases, Hd.
Qed.

End Props.
End PipelinerProps.

Section PipelinerRuns.

Lemma final_nonce_counters_witness :
  let locals := GasBench1.call_deposit_many_multiacct_locals (External0 := Stub.success)
                  1 Stub.c0 "deposit" Stub.leaf Stub.pool2 5 in
  ∃ loc,
    (locals Stub.w0).1 = Return loc ∧
    GasBench1.base_nonces loc !! "A" = Some 4 ∧
    GasBench1.base_nonces loc !! "A"
    = (λ c, c + Z.of_nat (length (nonces_of "A" (sends (trace locals Stub.w0)))))
        <$> queried_count "A" (trace locals Stub.w0).
Proof.
  intros locals.
  assert (Hex : ∃ loc, (locals Stub.w0).1 = Return loc)
    by (vm_compute; eexists; reflexivity).
  destruct Hex as [loc Hloc]. exists loc. split; [exact Hloc|]. split.
  - vm_compute in Hloc. injection Hloc as <-. vm_compute. reflexivity.
  - exact (PipelinerProps.final_nonce_counters (External0 := Stub.success) 1 Stub.c0
             "deposit" Stub.leaf Stub.pool2 5 Stub.w0 loc "A" Hloc).
Defined.
End PipelinerRuns.

(** * The ways in which [main] fails *)

Module FailureFacts.
Import Common AccountsFacts DeployFacts LifecycleFacts.

Section Failures.
Context {σ : Type} `{!External σ}.

(** A loop raises what one of its turns raises. *)
Lemma for_each_raises {A S} (P : exn → Prop) (Q : S → World σ → Prop)
    (body : A → S → M σ S) (l : list A) (s : S) (w : World σ) :
  Q s w →
  (∀ x s w, x ∈ l → Q s w →
     match body x s w with
     | (Return s', w') => Q s' w'
     | (Raise e, _) => P e
     end) →
  match for_each body l s w with
  | (Return s', w') => Q s' w'
  | (Raise e, _) => P e
  end.
Proof.
  intros HQ Hstep.
  opose proof (for_each_inv (λ _ s w, Q s w) (λ _ e _, P e) body l s w HQ _) as Hfe.
  - intros done x rest s0 w0 -> HQ0. apply Hstep; [|done].
    apply elem_of_app. right. by left.
  - destruct (for_each body l s w) as [[s'|e] w']; [done|]. by destruct Hfe.
Qed.

Lemma ask_raises {A} (q : σ → reply A * σ) (w : World σ) e w' :
  ask q w = (Raise e, w') → library_error e.
Proof.
  rewrite ask_run. destruct (q (outside w)) as [[a|nm] s]; [done|].
  intros [= <- _]. by exists nm.
Qed.

Lemma connect_web3_raises (w : World σ) e w' :
  connect_web3 w = (Raise e, w') → connection_error e.
Proof.
  unfold connect_web3. rewrite bind_run. unfold ask_bool.
  destruct (web3_is_connected (outside w)) as [[] s]; [done|]. by intros [= <- _].
Qed.

Lemma prepare_accounts_outcome gp n (w : World σ) :
  match (GasBench1.prepare_accounts gp n w).1 with
  | Return accounts => accounts = pool n
  | Raise e => e = IndexError ∨ library_error e
  end.
Proof.
  destruct (web3_get_transaction_count (address base_account) (outside w))
    as [[c|nm] s] eqn:Hc.
  - destruct (prepare_accounts_run gp n w c s Hc)
      as (done & funded & tail & _ & _ & _ & _ & _ & _ & _ & _ & Hres).
    cbv zeta in Hres. destruct (GasBench1.prepare_accounts gp n w).1 as [accounts|e].
    + by destruct Hres.
    + destruct Hres as (_ & [(-> & _)|(nm & -> & _)]); [by left|right; by exists nm].
  - unfold GasBench1.prepare_accounts. cbv zeta.
    rewrite bind_run, get_transaction_count_run. fold base_account. rewrite Hc.
    right. by exists nm.
Qed.

Lemma deploy_raises gp artifact acct (w : World σ) e w' :
  deploy gp artifact acct w = (Raise e, w') → document_error e ∨ library_error e.
Proof.
  intros Hrun.
  destruct (deploy_split gp artifact acct w)
    as [(e' & Hdoc & Hraise)|(abi & code & _ & Heq)].
  - rewrite Hraise in Hrun. injection Hrun as <- _. by left.
  - pose proof (deploy_chain_run gp abi code acct w) as Hc.
    cbv beta in Hc, Heq. rewrite <-Heq, Hrun in Hc. right. by destruct Hc as [? _].
Qed.

Lemma deploy_all_raises gp acct (w : World σ) e w' :
  deploy_all gp acct w = (Raise e, w') → document_error e ∨ library_error e.
Proof.
  intros Hrun. unfold deploy_all in Hrun.
  match type of Hrun with for_each ?b ?l ?s _ = _ =>
    pose proof (for_each_raises (λ e, document_error e ∨ library_error e)
                  (λ _ _, True) b l s w I) as Hfe
  end.
  rewrite Hrun in Hfe. apply Hfe. clear. intros c deployed w _ _.
  rewrite bind_run. unfold load_artifact.
  destruct (ask _ w) as [[artifact|e] w1] eqn:Hload.
  2:{ right. by eapply ask_raises. }
  rewrite bind_run. cbn [print modify]. rewrite bind_run.
  match goal with |- context [deploy gp artifact acct ?w0] =>
    destruct (deploy gp artifact acct w0) as [[contract|e] w2] eqn:Hdep
  end; [done|]. by eapply deploy_raises.
Qed.

Lemma save_csv_raises report all_results (w : World σ) e w' :
  save_csv report all_results w = (Raise e, w') → library_error e.
Proof.
  pose proof (SaveFacts.save_csv_exact report all_results w) as Hs. cbv zeta in Hs.
  destruct (os_open_w _ (outside w)) as [[[]|nm] s]; rewrite Hs; [done|].
  intros [= <- _]. by exists nm.
Qed.

Lemma pipeliner_raises gp contract fn_name args_factory accounts n_calls
    (w : World σ) e w' :
  accounts ≠ [] →
  GasBench1.call_deposit_many_multiacct gp contract fn_name args_factory accounts
    n_calls w = (Raise e, w') →
  library_error e.
Proof.
  intros Hne Hrun.
  destruct (PipelinerFacts.pipeliner_run gp contract fn_name args_factory accounts
              n_calls w) as (qs & sent & rs & _ & _ & _ & _ & _ & _ & _ & Hres).
  simpl in Hres.
  change (GasBench1.call_deposit_many_multiacct gp contract fn_name args_factory
            accounts n_calls w)
    with (match GasBench1.call_deposit_many_multiacct_locals gp contract fn_name
                  args_factory accounts n_calls w with
          | (Return loc, w') =>
              (Return (GasBench1.gas_used loc, hex <$> GasBench1.tx_hashes loc), w')
          | (Raise e, w') => (Raise e, w')
          end) in Hrun.
  destruct (GasBench1.call_deposit_many_multiacct_locals _ _ _ _ _ _ w)
    as [[loc|e'] w1]; [done|].
  injection Hrun as -> _. simpl in Hres.
  destruct Hres as [(_ & ? & _)|(nm & -> & _)]; [done|by exists nm].
Qed.

Lemma stepper_raises gp contract fn_name args_factory acct max_power
    (w : World σ) e w' :
  GasBench2.call_deposit_after_precounts gp contract fn_name args_factory acct
    max_power w = (Raise e, w') →
  library_error e ∨
  ∃ k, 1 ≤ k ≤ max_power ∧
       (e = RuntimeError (GasBench2.set_failed k (2 ^ k - 1)) ∨
        e = RuntimeError (GasBench2.deposit_failed k (2 ^ k - 1))).
Proof.
  intros Hrun. rewrite StepperClaims.stepper_function in Hrun.
  pose proof (StepperFacts.stepper_run gp contract fn_name args_factory acct
                max_power w) as Hs.
  destruct (GasBench2.call_deposit_after_precounts_locals _ _ _ _ _ _ w)
    as [[[[]|e'] lists] w1]; [done|].
  injection Hrun as -> _.
  destruct Hs as (k & cps & w2 & evs & Hk & _ & _ & _ & _ & _ & Hfail).
  destruct Hfail as [(nm & -> & _)|[(-> & _)|(-> & _)]].
  - left. by exists nm.
  - right. exists k. split; [done|by left].
  - right. exists k. split; [done|by right].
Qed.

Lemma run_all1_raises cfg deployed accounts (w : World σ) e w' :
  accounts ≠ [] →
  GasBench1.run_all cfg deployed accounts w = (Raise e, w') → library_error e.
Proof.
  intros Hne Hrun. unfold GasBench1.run_all in Hrun.
  match type of Hrun with for_each ?b ?l ?s _ = _ =>
    pose proof (for_each_raises library_error (λ _ _, True) b l s w I) as Hfe
  end.
  rewrite Hrun in Hfe. apply Hfe. clear -Hne. intros [name obj] [res plots] w _ _.
  rewrite bind_run. cbn [print modify]. rewrite bind_run.
  match goal with |- context [GasBench1.call_deposit_many_multiacct ?a ?b ?c ?d ?e ?f ?w0] =>
    destruct (GasBench1.call_deposit_many_multiacct a b c d e f w0)
      as [[[gas txs]|e'] w1] eqn:Hcall
  end.
  2:{ by eapply pipeliner_raises. }
  rewrite bind_run. unfold print_stats.
  destruct (ask _ w1) as [[[]|e'] w2] eqn:Hstats.
  2:{ by eapply ask_raises. }
  apply ReportClaims.pipeliner_returns in Hcall as (hs & -> & Hg & Hh).
  destruct (ReportClaims.recorded_rows gas hs _ w2 Hg Hh) as (rows & Hrows & _).
  rewrite bind_run, Hrows. done.
Qed.

Lemma run_all2_raises cfg deployed acct (w : World σ) e w' :
  GasBench2.run_all cfg deployed acct w = (Raise e, w') →
  library_error e ∨ checkpoint_error e.
Proof.
  intros Hrun. unfold GasBench2.run_all in Hrun.
  match type of Hrun with for_each ?b ?l ?s _ = _ =>
    pose proof (for_each_raises (λ e, library_error e ∨ checkpoint_error e)
                  (λ _ _, True) b l s w I) as Hfe
  end.
  rewrite Hrun in Hfe. apply Hfe. clear. intros [name obj] [res plots] w _ _.
  rewrite bind_run. cbn [print modify]. rewrite bind_run.
  match goal with |- context [GasBench2.call_deposit_after_precounts ?a ?b ?c ?d ?e ?f ?w0] =>
    destruct (GasBench2.call_deposit_after_precounts a b c d e f w0)
      as [[[gas txs]|e'] w1] eqn:Hcall
  end.
  2:{ apply stepper_raises in Hcall as [?|?]; [by left|by right]. }
  rewrite bind_run. unfold print_stats.
  destruct (ask _ w1) as [[[]|e'] w2] eqn:Hstats.
  2:{ left. by eapply ask_raises. }
  apply ReportClaims.stepper_returns in Hcall as (hs & -> & Hg & Hh).
  destruct (ReportClaims.recorded_rows gas hs _ w2 Hg Hh) as (rows & Hrows & _).
  rewrite bind_run, Hrows. done.
Qed.

(** What the body of [try] raises in either script. *)
Lemma main_try1_raises cfg (w : World σ) e w' :
  GasBench1.main_try cfg w = (Raise e, w') →
  connection_error e ∨ e = IndexError ∨ document_error e ∨ library_error e.
Proof.
  unfold GasBench1.main_try. rewrite bind_run.
  destruct (connect_web3 w) as [[[]|e0] w1] eqn:Hconn.
  2:{ intros [= <- _]. left. by eapply connect_web3_raises. }
  rewrite bind_run.
  pose proof (prepare_accounts_outcome (GasBench1.GAS_PRICE_GWEI cfg)
                (GasBench1.NUM_ACCOUNTS cfg) w1) as Hprep.
  destruct (GasBench1.prepare_accounts _ _ w1) as [[accounts|e0] w2].
  2:{ intros [= <- _]. simpl in Hprep. destruct Hprep as [->|?]; auto. }
  simpl in Hprep. subst accounts. unfold pool at 1. cbn [lookup list_lookup].
  rewrite bind_run. cbn [print modify]. rewrite bind_run.
  match goal with |- context [deploy_all ?gp ?a ?w0] =>
    destruct (deploy_all gp a w0) as [[deployed|e0] w3] eqn:Hdep
  end.
  2:{ intros [= <- _]. apply deploy_all_raises in Hdep as [?|?]; auto. }
  rewrite bind_run.
  destruct (GasBench1.run_all cfg deployed _ w3) as [[[res plots]|e0] w4] eqn:Hall.
  2:{ intros [= <- _]. apply run_all1_raises in Hall; [auto|done]. }
  rewrite bind_run. unfold GasBench1.save_csv.
  destruct (save_csv _ res w4) as [[[]|e0] w5] eqn:Hsave.
  2:{ intros [= <- _]. apply save_csv_raises in Hsave. auto. }
  unfold GasBench1.make_plots. intros Hplots%ask_raises. auto.
Qed.

Lemma main_try2_raises cfg (w : World σ) e w' :
  GasBench2.main_try cfg w = (Raise e, w') →
  connection_error e ∨ document_error e ∨ library_error e ∨ checkpoint_error e.
Proof.
  unfold GasBench2.main_try. rewrite bind_run.
  destruct (connect_web3 w) as [[[]|e0] w1] eqn:Hconn.
  2:{ intros [= <- _]. left. by eapply connect_web3_raises. }
  cbv zeta. rewrite bind_run. cbn [print modify]. rewrite bind_run.
  match goal with |- context [deploy_all ?gp ?a ?w0] =>
    destruct (deploy_all gp a w0) as [[deployed|e0] w3] eqn:Hdep
  end.
  2:{ intros [= <- _]. apply deploy_all_raises in Hdep as [?|?]; auto. }
  rewrite bind_run.
  destruct (GasBench2.run_all cfg deployed _ w3) as [[[res plots]|e0] w4] eqn:Hall.
  2:{ intros [= <- _]. apply run_all2_raises in Hall as [?|?]; auto. }
  rewrite bind_run. unfold GasBench2.save_csv.
  destruct (save_csv _ res w4) as [[[]|e0] w5] eqn:Hsave.
  2:{ intros [= <- _]. apply save_csv_raises in Hsave. auto. }
  unfold GasBench2.make_plots. intros Hplots%ask_raises. auto.
Qed.

End Failures.
End FailureFacts.

Module FailureProps.
Import Common LifecycleFacts FailureFacts.

Section Props.
Context {σ : Type} `{!External σ}.

Lemma guarded_main_raises (P : exn → Prop) (body : M σ unit) (w : World σ) e :
  (∀ w1 e w2, body w1 = (Raise e, w2) → P e) →
  ((print "📦 Compiling with forge...";; run BUILD_CMD;;
    try_finally_var start_anvil (λ _, body) stop_process) w).1 = Raise e →
  library_error e ∨ P e.
Proof.
  intros Hbody. pose proof (guarded_main_run body w) as Hm. cbv zeta in Hm.
  destruct (os_run BUILD_CMD (outside w)) as [[[]|nm] s1].
  2:{ rewrite Hm. intros [= <-]. left. by exists nm. }
  destruct (os_popen ANVIL_CMD s1) as [[[]|nm] s2].
  2:{ rewrite Hm. intros [= <-]. left. by exists nm. }
  rewrite Hm. cbn [fst].
  match goal with |- (body ?w1).1 = _ → _ =>
    destruct (body w1) as [o w2] eqn:Hb
  end.
  simpl. intros ->. right. by eapply Hbody.
Qed.

(** X23.  Every way in which [main] of the first script fails: an error of
    the build, of Anvil, of the library or of the operating system; no
    connection; a malformed artifact; or [IndexError] when the accounts
    are prepared and the latest block is empty.  In particular the
    division by the size of the pool cannot fail: [main] never runs a
    batch with an empty pool. *)
Theorem gas_bench1_failures (cfg : GasBench1.Config) (w : World σ) e :
  (GasBench1.main cfg w).1 = Raise e →
  (library_error e ∨ connection_error e ∨ e = IndexError ∨ document_error e) ∧
  e ≠ ZeroDivisionError.
Proof.
  intros Hrun.
  apply (guarded_main_raises
           (λ e, connection_error e ∨ e = IndexError ∨ document_error e ∨ library_error e)
           (GasBench1.main_try cfg) w e) in Hrun.
  2:{ intros w1 e1 w2. apply main_try1_raises. }
  assert (Hcases : library_error e ∨ connection_error e ∨ e = IndexError
                   ∨ document_error e) by tauto.
  split; [done|]. intros ->.
  destruct Hcases as [[? ?]|[?|[?|[[? ?]|[?|?]]]]]; done.
Qed.

(** X24.  Every way in which [main] of the second script fails: an error of
    the build, of Anvil, of the library or of the operating system; no
    connection; a malformed artifact; or the [RuntimeError] of the
    stepper for a checkpoint between 1 and [POWERS] whose receipt did
    not report success. *)
Theorem gas_bench2_failures (cfg : GasBench2.Config) (w : World σ) e :
  (GasBench2.main cfg w).1 = Raise e →
  library_error e ∨ connection_error e ∨ document_error e ∨ checkpoint_error e.
Proof.
  intros Hrun.
  apply (guarded_main_raises
           (λ e, connection_error e ∨ document_error e ∨ library_error e
                 ∨ checkpoint_error e)
           (GasBench2.main_try cfg) w e) in Hrun.
  2:{ intros w1 e1 w2. apply main_try2_raises. }
  tauto.
Qed.

End Props.
End FailureProps.

Section FailureRuns.

Lemma gas_bench1_failures_witness :
  let E := Scenario.chain Scenario.funded_idle in
  (GasBench1.main (External0 := E) Stub.small_config Stub.w0).1 = Raise IndexError ∧
  IndexError ≠ ZeroDivisionError.
Proof.
  intros E. split; [vm_compute; reflexivity|].
  exact (proj2 (FailureProps.gas_bench1_failures (External0 := E) Stub.small_config
                  Stub.w0 IndexError ltac:(vm_compute; reflexivity))).
Defined.

Lemma gas_bench2_failures_witness :
  let E := Stub.failing in
  let e := RuntimeError (GasBench2.set_failed 1 1) in
  (GasBench2.main (External0 := E) Stub.config2 Stub.w0).1 = Raise e ∧
  (library_error e ∨ connection_error e ∨ document_error e ∨ checkpoint_error e).
Proof.
  intros E e. split; [vm_compute; reflexivity|].
  exact (FailureProps.gas_bench2_failures (External0 := E) Stub.config2 Stub.w0 e
           ltac:(vm_compute; reflexivity)).
Defined.
End FailureRuns.

(** * The two deployments of [main] *)

Module DeployAllFacts.
Import Common DeployFacts.

Section DeployAll.
Context {σ : Type} `{!External σ}.
Variable GAS_PRICE_GWEI : Z.

Lemma deploy_returns artifact acct (w : World σ) c w' :
  deploy GAS_PRICE_GWEI artifact acct w = (Return c, w') →
  ∃ abi code n h r,
    rpc_log w' = rpc_log w ++
      [EvGetCount (address acct) n;
       EvSend (deploy_tx GAS_PRICE_GWEI abi code acct n) h;
       EvReceipt h r] ∧
    c = {| contract_address := contractAddress r; contract_abi := abi |} ∧
    stdout w' = stdout w ∧ child w' = child w ∧ files w' = files w.
Proof.
  intros Hrun.
  destruct (deploy_split GAS_PRICE_GWEI artifact acct w)
    as [(e & _ & Hraise)|(abi & code & _ & Heq)]; [by rewrite Hraise in Hrun|].
  pose proof (deploy_chain_run GAS_PRICE_GWEI abi code acct w) as Hc.
  cbv beta in Hc, Heq. rewrite <-Heq, Hrun in Hc.
  destruct Hc as (n & h & r & ?). by exists abi, code, n, h, r.
Qed.

Lemma ask_returns {A} (q : σ → reply A * σ) (w : World σ) a w' :
  ask q w = (Return a, w') →
  rpc_log w' = rpc_log w ∧ stdout w' = stdout w ∧ child w' = child w ∧
  files w' = files w.
Proof.
  rewrite ask_run. destruct (q (outside w)) as [[a'|nm] s]; [|done].
  by intros [= _ <-].
Qed.

(** One turn of the loop "4) Deploy both". *)
Lemma deploy_one acct (c : contract_spec) deployed (w : World σ) deployed' w' :
  (artifact ← load_artifact (artifact c);
   print ("🧱 Deploying " +:+ name c +:+ " ...");;
   contract ← deploy GAS_PRICE_GWEI artifact acct;
   print ("✅ " +:+ name c +:+ " at " +:+ default "None" (contract_address contract));;
   mret (dict_set (name c)
           {| d_contract := contract; d_fn := fn c;
              d_args_factory := args_factory c |} deployed)) w
  = (Return deployed', w') →
  ∃ abi code n h r,
    rpc_log w' = rpc_log w ++
      [EvGetCount (address acct) n;
       EvSend (deploy_tx GAS_PRICE_GWEI abi code acct n) h;
       EvReceipt h r] ∧
    deployed' = dict_set (name c)
                  {| d_contract := {| contract_address := contractAddress r;
                                      contract_abi := abi |};
                     d_fn := fn c; d_args_factory := args_factory c |} deployed ∧
    stdout w' = stdout w ++
      ["🧱 Deploying " +:+ name c +:+ " ...";
       "✅ " +:+ name c +:+ " at " +:+ default "None" (contractAddress r)] ∧
    child w' = child w ∧ files w' = files w.
Proof.
  intros (artifact & w1 & Hload & Hrest)%ReportFacts.bind_inv.
  apply ReportFacts.bind_inv in Hrest as ([] & w2 & Hp1 & Hrest).
  apply ReportFacts.bind_inv in Hrest as (contract & w3 & Hdep & Hrest).
  apply ReportFacts.bind_inv in Hrest as ([] & w4 & Hp2 & Hret).
  apply ask_returns in Hload as (Hl1 & Ho1 & Hc1 & Hf1).
  injection Hp1 as <-. injection Hp2 as <-. injection Hret as <- <-.
  apply deploy_returns in Hdep as (abi & code & n & h & r & Hlog & -> & Ho & Hc & Hf).
  cbn [outside rpc_log stdout child files] in *.
  exists abi, code, n, h, r. rewrite Hlog, Ho, Hc, Hf, Hl1, Ho1, Hc1, Hf1.
  cbn [contract_address]. by rewrite <-app_assoc.
Qed.

Lemma dict_set_two {V} (v1 v2 : V) :
  dict_set "DepositContractWithProofs" v2 (dict_set "DepositContract" v1 [])
  = [("DepositContract", v1); ("DepositContractWithProofs", v2)].
Proof. reflexivity. Qed.

(** The handle that [main] keeps for a deployed contract. *)
Local Abbreviation handle := (λ (r : Receipt) (abi : json),
  {| d_contract := {| contract_address := contractAddress r; contract_abi := abi |};
     d_fn := "deposit";
     d_args_factory := λ i, [VBytes (keccak_text ("leaf-" +:+ str_of_Z i))] |}).

Lemma deploy_all_result acct (w : World σ) deployed w' :
  deploy_all GAS_PRICE_GWEI acct w = (Return deployed, w') →
  ∃ abi1 code1 n1 h1 r1 abi2 code2 n2 h2 r2,
    rpc_log w' = rpc_log w ++
      [EvGetCount (address acct) n1;
       EvSend (deploy_tx GAS_PRICE_GWEI abi1 code1 acct n1) h1; EvReceipt h1 r1;
       EvGetCount (address acct) n2;
       EvSend (deploy_tx GAS_PRICE_GWEI abi2 code2 acct n2) h2; EvReceipt h2 r2] ∧
    deployed = [("DepositContract", handle r1 abi1);
                ("DepositContractWithProofs", handle r2 abi2)] ∧
    child w' = child w ∧ files w' = files w.
Proof.
  unfold deploy_all, CONTRACTS. cbn [for_each].
  intros (d1 & w1 & H1 & Hrest)%ReportFacts.bind_inv.
  apply ReportFacts.bind_inv in Hrest as (d2 & w2 & H2 & Hret).
  injection Hret as <- <-.
  apply deploy_one in H1 as (abi1 & code1 & n1 & h1 & r1 & Hlog1 & -> & _ & Hc1 & Hf1).
  apply deploy_one in H2 as (abi2 & code2 & n2 & h2 & r2 & Hlog2 & -> & _ & Hc2 & Hf2).
  exists abi1, code1, n1, h1, r1, abi2, code2, n2, h2, r2.
  rewrite Hlog2, Hlog1, <-app_assoc, Hc2, Hc1, Hf2, Hf1.
  cbn [name fn args_factory]. by rewrite dict_set_two.
Qed.

End DeployAll.
End DeployAllFacts.

Module DeployAllProps.
Import Common DeployAllFacts.

Section Props.
Context {σ : Type} `{!External σ}.
Variable GAS_PRICE_GWEI : Z.

Local Abbreviation deploy_tx := (deploy_tx GAS_PRICE_GWEI).

(** X25.  When the loop that deploys the contracts is over, exactly two
    construction transactions were submitted, one per contract and in
    the order of [CONTRACTS], each signed by the given account right
    after its transaction count was asked for, and each receipt was
    waited for before the next step.  The dictionary of deployed
    contracts has the two names in this order; each entry carries the
    address its receipt names, the function name [deposit] and the
    argument generator of its contract. *)
Theorem deploy_all_deploys_both acct (w : World σ) deployed w' :
  deploy_all GAS_PRICE_GWEI acct w = (Return deployed, w') →
  ∃ abi1 code1 n1 h1 r1 abi2 code2 n2 h2 r2,
    events_since w w'
    = [EvGetCount (address acct) n1; EvSend (deploy_tx abi1 code1 acct n1) h1;
       EvReceipt h1 r1;
       EvGetCount (address acct) n2; EvSend (deploy_tx abi2 code2 acct n2) h2;
       EvReceipt h2 r2] ∧
    deployed.*1 = ["DepositContract"; "DepositContractWithProofs"] ∧
    d_contract <$> deployed.*2
    = [{| contract_address := contractAddress r1; contract_abi := abi1 |};
       {| contract_address := contractAddress r2; contract_abi := abi2 |}] ∧
    (∀ obj, obj ∈ deployed.*2 →
       d_fn obj = "deposit" ∧
       ∀ i, d_args_factory obj i = [VBytes (keccak_text ("leaf-" +:+ str_of_Z i))]) ∧
    child w' = child w ∧ files w' = files w.
Proof.
  intros (abi1 & code1 & n1 & h1 & r1 & abi2 & code2 & n2 & h2 & r2
           & Hlog & -> & Hc & Hf)%deploy_all_result.
  exists abi1, code1, n1, h1, r1, abi2, code2, n2, h2, r2.
  unfold events_since. rewrite Hlog, drop_app_length.
  split_and!; try done.
  intros obj. cbn. rewrite !elem_of_cons, elem_of_nil. intros [->|[->|[]]]; done.
Qed.

End Props.
End DeployAllProps.

Section DeployAllRuns.

Lemma deploy_all_deploys_both_witness :
  ∃ deployed w',
    Common.deploy_all (External0 := Stub.success) 1 (Stub.acct "A") Stub.w0
      = (Return deployed, w') ∧
    deployed.*1 = ["DepositContract"; "DepositContractWithProofs"] ∧
    length (events_since Stub.w0 w') = 6%nat.
Proof.
  assert (Hex : ∃ deployed w',
             Common.deploy_all (External0 := Stub.success) 1 (Stub.acct "A") Stub.w0
             = (Return deployed, w')) by (vm_compute; eexists _, _; reflexivity).
  destruct Hex as (deployed & w' & Hrun). exists deployed, w'. split; [exact Hrun|].
  destruct (DeployAllProps.deploy_all_deploys_both (External0 := Stub.success) 1
              (Stub.acct "A") Stub.w0 deployed w' Hrun)
    as (abi1 & code1 & n1 & h1 & r1 & abi2 & code2 & n2 & h2 & r2 & Hev & Hkeys & _).
  split; [exact Hkeys|]. rewrite Hev. reflexivity.
Defined.
End DeployAllRuns.

(** * A run of the second script that succeeds *)

Module Run2Facts.
Import Common GasBench2 DeployAllFacts LifecycleFacts.

Section Run2.
Context {σ : Type} `{!External σ}.
Variable cfg : Config.

Local Abbreviation gp := (GAS_PRICE_GWEI cfg).
Local Abbreviation cp_evs := (λ c acct, cp_events gp c "deposit" leaf_args acct).

Lemma connect_web3_returns (w w' : World σ) :
  connect_web3 w = (Return tt, w') →
  rpc_log w' = rpc_log w ∧ files w' = files w ∧ child w' = child w.
Proof.
  unfold connect_web3. rewrite bind_run. unfold ask_bool.
  destruct (web3_is_connected (outside w)) as [[] s]; [|done]. by intros [= <-].
Qed.

Lemma stepper_log contract fn_name args_factory acct K (w : World σ) gas txs w' :
  call_deposit_after_precounts gp contract fn_name args_factory acct K w
    = (Return (gas, txs), w') →
  ∃ cps, cp_k <$> cps = range 1 (K + 1) ∧ Forall cp_ok cps ∧
         rpc_log w' = rpc_log w
                        ++ (cps ≫= cp_events gp contract fn_name args_factory acct).
Proof.
  intros Hrun. rewrite StepperClaims.stepper_function in Hrun.
  pose proof (StepperFacts.stepper_run gp contract fn_name args_factory acct K w) as Hs.
  destruct (call_deposit_after_precounts_locals _ _ _ _ _ _ w)
    as [[[[]|e] lists] w1]; [|done].
  injection Hrun as -> <-. destruct Hs as (cps & Hks & Hok & _ & _ & Hlog & _).
  by exists cps.
Qed.

(** One turn of the loop over the deployed contracts. *)
Lemma run_all_turn name obj acct st (w : World σ) st' w' :
  (let '(all_results, plot_data) := st in
   print (nl +:+ "➡️  Running " +:+ name
            +:+ ": set depositCount to 2^k-1 then deposit (k=1.."
            +:+ str_of_Z POWERS +:+ ")");;
   '(gas_list, tx_hashes) ←
     call_deposit_after_precounts gp (d_contract obj) (d_fn obj)
       (d_args_factory obj) acct POWERS;
   print_stats name gas_list;;
   rows ← rows_of gas_list tx_hashes;
   let exponents := range 1 (Z.of_nat (length gas_list) + 1) in
   mret (dict_set name rows all_results,
         dict_set name (exponents, gas_list, tick_label <$> exponents) plot_data)) w
  = (Return st', w') →
  ∃ cps, cp_k <$> cps = range 1 (POWERS + 1) ∧ Forall cp_ok cps ∧
         rpc_log w' = rpc_log w
           ++ (cps ≫= cp_events gp (d_contract obj) (d_fn obj) (d_args_factory obj) acct).
Proof.
  destruct st as [res plots].
  intros ([] & w1 & Hp & Hrest)%ReportFacts.bind_inv.
  apply ReportFacts.bind_inv in Hrest as ([gas txs] & w2 & Hcall & Hrest).
  apply ReportFacts.bind_inv in Hrest as ([] & w3 & Hstats & Hrest).
  apply ReportFacts.bind_inv in Hrest as (rows & w4 & Hrows & Hret).
  injection Hp as <-. injection Hret as _ <-.
  pose proof Hcall as (hs & -> & Hg & Hh)%ReportClaims.stepper_returns.
  destruct (ReportClaims.recorded_rows gas hs _ w3 Hg Hh) as (rows' & Hrows' & _).
  rewrite Hrows' in Hrows. injection Hrows as _ <-.
  apply ask_returns in Hstats as (Hl3 & _).
  apply stepper_log in Hcall as (cps & Hks & Hok & Hlog).
  exists cps. rewrite Hl3, Hlog. done.
Qed.

Lemma run_all_log n1 o1 n2 o2 acct (w : World σ) res w' :
  run_all cfg [(n1, o1); (n2, o2)] acct w = (Return res, w') →
  ∃ cps1 cps2,
    cp_k <$> cps1 = range 1 (POWERS + 1) ∧ Forall cp_ok cps1 ∧
    cp_k <$> cps2 = range 1 (POWERS + 1) ∧ Forall cp_ok cps2 ∧
    rpc_log w' = rpc_log w
      ++ (cps1 ≫= cp_events gp (d_contract o1) (d_fn o1) (d_args_factory o1) acct)
      ++ (cps2 ≫= cp_events gp (d_contract o2) (d_fn o2) (d_args_factory o2) acct).
Proof.
  unfold run_all. cbn [for_each].
  intros (st1 & w1 & H1 & Hrest)%ReportFacts.bind_inv.
  apply ReportFacts.bind_inv in Hrest as (st2 & w2 & H2 & Hret).
  injection Hret as _ <-.
  apply (run_all_turn n1 o1 acct ([], [])) in H1 as (cps1 & Hk1 & Hok1 & Hlog1).
  apply (run_all_turn n2 o2 acct st1) in H2 as (cps2 & Hk2 & Hok2 & Hlog2).
  exists cps1, cps2. rewrite Hlog2, Hlog1, <-app_assoc. done.
Qed.

(** The log of the body of [try] when it returns. *)
Lemma main_try_log (w w' : World σ) :
  main_try cfg w = (Return tt, w') →
  let acct := from_key ANVIL_PRIVKEY in
  ∃ abi1 code1 n1 h1 r1 abi2 code2 n2 h2 r2 cps1 cps2,
    cp_k <$> cps1 = range 1 (POWERS + 1) ∧ Forall cp_ok cps1 ∧
    cp_k <$> cps2 = range 1 (POWERS + 1) ∧ Forall cp_ok cps2 ∧
    rpc_log w' = rpc_log w
      ++ deploy_events gp abi1 code1 acct n1 h1 r1
      ++ deploy_events gp abi2 code2 acct n2 h2 r2
      ++ (cps1 ≫= cp_evs (deployed_at r1 abi1) acct)
      ++ (cps2 ≫= cp_evs (deployed_at r2 abi2) acct).
Proof.
  unfold main_try.
  intros ([] & w1 & Hconn & Hrest)%ReportFacts.bind_inv. cbv zeta in Hrest.
  apply ReportFacts.bind_inv in Hrest as ([] & w2 & Hp & Hrest).
  apply ReportFacts.bind_inv in Hrest as (deployed & w3 & Hdep & Hrest).
  apply ReportFacts.bind_inv in Hrest as ([res plots] & w4 & Hall & Hrest).
  apply ReportFacts.bind_inv in Hrest as ([] & w5 & Hsave & Hplots).
  apply connect_web3_returns in Hconn as (Hl1 & _). injection Hp as <-.
  apply deploy_all_result in Hdep
    as (abi1 & code1 & n1 & h1 & r1 & abi2 & code2 & n2 & h2 & r2 & Hl3 & -> & _).
  apply run_all_log in Hall as (cps1 & cps2 & Hk1 & Hok1 & Hk2 & Hok2 & Hl4).
  assert (Hl5 : rpc_log w5 = rpc_log w4).
  { unfold save_csv in Hsave.
    pose proof (SaveFacts.save_csv_exact "gas_report2.csv" res w4) as Hs.
    cbv zeta in Hs. destruct (os_open_w _ (outside w4)) as [[[]|nm] s];
      rewrite Hs in Hsave; [|done]. by injection Hsave as <-. }
  apply ask_returns in Hplots as (Hl6 & _).
  cbv zeta. exists abi1, code1, n1, h1, r1, abi2, code2, n2, h2, r2, cps1, cps2.
  split_and!; try done.
  rewrite Hl6, Hl5, Hl4, Hl3. cbn [rpc_log] in *. rewrite Hl1.
  unfold deploy_events. rewrite <-!app_assoc. done.
Qed.

End Run2.
End Run2Facts.

Module Run2Props.
Import Common GasBench2 Run2Facts LifecycleFacts.

Section Props.
Context {σ : Type} `{!External σ}.
Variable cfg : Config.

Local Abbreviation gp := (GAS_PRICE_GWEI cfg).
Local Abbreviation cp_evs := (λ c acct, cp_events gp c "deposit" leaf_args acct).

Lemma sends_checkpoints contract acct (cps : list cp_record) :
  length (sends (cps ≫= cp_evs contract acct)) = (2 * length cps)%nat ∧
  length (receipts (cps ≫= cp_evs contract acct)) = (2 * length cps)%nat ∧
  ∀ t h, (t, h) ∈ sends (cps ≫= cp_evs contract acct) → signer t = acct.
Proof.
  induction cps as [|c cps (IH1 & IH2 & IH3)]; [split_and!; try done; by intros ?? ?%elem_of_nil|].
  rewrite bind_cons, sends_app, receipts_app, !length_app, IH1, IH2.
  split_and!; [simpl; lia..|].
  intros t h [Hin|Hin]%elem_of_app; [|by eapply IH3].
  cbn in Hin. rewrite !elem_of_cons, elem_of_nil in Hin.
  destruct Hin as [[= -> _]|[[= -> _]|[]]]; done.
Qed.

(** X26.  A run of the second script that returns has exchanged this with
    the chain and nothing else: the deployment of the first contract,
    the deployment of the second, the [POWERS] checkpoints on the first
    contract and the [POWERS] checkpoints on the second, each
    checkpoint for [k = 1, ..., POWERS] in order and with both receipts
    reporting success.  That makes 2 + 4 * 28 = 114 transactions, all
    signed by the account of the Anvil key.  The receipts of the two
    deployments are the only ones whose status is not looked at. *)
Theorem gas_bench2_successful_run (w : World σ) :
  (main cfg w).1 = Return tt →
  let evs := trace (main cfg) w in
  let acct := from_key ANVIL_PRIVKEY in
  ∃ abi1 code1 n1 h1 r1 abi2 code2 n2 h2 r2 cps1 cps2,
    evs = deploy_events gp abi1 code1 acct n1 h1 r1
          ++ deploy_events gp abi2 code2 acct n2 h2 r2
          ++ (cps1 ≫= cp_evs (deployed_at r1 abi1) acct)
          ++ (cps2 ≫= cp_evs (deployed_at r2 abi2) acct) ∧
    cp_k <$> cps1 = range 1 (POWERS + 1) ∧ Forall cp_ok cps1 ∧
    cp_k <$> cps2 = range 1 (POWERS + 1) ∧ Forall cp_ok cps2 ∧
    length (sends evs) = 114%nat ∧ length (receipts evs) = 114%nat ∧
    ∀ t h, (t, h) ∈ sends evs → signer t = acct.
Proof.
  intros Hret. cbv zeta.
  apply (guarded_main_returns_log (main_try cfg) w) in Hret
    as (w1 & w2 & Hbody & Hl1 & Hl2).
  apply main_try_log in Hbody
    as (abi1 & code1 & n1 & h1 & r1 & abi2 & code2 & n2 & h2 & r2 & cps1 & cps2
        & Hk1 & Hok1 & Hk2 & Hok2 & Hlog).
  exists abi1, code1, n1, h1, r1, abi2, code2, n2, h2, r2, cps1, cps2.
  assert (Htr : trace (main cfg) w
                = deploy_events gp abi1 code1 (from_key ANVIL_PRIVKEY) n1 h1 r1
                  ++ deploy_events gp abi2 code2 (from_key ANVIL_PRIVKEY) n2 h2 r2
                  ++ (cps1 ≫= cp_evs (deployed_at r1 abi1) (from_key ANVIL_PRIVKEY))
                  ++ (cps2 ≫= cp_evs (deployed_at r2 abi2) (from_key ANVIL_PRIVKEY))).
  { apply trace_app. etrans; [exact Hl2|]. by rewrite Hlog, Hl1. }
  rewrite Htr. split_and!; try done.
  - rewrite !sends_app, !length_app.
    destruct (sends_checkpoints (deployed_at r1 abi1) (from_key ANVIL_PRIVKEY) cps1)
      as (-> & _ & _).
    destruct (sends_checkpoints (deployed_at r2 abi2) (from_key ANVIL_PRIVKEY) cps2)
      as (-> & _ & _).
    rewrite <-(length_fmap cp_k cps1), <-(length_fmap cp_k cps2), Hk1, Hk2. reflexivity.
  - rewrite !receipts_app, !length_app.
    destruct (sends_checkpoints (deployed_at r1 abi1) (from_key ANVIL_PRIVKEY) cps1)
      as (_ & -> & _).
    destruct (sends_checkpoints (deployed_at r2 abi2) (from_key ANVIL_PRIVKEY) cps2)
      as (_ & -> & _).
    rewrite <-(length_fmap cp_k cps1), <-(length_fmap cp_k cps2), Hk1, Hk2. reflexivity.
  - intros t h. rewrite !sends_app, !elem_of_app.
    intros [Hin|[Hin|[Hin|Hin]]].
    + cbn in Hin. apply list_elem_of_singleton in Hin. by injection Hin as -> _.
    + cbn in Hin. apply list_elem_of_singleton in Hin. by injection Hin as -> _.
    + by eapply (proj2 (proj2 (sends_checkpoints _ _ cps1))).
    + by eapply (proj2 (proj2 (sends_checkpoints _ _ cps2))).
Qed.

End Props.
End Run2Props.

Section Run2Runs.

Lemma gas_bench2_successful_run_witness :
  let main := GasBench2.main (External0 := Stub.success) Stub.config2 in
  (main Stub.w0).1 = Return tt ∧
  length (sends (trace main Stub.w0)) = 114%nat ∧
  length (receipts (trace main Stub.w0)) = 114%nat.
Proof.
  intros main.
  assert (Hret : (main Stub.w0).1 = Return tt) by (vm_compute; reflexivity).
  split; [exact Hret|].
  destruct (Run2Props.gas_bench2_successful_run (External0 := Stub.success) Stub.config2
              Stub.w0 Hret)
    as (abi1 & code1 & n1 & h1 & r1 & abi2 & code2 & n2 & h2 & r2 & cps1 & cps2
        & _ & _ & _ & _ & _ & Hs & Hr & _).
  split; [exact Hs|exact Hr].
Defined.
End Run2Runs.

(** * A run of the first script that succeeds *)

Module Run1Facts.
Import Common GasBench1 AccountsFacts DeployAllFacts LifecycleFacts Run2Facts.

Section Run1.
Context {σ : Type} `{!External σ}.
Variable cfg : Config.

Local Abbreviation gp := (GAS_PRICE_GWEI cfg).
Local Abbreviation batch := (λ c accounts sent,
  round_robin gp c "deposit" leaf_args accounts sent).






End Run1.
End Run1Facts.

Module Run1Props.
Import Common GasBench1 Run1Facts LifecycleFacts.

Section Props.
Context {σ : Type} `{!External σ}.
Variable cfg : Config.

Local Abbreviation gp := (GAS_PRICE_GWEI cfg).
Local Abbreviation batch := (λ c accounts sent,
  round_robin gp c "deposit" leaf_args accounts sent).


End Props.
End Run1Props.

Section Run1Runs.

End Run1Runs.

(** * The sequential runner *)

Module SequentialFacts.
Import Common.

Section Runner.
Context {σ : Type} `{!External σ} `{!Clock σ}.
Variable GAS_PRICE_GWEI : Z.
Variables (contract : Contract) (fn_name : string) (args_factory : Z → list Value).
Variable acct : Account.
Variable n_calls : Z.

Local Abbreviation tx1 := (call_tx GAS_PRICE_GWEI contract fn_name args_factory acct).
Local Abbreviation tx2 :=
  (λ i n (_ : Z), fixed_gas_tx GAS_PRICE_GWEI contract fn_name args_factory acct i n).

Lemma now_run (w : World σ) :
  ∃ t w', now w = (Return t, w') ∧ rpc_log w' = rpc_log w.
Proof.
  unfold now. destruct (time_time (outside w)) as [t s]. by eexists _, _.
Qed.

(** How a turn that raised left the log: the receipt is what was
    missing. *)
Local Abbreviation cut_short := (λ (tx : Z → Z → Z → SignedTx) (i : Z) (evs : list event),
  evs = [] ∨ (∃ n, evs = [EvGetCount (address acct) n]) ∨
  ∃ n g h, evs = [EvGetCount (address acct) n; EvSend (tx i n g) h]).

Lemma one_call2_run i gas hs (w : World σ) :
  match Sequential2.one_call GAS_PRICE_GWEI contract fn_name args_factory acct n_calls
          i (gas, hs) w with
  | (Return (gas', hs'), w') =>
      ∃ c, call_i c = i ∧
           gas' = gas ++ [gasUsed (call_r c)] ∧ hs' = hs ++ [hex (call_h c)] ∧
           rpc_log w' = rpc_log w ++ call_events tx2 acct c
  | (Raise e, w') =>
      ∃ evs, rpc_log w' = rpc_log w ++ evs ∧ cut_short tx2 i evs ∧
             library_error e ∧ ¬ Responsive _
  end.
Proof.
  unfold Sequential2.one_call. rewrite bind_run, get_transaction_count_run.
  destruct (web3_get_transaction_count _ (outside w)) as [[n|nm] s] eqn:Hq.
  2:{ exists []. cbn [log_event set_outside outside rpc_log]. rewrite app_nil_r.
      split_and!; [done|by left|by exists nm|].
      intros [Hr _ _ _]. specialize (Hr (address acct) (outside w)). by rewrite Hq in Hr. }
  rewrite bind_run, build_transaction_run.
  cbn [log_event set_outside outside rpc_log stdout child files].
  destruct (web3_fill_defaults _ _ s) as [[g|nm] s1] eqn:Hfill.
  2:{ exists [EvGetCount (address acct) n]. cbn [log_event set_outside outside rpc_log].
      split_and!; [done|right; left; by exists n|by exists nm|].
      intros [_ Hr _ _].
      match type of Hfill with web3_fill_defaults ?c ?p _ = _ => specialize (Hr c p s) end.
      by rewrite Hfill in Hr. }
  rewrite bind_run, send_raw_transaction_run.
  cbn [log_event set_outside outside rpc_log stdout child files default from_option id
       p_from p_nonce p_gas p_gasPrice].
  destruct (web3_send_raw_transaction _ s1) as [[h|nm] s2] eqn:Hsend.
  2:{ exists [EvGetCount (address acct) n]. cbn [log_event set_outside outside rpc_log].
      split_and!; [done|right; left; by exists n|by exists nm|].
      intros [_ _ Hr _].
      match type of Hsend with web3_send_raw_transaction ?t _ = _ => specialize (Hr t s1) end.
      by rewrite Hsend in Hr. }
  rewrite bind_run, wait_for_transaction_receipt_run.
  cbn [log_event set_outside outside rpc_log stdout child files].
  destruct (web3_wait_for_transaction_receipt h s2) as [[r|nm] s3] eqn:Hwait.
  2:{ exists [EvGetCount (address acct) n;
              EvSend (fixed_gas_tx GAS_PRICE_GWEI contract fn_name args_factory acct i n) h].
      cbn [log_event set_outside outside rpc_log]. rewrite <-app_assoc.
      split_and!; [done|right; right; by exists n, 0, h|by exists nm|].
      intros [_ _ _ Hr]. specialize (Hr h s2). by rewrite Hwait in Hr. }
  case_decide; cbn;
    exists {| call_i := i; call_n := n; call_g := g; call_h := h; call_r := r |};
    cbn; rewrite <-!app_assoc; done.
Qed.

Lemma one_call1_run start i gas hs last_t last_i (w : World σ) :
  match Sequential1.one_call GAS_PRICE_GWEI contract fn_name args_factory acct n_calls
          start i (gas, hs, last_t, last_i) w with
  | (Return (gas', hs', _, _), w') =>
      ∃ c, call_i c = i ∧
           gas' = gas ++ [gasUsed (call_r c)] ∧ hs' = hs ++ [hex (call_h c)] ∧
           rpc_log w' = rpc_log w ++ call_events tx1 acct c
  | (Raise e, w') =>
      ∃ evs, rpc_log w' = rpc_log w ++ evs ∧ cut_short tx1 i evs ∧
             library_error e ∧ ¬ Responsive _
  end.
Proof.
  unfold Sequential1.one_call. rewrite bind_run, get_transaction_count_run.
  destruct (web3_get_transaction_count _ (outside w)) as [[n|nm] s] eqn:Hq.
  2:{ exists []. cbn [log_event set_outside outside rpc_log]. rewrite app_nil_r.
      split_and!; [done|by left|by exists nm|].
      intros [Hr _ _ _]. specialize (Hr (address acct) (outside w)). by rewrite Hq in Hr. }
  rewrite bind_run, build_transaction_run.
  cbn [log_event set_outside outside rpc_log stdout child files].
  destruct (web3_fill_defaults _ _ s) as [[g|nm] s1] eqn:Hfill.
  2:{ exists [EvGetCount (address acct) n]. cbn [log_event set_outside outside rpc_log].
      split_and!; [done|right; left; by exists n|by exists nm|].
      intros [_ Hr _ _].
      match type of Hfill with web3_fill_defaults ?c ?p _ = _ => specialize (Hr c p s) end.
      by rewrite Hfill in Hr. }
  rewrite bind_run, send_raw_transaction_run.
  cbn [log_event set_outside outside rpc_log stdout child files default from_option id
       p_from p_nonce p_gas p_gasPrice].
  destruct (web3_send_raw_transaction _ s1) as [[h|nm] s2] eqn:Hsend.
  2:{ exists [EvGetCount (address acct) n]. cbn [log_event set_outside outside rpc_log].
      split_and!; [done|right; left; by exists n|by exists nm|].
      intros [_ _ Hr _].
      match type of Hsend with web3_send_raw_transaction ?t _ = _ => specialize (Hr t s1) end.
      by rewrite Hsend in Hr. }
  rewrite bind_run, wait_for_transaction_receipt_run.
  cbn [log_event set_outside outside rpc_log stdout child files].
  destruct (web3_wait_for_transaction_receipt h s2) as [[r|nm] s3] eqn:Hwait.
  2:{ exists [EvGetCount (address acct) n; EvSend (tx1 i n g) h].
      cbn [log_event set_outside outside rpc_log]. rewrite <-app_assoc.
      split_and!; [done|right; right; by exists n, g, h|by exists nm|].
      intros [_ _ _ Hr]. specialize (Hr h s2). by rewrite Hwait in Hr. }
  rewrite bind_run.
  match goal with |- context [(if decide (Z.land _ _ = 0) then ?a else ?b) ?w0] =>
    assert (Hp : ∃ w1, (if decide (Z.land (i + 1) i = 0) then a else b) w0 = (Return tt, w1)
                       ∧ rpc_log w1 = rpc_log w0)
      by (case_decide; by eexists);
    destruct Hp as (w1 & -> & Hl1)
  end.
  case_decide.
  - rewrite bind_run. destruct (now_run w1) as (t & w2 & -> & Hl2). cbn.
    exists {| call_i := i; call_n := n; call_g := g; call_h := h; call_r := r |}.
    cbn. rewrite Hl2, Hl1. cbn. by rewrite <-!app_assoc.
  - cbn.
    exists {| call_i := i; call_n := n; call_g := g; call_h := h; call_r := r |}.
    cbn. rewrite Hl1. cbn. by rewrite <-!app_assoc.
Qed.

(** The loop of either runner, seen through the two lists [view st]
    that it fills. *)
Lemma calls_loop {S} (tx : Z → Z → Z → SignedTx) (view : S → list Z * list string)
    (body : Z → S → M σ S) (l : list Z) (st : S) (w : World σ) :
  (∀ i st w,
     match body i st w with
     | (Return st', w') =>
         ∃ c, call_i c = i ∧
              (view st').1 = (view st).1 ++ [gasUsed (call_r c)] ∧
              (view st').2 = (view st).2 ++ [hex (call_h c)] ∧
              rpc_log w' = rpc_log w ++ call_events tx acct c
     | (Raise e, w') =>
         ∃ evs, rpc_log w' = rpc_log w ++ evs ∧ cut_short tx i evs ∧
                library_error e ∧ ¬ Responsive _
     end) →
  view st = ([], []) →
  match for_each body l st w with
  | (Return st', w') =>
      ∃ calls, call_i <$> calls = l ∧
               (view st').1 = (λ c, gasUsed (call_r c)) <$> calls ∧
               (view st').2 = (λ c, hex (call_h c)) <$> calls ∧
               rpc_log w' = rpc_log w ++ (calls ≫= call_events tx acct)
  | (Raise e, w') =>
      ∃ calls evs, call_i <$> calls `prefix_of` l ∧
                   (length calls < length l)%nat ∧
                   rpc_log w' = rpc_log w ++ (calls ≫= call_events tx acct) ++ evs ∧
                   receipts evs = [] ∧ library_error e ∧ ¬ Responsive _
  end.
Proof.
  intros Hbody Hst.
  opose proof (for_each_inv
    (λ done st' w',
       ∃ calls, call_i <$> calls = done ∧
                (view st').1 = (λ c, gasUsed (call_r c)) <$> calls ∧
                (view st').2 = (λ c, hex (call_h c)) <$> calls ∧
                rpc_log w' = rpc_log w ++ (calls ≫= call_events tx acct))
    (λ done e w',
       ∃ calls evs, call_i <$> calls `prefix_of` l ∧
                    (length calls < length l)%nat ∧
                    rpc_log w' = rpc_log w ++ (calls ≫= call_events tx acct) ++ evs ∧
                    receipts evs = [] ∧ library_error e ∧ ¬ Responsive _)
    body l st w _ _) as Hfe.
  - exists []. rewrite Hst. simpl. by rewrite app_nil_r.
  - intros done i rest st0 w0 Hl (calls & Hks & Hg & Hh & Hlog).
    specialize (Hbody i st0 w0).
    destruct (body i st0 w0) as [[st1|e] w1].
    + destruct Hbody as (c & Hi & Hg1 & Hh1 & Hlog1). exists (calls ++ [c]).
      rewrite !fmap_app, bind_app, Hg1, Hh1, Hg, Hh, Hlog1, Hlog, Hks, <-app_assoc.
      subst i. simpl. rewrite ?app_nil_r. split_and!; reflexivity.
    + destruct Hbody as (evs & Hlog1 & Hcut & He & Hnr). exists calls, evs.
      rewrite Hlog1, Hlog, <-app_assoc, Hks. split_and!; try done.
      * by exists (i :: rest).
      * rewrite Hl, <-Hks, length_app, length_fmap. simpl. lia.
      * destruct Hcut as [->|[(? & ->)|(? & ? & ? & ->)]]; done.
  - destruct (for_each body l st w) as [[st'|e] w']; [done|]. by destruct Hfe.
Qed.

Lemma finish_run (line : string) (b : bool) (w : World σ) :
  ∃ w', (if b then print line else mret tt) w = (Return tt, w') ∧
        rpc_log w' = rpc_log w.
Proof. destruct b; by eexists. Qed.

Lemma calls_complete (calls : list call_record) :
  call_i <$> calls = range 0 n_calls → length calls = Z.to_nat n_calls.
Proof.
  intros Hks. rewrite <-(length_fmap call_i calls), Hks. unfold range.
  rewrite length_seqZ. lia.
Qed.

End Runner.
End SequentialFacts.

Module SequentialProps.
Import Common SequentialFacts.

Section Props.
Context {σ : Type} `{!External σ} `{!Clock σ}.
Variable GAS_PRICE_GWEI : Z.
Variables (contract : Contract) (fn_name : string) (args_factory : Z → list Value).
Variable acct : Account.
Variable n_calls : Z.

Local Abbreviation estimated_tx :=
  (call_tx GAS_PRICE_GWEI contract fn_name args_factory acct).
Local Abbreviation fixed_tx :=
  (λ i n (_ : Z), fixed_gas_tx GAS_PRICE_GWEI contract fn_name args_factory acct i n).

(** X28.  The sequential runner of the first script, on any chain and with
    any clock: call after call, it asks for the transaction count of
    the account, submits the call with that count as its nonce and the
    gas limit that the node estimates, and waits for the receipt before
    it goes on; nothing else is exchanged with the chain.  When it
    returns it has made all [n_calls] calls, for [i = 0, 1, ...] in
    order, and its lists hold the gas used and the identifier of every
    call, whatever the status of the receipts.  When it raises, the
    error is one of the library, on a chain that does not always
    answer, and the call that failed has no receipt. *)
Theorem sequential_runner_estimated_gas (w : World σ) :
  let run := Sequential1.call_deposit_many GAS_PRICE_GWEI contract fn_name
               args_factory acct n_calls in
  ∃ calls partial,
    trace run w = (calls ≫= call_events estimated_tx acct) ++ partial ∧
    call_i <$> calls `prefix_of` range 0 n_calls ∧
    receipts partial = [] ∧
    match (run w).1 with
    | Return (gas, txs) =>
        partial = [] ∧ length calls = Z.to_nat n_calls ∧
        gas = (λ c, gasUsed (call_r c)) <$> calls ∧
        txs = (λ c, hex (call_h c)) <$> calls
    | Raise e => library_error e ∧ ¬ Responsive _
    end.
Proof.
  intros run. unfold run, Sequential1.call_deposit_many, trace, events_since.
  rewrite bind_run. destruct (now_run w) as (t0 & w0 & -> & Hl0).
  rewrite bind_run.
  opose proof (calls_loop acct estimated_tx (λ st, (st.1.1.1, st.1.1.2))
    (Sequential1.one_call GAS_PRICE_GWEI contract fn_name args_factory acct n_calls t0)
    (range 0 n_calls) ([], [], t0, 0) w0 _ eq_refl) as Hloop.
  { intros i [[[gas hs] lt] li] w1.
    pose proof (one_call1_run GAS_PRICE_GWEI contract fn_name args_factory acct n_calls
                  t0 i gas hs lt li w1) as Hturn.
    destruct (Sequential1.one_call _ _ _ _ _ _ _ _ _ w1) as [[[[[gas' hs'] ?] ?]|e] w2];
      done. }
  destruct (for_each _ _ _ w0) as [[[[[gas hs] lt] li]|e] w1].
  - destruct Hloop as (calls & Hks & Hg & Hh & Hlog). simpl in Hg, Hh.
    rewrite bind_run. destruct (now_run w1) as (t1 & w2 & -> & Hl2).
    rewrite bind_run.
    destruct (finish_run (Sequential1.completed_line fn_name n_calls t0 t1)
                (later t1 t0) w2) as (w3 & -> & Hl3).
    exists calls, []. cbn [fst snd mret M_ret].
    rewrite Hl3, Hl2, Hlog, Hl0, drop_app_length, app_nil_r, Hks.
    split_and!; try done. by apply calls_complete.
  - destruct Hloop as (calls & evs & Hpre & _ & Hlog & Hrc & He & Hnr).
    exists calls, evs. cbn [fst snd]. rewrite Hlog, Hl0, drop_app_length. done.
Qed.

(** X29.  The sequential runner of the second script: the same course, with
    the gas limit of every call fixed at 300000. *)
Theorem sequential_runner_fixed_gas (w : World σ) :
  let run := Sequential2.call_deposit_many GAS_PRICE_GWEI contract fn_name
               args_factory acct n_calls in
  ∃ calls partial,
    trace run w = (calls ≫= call_events fixed_tx acct) ++ partial ∧
    call_i <$> calls `prefix_of` range 0 n_calls ∧
    receipts partial = [] ∧
    match (run w).1 with
    | Return (gas, txs) =>
        partial = [] ∧ length calls = Z.to_nat n_calls ∧
        gas = (λ c, gasUsed (call_r c)) <$> calls ∧
        txs = (λ c, hex (call_h c)) <$> calls
    | Raise e => library_error e ∧ ¬ Responsive _
    end.
Proof.
  intros run. unfold run, Sequential2.call_deposit_many, trace, events_since.
  rewrite bind_run. destruct (now_run w) as (t0 & w0 & -> & Hl0).
  rewrite bind_run.
  opose proof (calls_loop acct fixed_tx (λ st, st)
    (Sequential2.one_call GAS_PRICE_GWEI contract fn_name args_factory acct n_calls)
    (range 0 n_calls) ([], []) w0 _ eq_refl) as Hloop.
  { intros i [gas hs] w1.
    pose proof (one_call2_run GAS_PRICE_GWEI contract fn_name args_factory acct n_calls
                  i gas hs w1) as Hturn.
    destruct (Sequential2.one_call _ _ _ _ _ _ _ _ w1) as [[[gas' hs']|e] w2]; done. }
  destruct (for_each _ _ _ w0) as [[[gas hs]|e] w1].
  - destruct Hloop as (calls & Hks & Hg & Hh & Hlog). simpl in Hg, Hh.
    rewrite bind_run. destruct (now_run w1) as (t1 & w2 & -> & Hl2).
    rewrite bind_run.
    destruct (finish_run (Sequential2.completed_line fn_name n_calls t0 t1)
                (later t1 t0) w2) as (w3 & -> & Hl3).
    exists calls, []. cbn [fst snd mret M_ret].
    rewrite Hl3, Hl2, Hlog, Hl0, drop_app_length, app_nil_r, Hks.
    split_and!; try done. by apply calls_complete.
  - destruct Hloop as (calls & evs & Hpre & _ & Hlog & Hrc & He & Hnr).
    exists calls, evs. cbn [fst snd]. rewrite Hlog, Hl0, drop_app_length. done.
Qed.

End Props.
End SequentialProps.

Section SequentialRuns.

(** The runner of the second script on the stub chain. *)
Lemma sequential_runner_on_stub :
  (Sequential2.call_deposit_many (External0 := Stub.success) (Clock0 := stub_clock) 1
     Stub.c0 "deposit" Stub.leaf (Stub.acct "A") 3 Stub.w0).1
  = Return ([21000; 21000; 21000], hex <$> [Stub.h_of 0; Stub.h_of 1; Stub.h_of 2]).
Proof. vm_compute. reflexivity. Qed.
End SequentialRuns.

(** * The rows of the report *)

Module RowsProps.
Import Common.

Section Props.
Context {σ : Type} `{!External σ}.

(** X30.  The rows that [main] builds pair the gas value and the identifier
    at every index of the list of gas values, counted from 0;
    identifiers beyond that are left out.  With fewer identifiers than
    gas values the expression raises [IndexError].  The world is not
    touched. *)
Theorem rows_of_pairs gas_list tx_hashes (w : World σ) :
  rows_of gas_list tx_hashes w
  = if decide (length gas_list ≤ length tx_hashes)%nat
    then (Return (row_at gas_list tx_hashes <$> range 0 (Z.of_nat (length gas_list))), w)
    else (Raise IndexError, w).
Proof.
  unfold rows_of.
  match goal with |- for_each ?b _ _ _ = _ => set (body := b) end.
  opose proof (for_each_inv
    (λ done (rows : list (Z * Z * string)) w',
       w' = w ∧ rows = row_at gas_list tx_hashes <$> done ∧
       (length done ≤ length tx_hashes)%nat)
    (λ done e w', w' = w ∧ e = IndexError ∧ (length tx_hashes < length gas_list)%nat)
    body (range 0 (Z.of_nat (length gas_list))) [] w _ _) as Hfe.
  - split_and!; [done..|]. simpl. lia.
  - intros done i rest rows w1 Hl (-> & -> & Hle). unfold body.
    assert (Hlen : Z.of_nat (length done) = i ∧ i < Z.of_nat (length gas_list)).
    { apply StepperFacts.range_split in Hl as (Hi & Hlt & Hd).
      rewrite Hd. unfold range. rewrite length_seqZ. lia. }
    destruct Hlen as [Hi Hlt].
    destruct (lookup_lt_is_Some_2 gas_list (Z.to_nat i)) as [g Hg]; [lia|].
    rewrite Hg. destruct (tx_hashes !! Z.to_nat i) as [h|] eqn:Hh.
    + split_and!; [done| |].
      * rewrite fmap_app. f_equal.
        change (row_at gas_list tx_hashes <$> [i]) with [row_at gas_list tx_hashes i].
        unfold row_at. by rewrite Hg, Hh.
      * apply lookup_lt_Some in Hh. rewrite length_app. simpl. lia.
    + apply lookup_ge_None in Hh. split_and!; [done..|]. lia.
  - destruct (for_each body _ _ w) as [[rows|e] w'].
    + destruct Hfe as (-> & -> & Hle). unfold range in Hle.
      rewrite length_seqZ in Hle. rewrite decide_True by lia. done.
    + destruct Hfe as (done & -> & -> & Hlt). rewrite decide_False by lia. done.
Qed.

End Props.
End RowsProps.
